(** * The MCP weather client ([src/mcp_client.py]): a shallow embedding

    The client speaks JSON-RPC over a server-sent event stream: a background
    thread ([sse_listener]) reads the stream and fills a queue, the calling
    thread posts a request and polls that queue for the response carrying its
    identifier.

    Conventions of the embedding.
    - A Python [str] is the [string] of its UTF-8 bytes; [bytes.decode] is a
      validity check.
    - A JSON value as [json.loads] builds it is a [json]; a [dict] is an
      association list with distinct keys, in insertion order.
    - Code that can raise lives in the error monad [pyresult].
    - The listener thread and the calling thread share the client object.
      Each time the calling thread looks at the shared state, the environment
      says what the listener consumed since the previous look (a [tick]).
    - [json.loads] and [str(e)] belong to the interpreter and its libraries:
      they are parameters of the development.
    - A reading of [time.time()] is a rational number of seconds; the rounding
      of floating point is not modelled. *)

From Stdlib Require Import String Ascii List ZArith NArith QArith Bool Lia.
From Stdlib Require Import DecimalString.
Import ListNotations.
Local Open Scope string_scope.
Local Open Scope list_scope.

Set Implicit Arguments.
Local Set Warnings "-register-all".

(** ** Python values *)

(** What [json.loads] returns: [None], [bool], [int], [float] (kept as its
    binary64 bit pattern, the client never computes with one), [str], [list]
    and [dict]. *)
Inductive json : Type :=
| JNull
| JBool (b : bool)
| JInt (n : Z)
| JFloat (bits : Z)
| JStr (s : string)
| JArr (items : list json)
| JObj (members : list (string * json)).

(** [d[key]] on the members of a dict. *)
Fixpoint dict_get (members : list (string * json)) (key : string) : option json :=
  match members with
  | [] => None
  | (k, v) :: rest => if String.eqb k key then Some v else dict_get rest key
  end.

(** [d[key] = v]: replaces in place, or appends. *)
Fixpoint dict_set (members : list (string * json)) (key : string) (v : json)
  : list (string * json) :=
  match members with
  | [] => [(key, v)]
  | (k, w) :: rest =>
      if String.eqb k key then (k, v) :: rest else (k, w) :: dict_set rest key v
  end.

(** [v == s] for a [str] [s]: only an equal [str] compares equal. *)
Definition py_eq_str (v : json) (s : string) : bool :=
  match v with
  | JStr t => String.eqb t s
  | _ => false
  end.

(** The bit pattern of the binary64 float [1.0]. *)
Definition float_one_bits : Z := 4607182418800017408.

(** [v == 1]: Python compares numbers by value, and [True == 1]. *)
Definition py_eq_one (v : json) : bool :=
  match v with
  | JInt n => Z.eqb n 1
  | JFloat bits => Z.eqb bits float_one_bits
  | JBool b => b
  | _ => false
  end.

(** ** Exceptions and the error monad *)

Inductive pyexn : Type :=
| AttributeError (obj : json) (attr : string)
| TypeError (operation : string) (obj : json)
| KeyError (key : json)
| IndexError
| JSONDecodeError (doc : string)
| UnicodeDecodeError (raw : string)
| RequestsTimeout (msg : string)
| RequestsConnectionError (msg : string)
| RequestException (msg : string).

Inductive pyresult (A : Type) : Type :=
| Ok (a : A)
| Raise (e : pyexn).
Arguments Ok {A} a.
Arguments Raise {A} e.

Definition bind {A B : Type} (m : pyresult A) (k : A -> pyresult B) : pyresult B :=
  match m with
  | Ok a => k a
  | Raise e => Raise e
  end.

Declare Scope py_scope.
Delimit Scope py_scope with py.
Notation "x <- m ;; k" := (bind m (fun x => k))
  (at level 61, m at next level, right associativity) : py_scope.
Local Open Scope py_scope.

(** ** Strings *)

Fixpoint string_rev_onto (s acc : string) : string :=
  match s with
  | EmptyString => acc
  | String c rest => string_rev_onto rest (String c acc)
  end.

Definition string_rev (s : string) : string := string_rev_onto s EmptyString.

(** [s[n:]] *)
Fixpoint slice_from (n : nat) (s : string) : string :=
  match n, s with
  | O, _ => s
  | S _, EmptyString => EmptyString
  | S m, String _ rest => slice_from m rest
  end.

(** [s.startswith(p)] *)
Fixpoint startswith (s p : string) {struct p} : bool :=
  match p, s with
  | EmptyString, _ => true
  | String a p', String b s' => Ascii.eqb a b && startswith s' p'
  | String _ _, EmptyString => false
  end.

(** [needle in haystack] for two [str]. *)
Fixpoint str_contains (needle haystack : string) : bool :=
  startswith haystack needle ||
  match haystack with
  | EmptyString => false
  | String _ rest => str_contains needle rest
  end.

(** [Some rest] when [s = p ++ rest]. *)
Fixpoint drop_prefix (p s : string) : option string :=
  match p, s with
  | EmptyString, _ => Some s
  | String a p', String b s' => if Ascii.eqb a b then drop_prefix p' s' else None
  | String _ _, EmptyString => None
  end.

Fixpoint drop_any (seps : list string) (s : string) : option string :=
  match seps with
  | [] => None
  | sep :: more =>
      match sep with
      | EmptyString => drop_any more s
      | _ => match drop_prefix sep s with
             | Some rest => Some rest
             | None => drop_any more s
             end
      end
  end.

Fixpoint lstrip_fuel (fuel : nat) (seps : list string) (s : string) : string :=
  match fuel with
  | O => s
  | S fuel' =>
      match drop_any seps s with
      | Some rest => lstrip_fuel fuel' seps rest
      | None => s
      end
  end.

(** Strips from the left every leading occurrence of one of [seps]. *)
Definition lstrip_of (seps : list string) (s : string) : string :=
  lstrip_fuel (String.length s) seps s.

Definition rstrip_of (seps : list string) (s : string) : string :=
  string_rev (lstrip_of (map string_rev seps) (string_rev s)).

Definition bytes_str (bs : list N) : string :=
  fold_right (fun b acc => String (ascii_of_N b) acc) EmptyString bs.

(** The characters [str.isspace] accepts, in UTF-8: U+0009..U+000D,
    U+001C..U+0020, U+0085, U+00A0, U+1680, U+2000..U+200A, U+2028, U+2029,
    U+202F, U+205F and U+3000. *)
Definition whitespace : list string :=
  map bytes_str
    [ [9]; [10]; [11]; [12]; [13]; [28]; [29]; [30]; [31]; [32];
      [194; 133]; [194; 160]; [225; 154; 128];
      [226; 128; 128]; [226; 128; 129]; [226; 128; 130]; [226; 128; 131];
      [226; 128; 132]; [226; 128; 133]; [226; 128; 134]; [226; 128; 135];
      [226; 128; 136]; [226; 128; 137]; [226; 128; 138];
      [226; 128; 168]; [226; 128; 169]; [226; 128; 175]; [226; 129; 159];
      [227; 128; 128] ]%N.

(** [s.strip()] *)
Definition strip (s : string) : string :=
  rstrip_of whitespace (lstrip_of whitespace s).

(** [s.rstrip('/')] *)
Definition rstrip_slash (s : string) : string := rstrip_of ["/"] s.

(** Well-formed UTF-8, byte by byte: [pending] lists the ranges the next
    continuation bytes must fall in. *)
Fixpoint utf8_ok (pending : list (N * N)) (s : string) : bool :=
  match s with
  | EmptyString => match pending with [] => true | _ => false end
  | String c rest =>
      let b := N_of_ascii c in
      let cont := (128, 191)%N in
      match pending with
      | (lo, hi) :: more => (lo <=? b)%N && (b <=? hi)%N && utf8_ok more rest
      | [] =>
          if (b <=? 127)%N then utf8_ok [] rest
          else if (194 <=? b)%N && (b <=? 223)%N then utf8_ok [cont] rest
          else if (b =? 224)%N then utf8_ok [(160, 191)%N; cont] rest
          else if (225 <=? b)%N && (b <=? 236)%N then utf8_ok [cont; cont] rest
          else if (b =? 237)%N then utf8_ok [(128, 159)%N; cont] rest
          else if (238 <=? b)%N && (b <=? 239)%N then utf8_ok [cont; cont] rest
          else if (b =? 240)%N then utf8_ok [(144, 191)%N; cont; cont] rest
          else if (241 <=? b)%N && (b <=? 243)%N then utf8_ok [cont; cont; cont] rest
          else if (b =? 244)%N then utf8_ok [(128, 143)%N; cont; cont] rest
          else false
      end
  end.

(** [line.decode('utf-8')] *)
Definition decode_utf8 (line : string) : pyresult string :=
  if utf8_ok [] line then Ok line else Raise (UnicodeDecodeError line).

Definition is_continuation (c : ascii) : bool :=
  let b := N_of_ascii c in (128 <=? b)%N && (b <=? 191)%N.

(** [len(s)]: the number of code points. *)
Fixpoint str_len (s : string) : Z :=
  match s with
  | EmptyString => 0
  | String c rest => (if is_continuation c then 0 else 1) + str_len rest
  end.

Fixpoint take_continuation (s : string) : string :=
  match s with
  | String c rest => if is_continuation c then String c (take_continuation rest) else EmptyString
  | EmptyString => EmptyString
  end.

(** [s[0]]: the first code point, as a [str]. *)
Definition str_first (s : string) : option string :=
  match s with
  | EmptyString => None
  | String c rest => Some (String c (take_continuation rest))
  end.

(** [str(n)] for an [int]. *)
Definition str_of_int (n : Z) : string := NilZero.string_of_int (Z.to_int n).

(** ** Dynamic operations on values

    Each is total on [json]; where Python raises, the model raises the same
    class of exception. *)

(** [obj.get(key, default)]: only a dict has the method. *)
Definition py_get (obj : json) (key : string) (default : json) : pyresult json :=
  match obj with
  | JObj members =>
      match dict_get members key with
      | Some v => Ok v
      | None => Ok default
      end
  | _ => Raise (AttributeError obj "get")
  end.

(** [key in obj] for a [str] key: a key test on a dict, a membership test
    on a list, a substring test on a str. *)
Definition py_contains (key : string) (obj : json) : pyresult bool :=
  match obj with
  | JObj members =>
      Ok (match dict_get members key with Some _ => true | None => false end)
  | JArr items => Ok (existsb (fun v => py_eq_str v key) items)
  | JStr s => Ok (str_contains key s)
  | _ => Raise (TypeError "in" obj)
  end.

(** [obj[key]] for a [str] key. *)
Definition py_getitem (obj : json) (key : string) : pyresult json :=
  match obj with
  | JObj members =>
      match dict_get members key with
      | Some v => Ok v
      | None => Raise (KeyError (JStr key))
      end
  | _ => Raise (TypeError "getitem" obj)
  end.

(** [len(obj)] *)
Definition py_len (obj : json) : pyresult Z :=
  match obj with
  | JArr items => Ok (Z.of_nat (List.length items))
  | JObj members => Ok (Z.of_nat (List.length members))
  | JStr s => Ok (str_len s)
  | _ => Raise (TypeError "len" obj)
  end.

(** [obj[0]]: the keys of a decoded dict are strings, so [0] is never one. *)
Definition py_getitem_0 (obj : json) : pyresult json :=
  match obj with
  | JArr [] => Raise IndexError
  | JArr (first :: _) => Ok first
  | JStr s =>
      match str_first s with
      | Some c => Ok (JStr c)
      | None => Raise IndexError
      end
  | JObj _ => Raise (KeyError (JInt 0))
  | _ => Raise (TypeError "getitem" obj)
  end.

(** ** The client object and its environment *)

(** The listener thread: its local variable [current_event], and whether the
    thread still runs. *)
Record sse_thread_state : Type := {
  current_event : option string;
  alive : bool
}.

(** [MCPWeatherClient]: the attributes the code reads and writes. The
    [requests.Session] is a handle on the network, which is the environment. *)
Record MCPWeatherClient : Type := {
  server_url : string;
  response_queue : list json;
  message_endpoint : option string;
  sse_thread : sse_thread_state
}.

(** What [response.iter_lines()] yields next: a line, or a fault of the
    connection. *)
Inductive stream_item : Type :=
| Line (raw : string)
| Broken (e : pyexn).

(** One look of the calling thread at the clock and the shared state:
    [now] is what [time.time()] reads, [received] what the listener consumed
    since the previous look. *)
Record tick : Type := {
  now : Q;
  received : list stream_item
}.

(** What [session.post] does: a response, or an exception. *)
Inductive post_result : Type :=
| Response (status_code : Z) (text : string)
| PostRaises (e : pyexn).

(** The history of a run: requests sent and operations on the queue, oldest
    first. [QueuePut] is the listener's, the others are the calling thread's. *)
Inductive event : Type :=
| HttpPost (url : string) (body : json)
| QueuePut (entry : json)
| QueueEmpty (answer : bool)
| QueueGet (entry : json)
| Sleep.

(** How a piece of code ends: it returns, it raises, or the schedule of the
    environment ends while the code is still waiting. *)
Inductive outcome (A : Type) : Type :=
| Returned (v : A)
| Raised (e : pyexn)
| Waiting.
Arguments Returned {A} v.
Arguments Raised {A} e.
Arguments Waiting {A}.

Definition Qltb (x y : Q) : bool := negb (Qle_bool y x).

Definition set_queue (self : MCPWeatherClient) (q : list json) : MCPWeatherClient :=
  {| server_url := server_url self; response_queue := q;
     message_endpoint := message_endpoint self; sse_thread := sse_thread self |}.

Definition set_endpoint (self : MCPWeatherClient) (e : option string) : MCPWeatherClient :=
  {| server_url := server_url self; response_queue := response_queue self;
     message_endpoint := e; sse_thread := sse_thread self |}.

Definition set_thread (self : MCPWeatherClient) (t : sse_thread_state) : MCPWeatherClient :=
  {| server_url := server_url self; response_queue := response_queue self;
     message_endpoint := message_endpoint self; sse_thread := t |}.

Definition set_event (self : MCPWeatherClient) (ev : option string) : MCPWeatherClient :=
  set_thread self {| current_event := ev; alive := alive (sse_thread self) |}.

Definition stop_thread (self : MCPWeatherClient) : MCPWeatherClient :=
  set_thread self {| current_event := current_event (sse_thread self); alive := false |}.

(** [{"success": False, "error": message}] *)
Definition failure (message : json) : json :=
  JObj [("success", JBool false); ("error", message)].

(** [if v:] *)
Definition py_truthy (v : json) : bool :=
  match v with
  | JNull => false
  | JBool b => b
  | JInt n => negb (Z.eqb n 0)
  | JFloat bits => negb (Z.eqb bits 0 || Z.eqb bits 9223372036854775808)
  | JStr s => negb (String.eqb s EmptyString)
  | JArr items => match items with [] => false | _ => true end
  | JObj members => match members with [] => false | _ => true end
  end.

(** A run of a piece of code: how it ends, the client object afterwards and
    what happened meanwhile. *)
Record run (A : Type) : Type := {
  result : outcome A;
  final : MCPWeatherClient;
  history : list event
}.

(** [current_event == name] *)
Definition event_is (ev : option string) (name : string) : bool :=
  match ev with
  | Some e => String.eqb e name
  | None => false
  end.

(** What [_call_tool] is given by its environment: the identifier
    [uuid.uuid4()] draws, the fate of the POST, the clock when polling starts
    and the looks of the poll loop. What the listener consumed while the POST
    was in flight is part of the first look. *)
Record call_env : Type := {
  uuid4 : string;
  post : post_result;
  start_time : Q;
  ticks : list tick
}.

(** What [__init__] is given: the fate of the GET that opens the stream, the
    looks of the loop that waits for the endpoint, what the listener consumed
    between that loop and the test after it, and the fates of the two POSTs of
    the handshake around the looks of its poll loop. *)
Record boot_env : Type := {
  sse_get : option pyexn;
  wait_start : Q;
  wait_ticks : list tick;
  settled : list stream_item;
  init_post : post_result;
  init_start : Q;
  init_ticks : list tick;
  notify_post : post_result
}.

(** The process: the objects it allocated, by address, and the module-level
    variable [_mcp_client]. *)
Record process : Type := {
  heap : list MCPWeatherClient;
  _mcp_client : option nat
}.

(** ** A decoder for a fragment of JSON

    [json.loads] is a parameter of the development. This decoder instantiates
    it in the examples: objects, arrays, strings with the one-letter escapes,
    integers, [true], [false] and [null]. On numbers with a fraction or an
    exponent and on [\u] escapes it answers [None]. *)
Module MiniJson.

Definition is_space (c : ascii) : bool :=
  let b := N_of_ascii c in ((b =? 32) || (b =? 9) || (b =? 10) || (b =? 13))%N.

Fixpoint skip_ws (s : string) : string :=
  match s with
  | String c rest => if is_space c then skip_ws rest else s
  | EmptyString => s
  end.

Definition digit_of (c : ascii) : option Z :=
  let b := N_of_ascii c in
  if ((48 <=? b) && (b <=? 57))%N then Some (Z.of_N b - 48)%Z else None.

Fixpoint digits (acc : Z) (s : string) : Z * string :=
  match s with
  | String c rest =>
      match digit_of c with
      | Some d => digits (10 * acc + d) rest
      | None => (acc, s)
      end
  | EmptyString => (acc, s)
  end.

(** ['0'] or a non-empty run of digits that does not start with ['0']. *)
Definition natural (s : string) : option (Z * string) :=
  match s with
  | String c rest =>
      match digit_of c with
      | Some 0%Z => Some (0%Z, rest)
      | Some d => Some (digits d rest)
      | None => None
      end
  | EmptyString => None
  end.

Definition integral_only (r : Z * string) : option (json * string) :=
  match snd r with
  | String "." _ | String "e" _ | String "E" _ => None
  | _ => Some (JInt (fst r), snd r)
  end.

Definition number (s : string) : option (json * string) :=
  match s with
  | String "-" rest =>
      match natural rest with
      | Some (n, r) => integral_only ((- n)%Z, r)
      | None => None
      end
  | _ =>
      match natural s with
      | Some r => integral_only r
      | None => None
      end
  end.

Definition dquote : ascii := ascii_of_N 34.

Definition unescape (c : ascii) : option ascii :=
  if Ascii.eqb c dquote then Some dquote
  else
    match c with
    | "\"%char => Some "\"%char
    | "/"%char => Some "/"%char
    | "b"%char => Some (ascii_of_N 8)
    | "f"%char => Some (ascii_of_N 12)
    | "n"%char => Some (ascii_of_N 10)
    | "r"%char => Some (ascii_of_N 13)
    | "t"%char => Some (ascii_of_N 9)
    | _ => None
    end.

(** The characters of a string literal after its opening quote. *)
Fixpoint chars (s : string) : option (string * string) :=
  match s with
  | EmptyString => None
  | String c rest =>
      if Ascii.eqb c dquote then Some (EmptyString, rest)
      else if Ascii.eqb c "\"%char then
        match rest with
        | String e rest' =>
            match unescape e, chars rest' with
            | Some c', Some (body, r) => Some (String c' body, r)
            | _, _ => None
            end
        | EmptyString => None
        end
      else if (N_of_ascii c <? 32)%N then None
      else
        match chars rest with
        | Some (body, r) => Some (String c body, r)
        | None => None
        end
  end.

Definition literal (s : string) : option (json * string) :=
  match s with
  | String "t" (String "r" (String "u" (String "e" r))) => Some (JBool true, r)
  | String "f" (String "a" (String "l" (String "s" (String "e" r)))) =>
      Some (JBool false, r)
  | String "n" (String "u" (String "l" (String "l" r))) => Some (JNull, r)
  | other => number other
  end.

Fixpoint value (fuel : nat) (s : string) : option (json * string) :=
  match fuel with
  | O => None
  | S fuel' =>
      match skip_ws s with
      | EmptyString => None
      | String c rest =>
          if Ascii.eqb c "{"%char then
            match skip_ws rest with
            | String "}" r => Some (JObj [], r)
            | _ => members fuel' [] rest
            end
          else if Ascii.eqb c "["%char then
            match skip_ws rest with
            | String "]" r => Some (JArr [], r)
            | _ => elements fuel' [] rest
            end
          else if Ascii.eqb c dquote then
            match chars rest with
            | Some (body, r) => Some (JStr body, r)
            | None => None
            end
          else literal (String c rest)
      end
  end

with elements (fuel : nat) (acc : list json) (s : string) : option (json * string) :=
  match fuel with
  | O => None
  | S fuel' =>
      match value fuel' s with
      | Some (v, r) =>
          match skip_ws r with
          | String "," r' => elements fuel' (v :: acc) r'
          | String "]" r' => Some (JArr (rev (v :: acc)), r')
          | _ => None
          end
      | None => None
      end
  end

with members (fuel : nat) (acc : list (string * json)) (s : string)
  : option (json * string) :=
  match fuel with
  | O => None
  | S fuel' =>
      match skip_ws s with
      | EmptyString => None
      | String c rest =>
          if Ascii.eqb c dquote then
            match chars rest with
            | Some (key, r) =>
                match skip_ws r with
                | String ":" r' =>
                    match value fuel' r' with
                    | Some (v, r'') =>
                        match skip_ws r'' with
                        | String "," more => members fuel' (dict_set acc key v) more
                        | String "}" more => Some (JObj (dict_set acc key v), more)
                        | _ => None
                        end
                    | None => None
                    end
                | _ => None
                end
            | None => None
            end
          else None
      end
  end.

Definition loads (s : string) : option json :=
  match value (2 * String.length s + 2) s with
  | Some (v, rest) =>
      match skip_ws rest with
      | EmptyString => Some v
      | _ => None
      end
  | None => None
  end.

(** A JSON text written with ['] where JSON has its double quote. *)
Fixpoint quoted (s : string) : string :=
  match s with
  | EmptyString => EmptyString
  | String c rest => String (if Ascii.eqb c "'"%char then dquote else c) (quoted rest)
  end.

(** A rendering of exceptions for the examples: the name of the class. *)
Definition class_name (e : pyexn) : string :=
  match e with
  | AttributeError _ _ => "AttributeError"
  | TypeError _ _ => "TypeError"
  | KeyError _ => "KeyError"
  | IndexError => "IndexError"
  | JSONDecodeError _ => "JSONDecodeError"
  | UnicodeDecodeError _ => "UnicodeDecodeError"
  | RequestsTimeout msg => msg
  | RequestsConnectionError msg => msg
  | RequestException msg => msg
  end.

End MiniJson.

(** ** Sample sessions

    The objects and environments the concrete runs at the end of the file
    are made on. *)
Module Sample.

Import MiniJson.

(** A client whose listener has just started. *)
Definition fresh : MCPWeatherClient :=
  {| server_url := "http://localhost:8001"; response_queue := [];
     message_endpoint := None;
     sse_thread := {| current_event := None; alive := true |} |}.

(** The same after the frame [endpoint] / [/messages/?session_id=abc123]. *)
Definition connected : MCPWeatherClient :=
  set_endpoint fresh (Some "/messages/?session_id=abc123").

Definition id1 : string := "1b9d6bcd-bbfd-4b2d-9b5d-ab8dfbbd4bed".
Definition id2 : string := "9c5b94b1-35ad-49bb-b118-8e8fc24abf80".

(** A JSON-RPC response whose result carries one [text] item. *)
Definition text_response (request_id text : string) : json :=
  JObj [ ("jsonrpc", JStr "2.0"); ("id", JStr request_id);
         ("result",
          JObj [("content", JArr [JObj [("type", JStr "text"); ("text", JStr text)]])]) ].

Definition beijing : string := quoted "{'success':true,'city':'Beijing'}".

(** The frames that deliver the two responses, as the server writes them. *)
Definition beijing_frame : list stream_item :=
  [ Line "event: message";
    Line (quoted "data: {'jsonrpc':'2.0','id':'1b9d6bcd-bbfd-4b2d-9b5d-ab8dfbbd4bed','result':{'content':[{'type':'text','text':'{\'success\':true,\'city\':\'Beijing\'}'}]}}") ].


Definition city (name : string) : json := JObj [("city", JStr name)].

(** The response arrives at the second look, a tenth of a unit after polling
    started. *)
Definition env_beijing : call_env :=
  {| uuid4 := id1; post := Response 202 "Accepted"; start_time := 100;
     ticks := [ {| now := 100; received := [] |};
                {| now := 100.1; received := beijing_frame |} ] |}.


(** Only a notification arrives, then the clock passes the budget. *)
Definition env_silent : call_env :=
  {| uuid4 := id2; post := Response 200 "OK"; start_time := 100;
     ticks := [ {| now := 100;
                   received := [ Line "event: message";
                                 Line (quoted "data: {'jsonrpc':'2.0','method':'notifications/message'}") ] |};
                {| now := 115; received := [] |};
                {| now := 130.5; received := [] |} ] |}.

(** The server writes the JSON number 42 as a message. *)
Definition env_number : call_env :=
  {| uuid4 := id1; post := Response 202 "Accepted"; start_time := 100;
     ticks := [ {| now := 100; received := [Line "event: message"; Line "data: 42"] |};
                {| now := 131; received := [] |} ] |}.

(** The response to the call carries an image, not a text. *)
Definition image_response : json :=
  JObj [ ("jsonrpc", JStr "2.0"); ("id", JStr id1);
         ("result", JObj [("content", JArr [JObj [("type", JStr "image")]])]) ].

Definition env_image : call_env :=
  {| uuid4 := id1; post := Response 202 "Accepted"; start_time := 100;
     ticks := [ {| now := 100;
                   received := [ Line "event: message";
                                 Line (quoted "data: {'jsonrpc':'2.0','id':'1b9d6bcd-bbfd-4b2d-9b5d-ab8dfbbd4bed','result':{'content':[{'type':'image'}]}}") ] |} ] |}.

(** The response to the call carries the text [42]: JSON, but not an object. *)
Definition env_scalar : call_env :=
  {| uuid4 := id1; post := Response 202 "Accepted"; start_time := 100;
     ticks := [ {| now := 100;
                   received := [ Line "event: message";
                                 Line (quoted "data: {'jsonrpc':'2.0','id':'1b9d6bcd-bbfd-4b2d-9b5d-ab8dfbbd4bed','result':{'content':[{'type':'text','text':'42'}]}}") ] |} ] |}.

Definition env_refused : call_env :=
  {| uuid4 := id1; post := Response 500 "Internal Server Error"; start_time := 100;
     ticks := [] |}.

(** A handshake that succeeds: the endpoint at the first look, the response
    to [initialize] at the first look of the second loop. *)
Definition boot : boot_env :=
  {| sse_get := None;
     wait_start := 0;
     wait_ticks := [ {| now := 0.1;
                        received := [ Line "event: endpoint";
                                      Line "data: /messages/?session_id=abc123" ] |};
                     {| now := 5.1; received := [] |} ];
     settled := [];
     init_post := Response 202 "Accepted";
     init_start := 1;
     init_ticks := [ {| now := 1;
                        received := [ Line "event: message";
                                      Line (quoted "data: {'jsonrpc':'2.0','id':1,'result':{}}") ] |};
                     {| now := 6.5; received := [] |} ];
     notify_post := Response 202 "Accepted" |}.

Definition empty_process : process := {| heap := []; _mcp_client := None |}.

End Sample.

(** ** More on strings and iteration *)

Fixpoint drop_continuation (s : string) : string :=
  match s with
  | String c rest => if is_continuation c then drop_continuation rest else s
  | EmptyString => EmptyString
  end.

Fixpoint str_chars_fuel (fuel : nat) (s : string) : list string :=
  match fuel, s with
  | S fuel', String c rest =>
      String c (take_continuation rest) :: str_chars_fuel fuel' (drop_continuation rest)
  | _, _ => []
  end.

(** The code points of a [str], each as a [str]. *)
Definition str_chars (s : string) : list string := str_chars_fuel (String.length s) s.

(** What [for x in obj] runs over: the items of a list, the keys of a dict,
    the code points of a str. *)
Definition py_iter (obj : json) : pyresult (list json) :=
  match obj with
  | JArr items => Ok items
  | JObj members => Ok (map (fun member => JStr (fst member)) members)
  | JStr s => Ok (map JStr (str_chars s))
  | _ => Raise (TypeError "iter" obj)
  end.

(** ** The weather service ([src/mcp_weather_service/fastmcp_server.py])

    The two tools the client calls, and the lookup they share. The network
    is the environment: what a GET answers. *)

Module Server.

Definition AMAP_API_KEY : string := "xxx".

(** What [requests.get(url, params=params, timeout=10)] followed by
    [response.json()] gives: the decoded body, or the exception one of the
    two raises. *)
Inductive get_result : Type :=
| Json (body : json)
| GetRaises (e : pyexn).

Definition network : Type := string -> json -> get_result.

(** A run of a tool: what it returns and the requests it made, in order. *)
Record tool_run : Type := {
  answer : json;
  requests : list (string * json)
}.

Definition http_get (net : network) (url : string) (params : json) : pyresult json :=
  match net url params with
  | Json body => Ok body
  | GetRaises e => Raise e
  end.

Definition district_url : string := "https://restapi.amap.com/v3/config/district".

Definition district_params (city_name : string) : json :=
  JObj [("key", JStr AMAP_API_KEY); ("keywords", JStr city_name); ("subdistrict", JInt 0)].

Definition weather_url : string := "https://restapi.amap.com/v3/weather/weatherInfo".

Definition weather_params (city_code : json) (extensions : string) : json :=
  JObj [("key", JStr AMAP_API_KEY); ("city", city_code); ("extensions", JStr extensions)].

(** [get_city_code] (lines 18-48): the [adcode] of the first district, or
    [None] (here [JNull]); whatever the body raises is caught. *)
Definition get_city_code (net : network) (city_name : string) : json :=
  match
    (result <- http_get net district_url (district_params city_name) ;;
     status <- py_get result "status" JNull ;;
     if py_eq_str status "1" then
       districts <- py_get result "districts" JNull ;;
       if py_truthy districts then
         districts' <- py_getitem result "districts" ;;
         first <- py_getitem_0 districts' ;;
         py_getitem first "adcode"
       else Ok JNull
     else Ok JNull)
  with
  | Ok adcode => adcode
  | Raise _ => JNull
  end.

(** [{"success": False, "error": f"未找到城市: {city}"}] *)
Definition not_found (city : string) : json :=
  failure (JStr (append "未找到城市: " city)).

(** The [try] of [query_current_weather] (lines 92-129). *)
Definition current_body (net : network) (city_code : json) : pyresult json :=
  result <- http_get net weather_url (weather_params city_code "base") ;;
  status <- py_get result "status" JNull ;;
  if negb (py_eq_str status "1") then Ok (failure (JStr "高德地图 API 返回错误"))
  else
    lives <- py_get result "lives" (JArr []) ;;
    if negb (py_truthy lives) then Ok (failure (JStr "未获取到天气数据"))
    else
      weather_data <- py_getitem_0 lives ;;
      city <- py_get weather_data "city" JNull ;;
      weather <- py_get weather_data "weather" JNull ;;
      temperature <- py_get weather_data "temperature" JNull ;;
      winddirection <- py_get weather_data "winddirection" JNull ;;
      windpower <- py_get weather_data "windpower" JNull ;;
      humidity <- py_get weather_data "humidity" JNull ;;
      reporttime <- py_get weather_data "reporttime" JNull ;;
      Ok (JObj [("success", JBool true); ("type", JStr "current");
                ("city", city); ("weather", weather);
                ("temperature", temperature); ("winddirection", winddirection);
                ("windpower", windpower); ("humidity", humidity);
                ("reporttime", reporttime)]).

(** The dict appended for one [cast] (lines 206-215). *)
Definition forecast_entry (cast : json) : pyresult json :=
  date <- py_get cast "date" JNull ;;
  week <- py_get cast "week" JNull ;;
  dayweather <- py_get cast "dayweather" JNull ;;
  nightweather <- py_get cast "nightweather" JNull ;;
  daytemp <- py_get cast "daytemp" JNull ;;
  nighttemp <- py_get cast "nighttemp" JNull ;;
  daywind <- py_get cast "daywind" JNull ;;
  nightwind <- py_get cast "nightwind" JNull ;;
  Ok (JObj [("date", date); ("week", week);
            ("dayweather", dayweather); ("nightweather", nightweather);
            ("daytemp", daytemp); ("nighttemp", nighttemp);
            ("daywind", daywind); ("nightwind", nightwind)]).

(** [for cast in casts: forecast_list.append({...})] *)
Fixpoint forecast_entries (casts : list json) : pyresult (list json) :=
  match casts with
  | [] => Ok []
  | cast :: more =>
      entry <- forecast_entry cast ;;
      rest <- forecast_entries more ;;
      Ok (entry :: rest)
  end.

(** The [try] of [query_weather_forecast] (lines 184-232). *)
Definition forecast_body (net : network) (city_code : json) : pyresult json :=
  result <- http_get net weather_url (weather_params city_code "all") ;;
  status <- py_get result "status" JNull ;;
  if negb (py_eq_str status "1") then Ok (failure (JStr "高德地图 API 返回错误"))
  else
    forecasts <- py_get result "forecasts" (JArr []) ;;
    if negb (py_truthy forecasts) then Ok (failure (JStr "未获取到预报数据"))
    else
      forecast_data <- py_getitem_0 forecasts ;;
      casts <- py_get forecast_data "casts" (JArr []) ;;
      items <- py_iter casts ;;
      forecast_list <- forecast_entries items ;;
      city <- py_get forecast_data "city" JNull ;;
      Ok (JObj [("success", JBool true); ("type", JStr "forecast");
                ("city", city); ("forecasts", JArr forecast_list);
                ("days", JInt (Z.of_nat (List.length forecast_list)))]).

Section Tools.

(** [str(e)] *)
Variable str_exn : pyexn -> string.

(** [query_current_weather] (lines 52-136) *)
Definition query_current_weather (city : string) (net : network) : tool_run :=
  let city_code := get_city_code net city in
  if negb (py_truthy city_code) then
    {| answer := not_found city;
       requests := [(district_url, district_params city)] |}
  else
    {| answer :=
         match current_body net city_code with
         | Ok result_data => result_data
         | Raise e => failure (JStr (append "查询天气时发生错误: " (str_exn e)))
         end;
       requests := [(district_url, district_params city);
                    (weather_url, weather_params city_code "base")] |}.

(** [query_weather_forecast] (lines 140-239) *)
Definition query_weather_forecast (city : string) (net : network) : tool_run :=
  let city_code := get_city_code net city in
  if negb (py_truthy city_code) then
    {| answer := not_found city;
       requests := [(district_url, district_params city)] |}
  else
    {| answer :=
         match forecast_body net city_code with
         | Ok result_data => result_data
         | Raise e => failure (JStr (append "查询天气预报时发生错误: " (str_exn e)))
         end;
       requests := [(district_url, district_params city);
                    (weather_url, weather_params city_code "all")] |}.

End Tools.

(** *** Vocabulary of the statements about the service *)

(** A district lookup that finds nothing: the request or the decoding of
    its body raises, the body is no mapping, its [status] is not ["1"], or
    its [districts] is missing or empty. *)
Definition finds_nothing (r : get_result) : Prop :=
  match r with
  | GetRaises _ => True
  | Json (JObj members) =>
      dict_get members "status" <> Some (JStr "1")
      \/ dict_get members "districts" = None
      \/ dict_get members "districts" = Some (JArr [])
  | Json _ => True
  end.

(** A district lookup whose first district has the truthy code [adcode]. *)
Definition finds (r : get_result) (adcode : json) : Prop :=
  exists members first others,
    r = Json (JObj members)
    /\ dict_get members "status" = Some (JStr "1")
    /\ dict_get members "districts" = Some (JArr (JObj first :: others))
    /\ dict_get first "adcode" = Some adcode
    /\ py_truthy adcode = true.

(** [d.get(key)] on the members of a dict. *)
Definition field (members : list (string * json)) (key : string) : json :=
  match dict_get members key with
  | Some v => v
  | None => JNull
  end.

(** The entry of the forecast list for the cast with these members. *)
Definition entry_of (cast : list (string * json)) : json :=
  JObj [("date", field cast "date"); ("week", field cast "week");
        ("dayweather", field cast "dayweather");
        ("nightweather", field cast "nightweather");
        ("daytemp", field cast "daytemp"); ("nighttemp", field cast "nighttemp");
        ("daywind", field cast "daywind"); ("nightwind", field cast "nightwind")].

End Server.

(** ** More sample data: faults of the gateway, the filter, the service *)

Module Cases.

Import MiniJson Sample.

(** The server answers the call with a JSON-RPC error. *)
Definition error_entry (err : json) : json :=
  JObj [("jsonrpc", JStr "2.0"); ("id", JStr id1); ("error", err)].

Definition unknown_tool : list (string * json) :=
  [("code", JInt 1); ("message", JStr "Unknown tool")].

Definition env_error : call_env :=
  {| uuid4 := id1; post := Response 202 "Accepted"; start_time := 100;
     ticks := [ {| now := 100;
                   received := [ Line "event: message";
                                 Line (quoted "data: {'jsonrpc':'2.0','id':'1b9d6bcd-bbfd-4b2d-9b5d-ab8dfbbd4bed','error':{'code':1,'message':'Unknown tool'}}") ] |} ] |}.

(** The same with an error that is a string, not an object. *)
Definition env_error_text : call_env :=
  {| uuid4 := id1; post := Response 202 "Accepted"; start_time := 100;
     ticks := [ {| now := 100;
                   received := [ Line "event: message";
                                 Line (quoted "data: {'jsonrpc':'2.0','id':'1b9d6bcd-bbfd-4b2d-9b5d-ab8dfbbd4bed','error':'boom'}") ] |} ] |}.

(** The response to the call carries the text [oops], which is not JSON. *)
Definition env_garbled : call_env :=
  {| uuid4 := id1; post := Response 202 "Accepted"; start_time := 100;
     ticks := [ {| now := 100;
                   received := [ Line "event: message";
                                 Line (quoted "data: {'jsonrpc':'2.0','id':'1b9d6bcd-bbfd-4b2d-9b5d-ab8dfbbd4bed','result':{'content':[{'type':'text','text':'oops'}]}}") ] |} ] |}.


(** The response comes after the clock has passed the budget. *)
Definition env_late : call_env :=
  {| uuid4 := id1; post := Response 202 "Accepted"; start_time := 100;
     ticks := [ {| now := 100; received := [] |};
                {| now := 130.5; received := [] |};
                {| now := 131; received := beijing_frame |} ] |}.

(** A notification, and the frame that delivers it. *)
Definition notification : json :=
  JObj [("jsonrpc", JStr "2.0"); ("method", JStr "notifications/message")].

Definition notification_frame : list stream_item :=
  [ Line "event: message";
    Line (quoted "data: {'jsonrpc':'2.0','method':'notifications/message'}") ].





(** The response to the call has the result [null]. *)
Definition null_response : json :=
  JObj [("jsonrpc", JStr "2.0"); ("id", JStr id1); ("result", JNull)].

Definition env_null : call_env :=
  {| uuid4 := id1; post := Response 202 "Accepted"; start_time := 100;
     ticks := [ {| now := 100;
                   received := [ Line "event: message";
                                 Line (quoted "data: {'jsonrpc':'2.0','id':'1b9d6bcd-bbfd-4b2d-9b5d-ab8dfbbd4bed','result':null}") ] |} ] |}.

(** The response carries an image and comes behind a notification. *)
Definition env_image_behind : call_env :=
  {| uuid4 := id1; post := Response 202 "Accepted"; start_time := 100;
     ticks := [ {| now := 100;
                   received := notification_frame
                               ++ [ Line "event: message";
                                    Line (quoted "data: {'jsonrpc':'2.0','id':'1b9d6bcd-bbfd-4b2d-9b5d-ab8dfbbd4bed','result':{'content':[{'type':'image'}]}}") ] |};
                {| now := 100.1; received := [] |} ] |}.

(** A stream that cannot be opened: no endpoint ever comes. *)
Definition boot_silent : boot_env :=
  {| sse_get := Some (RequestsConnectionError "connection refused");
     wait_start := 0;
     wait_ticks := [ {| now := 0.1; received := [] |}; {| now := 5.1; received := [] |} ];
     settled := [];
     init_post := PostRaises (RequestsConnectionError "connection refused");
     init_start := 6;
     init_ticks := [];
     notify_post := PostRaises (RequestsConnectionError "connection refused") |}.

(** A process whose client is the sample client, at address 0. *)
Definition running_process : process := {| heap := [connected]; _mcp_client := Some 0%nat |}.

(** A reader of decimal integers for the examples: an optional sign, then
    digits. *)
Definition digit (c : ascii) : option Z :=
  let n := N_of_ascii c in
  if ((48 <=? n) && (n <=? 57))%N then Some (Z.of_N n - 48)%Z else None.

Fixpoint digits (acc : Z) (s : string) : option Z :=
  match s with
  | EmptyString => Some acc
  | String c rest =>
      match digit c with
      | Some d => digits (10 * acc + d)%Z rest
      | None => None
      end
  end.

Definition unsigned (s : string) : option Z :=
  match s with
  | EmptyString => None
  | _ => digits 0 s
  end.

Definition int_of_str (s : string) : option Z :=
  match s with
  | String "-" rest => option_map Z.opp (unsigned rest)
  | String "+" rest => unsigned rest
  | _ => unsigned s
  end.

(** A writer of JSON for the examples, with the separators of [json.dumps];
    strings are written without escapes and floats, which the samples have
    not, by their bit pattern. *)
Fixpoint dumps (v : json) : string :=
  match v with
  | JNull => "null"
  | JBool true => "true"
  | JBool false => "false"
  | JInt n => str_of_int n
  | JFloat bits => str_of_int bits
  | JStr s => String dquote (append s (String dquote EmptyString))
  | JArr items =>
      append "["
        (append ((fix go (xs : list json) : string :=
                    match xs with
                    | [] => EmptyString
                    | x :: [] => dumps x
                    | x :: rest => append (dumps x) (append ", " (go rest))
                    end) items) "]")
  | JObj members =>
      append "{"
        (append ((fix go (ms : list (string * json)) : string :=
                    match ms with
                    | [] => EmptyString
                    | (k, x) :: rest =>
                        append (String dquote (append k (String dquote EmptyString)))
                          (append ": "
                             (append (dumps x)
                                match rest with
                                | [] => EmptyString
                                | _ => append ", " (go rest)
                                end))
                    end) members) "}")
  end.

(** A forecast of three days, as the gateway returns it. *)
Definition three_days : list (string * json) :=
  [("success", JBool true); ("type", JStr "forecast"); ("city", JStr "北京市");
   ("forecasts", JArr [JStr "day 0"; JStr "day 1"; JStr "day 2"]); ("days", JInt 3)].

(** The district lookup knows one city. *)
Definition beijing_district : list (string * json) :=
  [("adcode", JStr "110000"); ("name", JStr "北京市")].

Definition district_answer : list (string * json) :=
  [("status", JStr "1"); ("districts", JArr [JObj beijing_district])].

(** A network on which the district lookup knows Beijing and nothing else,
    and every weather request is answered by [weather]. *)
Definition amap (weather : Server.get_result) : Server.network :=
  fun url params =>
    if String.eqb url Server.district_url then
      match py_get params "keywords" JNull with
      | Ok keywords =>
          if py_eq_str keywords "北京" then Server.Json (JObj district_answer)
          else Server.Json (JObj [("status", JStr "1"); ("districts", JArr [])])
      | Raise e => Server.GetRaises e
      end
    else weather.

Definition cast1 : list (string * json) :=
  [("date", JStr "2025-01-01"); ("week", JStr "3");
   ("dayweather", JStr "晴"); ("nightweather", JStr "多云");
   ("daytemp", JStr "5"); ("nighttemp", JStr "-4");
   ("daywind", JStr "北"); ("nightwind", JStr "西北"); ("daypower", JStr "1-3")].

Definition cast2 : list (string * json) :=
  [("date", JStr "2025-01-02");
   ("dayweather", JStr "阴"); ("nightweather", JStr "小雪");
   ("daytemp", JStr "2"); ("nighttemp", JStr "-6")].

Definition forecast_report : list (string * json) :=
  [("city", JStr "北京市"); ("adcode", JStr "110000");
   ("casts", JArr [JObj cast1; JObj cast2])].

Definition forecast_answer : list (string * json) :=
  [("status", JStr "1"); ("count", JStr "1"); ("forecasts", JArr [JObj forecast_report])].

(** The same with a cast that is a string. *)
Definition broken_report : list (string * json) :=
  [("city", JStr "北京市"); ("casts", JArr [JObj cast1; JStr "oops"; JObj cast2])].

Definition broken_answer : list (string * json) :=
  [("status", JStr "1"); ("forecasts", JArr [JObj broken_report])].

Definition live : list (string * json) :=
  [("province", JStr "北京"); ("city", JStr "北京市"); ("weather", JStr "晴");
   ("temperature", JStr "5"); ("winddirection", JStr "北"); ("windpower", JStr "≤3");
   ("humidity", JStr "20"); ("reporttime", JStr "2025-01-01 10:00:00")].

Definition lives_answer : list (string * json) :=
  [("status", JStr "1"); ("lives", JArr [JObj live])].

End Cases.

(** Tactics for the concrete runs: a look whose clock has used up the budget,
    an event of a computed history. *)
Ltac find_expired :=
  repeat first [ apply Exists_cons_hd; vm_compute; reflexivity | apply Exists_cons_tl ].

Ltac find_event :=
  vm_compute; repeat first [ left; reflexivity | right ].

Section Client.

(** [json.loads] on a [str]: [None] where it raises. *)
Variable json_loads : string -> option json.

(** [str(e)] *)
Variable str_exn : pyexn -> string.

(** [json.loads(v)] *)
Definition py_json_loads (v : json) : pyresult json :=
  match v with
  | JStr s =>
      match json_loads s with
      | Some data => Ok data
      | None => Raise (JSONDecodeError s)
      end
  | _ => Raise (TypeError "json.loads" v)
  end.

(** *** Event Stream Reader: [sse_listener] *)

(** What a [data: ] line does under the pending event (lines 59-69). *)
Definition dispatch (data_str : string) (self : MCPWeatherClient)
  : MCPWeatherClient * list event :=
  if event_is (current_event (sse_thread self)) "endpoint" then
    (set_endpoint self (Some data_str), [])
  else if event_is (current_event (sse_thread self)) "message" then
    match json_loads data_str with
    | Some data => (set_queue self (response_queue self ++ [data]), [QueuePut data])
    | None => (self, [])
    end
  else (self, []).

(** The body of [for line in response.iter_lines()] (lines 50-71). *)
Definition sse_line (line : string) (self : MCPWeatherClient)
  : pyresult (MCPWeatherClient * list event) :=
  match line with
  | EmptyString => Ok (self, [])
  | _ =>
      line_str <- decode_utf8 line ;;
      if startswith line_str "event: " then
        Ok (set_event self (Some (strip (slice_from 7 line_str))), [])
      else if startswith line_str "data: " then
        let data_str := slice_from 6 line_str in
        let '(self1, log) := dispatch data_str self in
        Ok (set_event self1 None, log)
      else Ok (self, [])
  end.

(** One item of the stream: an exception, from the stream or from the body,
    is caught by the [except] of line 73 and ends the thread. *)
Definition sse_item (item : stream_item) (self : MCPWeatherClient)
  : MCPWeatherClient * list event :=
  if alive (sse_thread self) then
    match item with
    | Broken _ => (stop_thread self, [])
    | Line raw =>
        match sse_line raw self with
        | Ok r => r
        | Raise _ => (stop_thread self, [])
        end
    end
  else (self, []).

(** [sse_listener] (lines 34-74) on the items the stream yields. *)
Fixpoint sse_listener (items : list stream_item) (self : MCPWeatherClient)
  : MCPWeatherClient * list event :=
  match items with
  | [] => (self, [])
  | item :: more =>
      let '(self1, log1) := sse_item item self in
      let '(self2, log2) := sse_listener more self1 in
      (self2, log1 ++ log2)
  end.

(** *** Tool Invocation Gateway: [_call_tool] *)

Definition unable_to_parse : json := failure (JStr "无法解析MCP响应").
Definition response_timed_out : json := failure (JStr "等待MCP响应超时").
Definition not_connected : json := failure (JStr "MCP 连接未建立").

(** What the poll loop returns once the identifier matched (lines 217-237):
    the error of the response, or its unwrapped result. *)
Definition unwrap_response (mcp_response : json) : pyresult json :=
  has_error <- py_contains "error" mcp_response ;;
  if has_error then
    error <- py_getitem mcp_response "error" ;;
    message <- py_get error "message" (JStr "未知错误") ;;
    Ok (failure message)
  else
    result <- py_get mcp_response "result" (JObj []) ;;
    has_content <- py_contains "content" result ;;
    if has_content then
      content <- py_getitem result "content" ;;
      n <- py_len content ;;
      if (0 <? n)%Z then
        content_item <- py_getitem_0 content ;;
        type <- py_get content_item "type" JNull ;;
        if py_eq_str type "text" then
          text <- py_get content_item "text" (JStr "{}") ;;
          py_json_loads text
        else Ok unable_to_parse
      else Ok unable_to_parse
    else Ok unable_to_parse.

(** What the poll loop does with a dequeued entry (line 216 on): [Ok None]
    when the entry is not the response awaited, [Ok (Some v)] when the loop
    returns [v]. *)
Definition check_response (request_id : string) (mcp_response : json)
  : pyresult (option json) :=
  id <- py_get mcp_response "id" JNull ;;
  if py_eq_str id request_id then
    v <- unwrap_response mcp_response ;; Ok (Some v)
  else Ok None.

Definition call_timeout : Q := 30.

(** The [while time.time() - start_time < timeout] loop of [_call_tool]
    (lines 208-244). Each look lets the listener catch up first. *)
Fixpoint poll_response (request_id : string) (start_time : Q) (ticks : list tick)
    (self : MCPWeatherClient) : run json :=
  match ticks with
  | [] => {| result := Waiting; final := self; history := [] |}
  | t :: later =>
      let '(self1, arrived) := sse_listener (received t) self in
      if Qltb (now t - start_time) call_timeout then
        match response_queue self1 with
        | [] =>
            let r := poll_response request_id start_time later self1 in
            {| result := result r; final := final r;
               history := arrived ++ QueueEmpty true :: Sleep :: history r |}
        | mcp_response :: rest =>
            let self2 := set_queue self1 rest in
            match check_response request_id mcp_response with
            | Raise e =>
                {| result := Raised e; final := self2;
                   history := arrived ++ [QueueEmpty false; QueueGet mcp_response] |}
            | Ok (Some v) =>
                {| result := Returned v; final := self2;
                   history := arrived ++ [QueueEmpty false; QueueGet mcp_response] |}
            | Ok None =>
                let r := poll_response request_id start_time later self2 in
                {| result := result r; final := final r;
                   history := arrived ++ QueueEmpty false :: QueueGet mcp_response
                                   :: Sleep :: history r |}
            end
        end
      else {| result := Returned response_timed_out; final := self1; history := arrived |}
  end.

(** The three [except] clauses of [_call_tool] (lines 246-260). *)
Definition on_exception (self : MCPWeatherClient) (e : pyexn) : json :=
  match e with
  | RequestsTimeout _ => failure (JStr "MCP服务器请求超时")
  | RequestsConnectionError _ =>
      failure (JStr (append "无法连接到MCP服务器: " (server_url self)))
  | _ => failure (JStr (append "MCP调用失败: " (str_exn e)))
  end.

(** [mcp_request] *)
Definition tools_call (request_id tool_name : string) (arguments : json) : json :=
  JObj [ ("jsonrpc", JStr "2.0"); ("id", JStr request_id);
         ("method", JStr "tools/call");
         ("params", JObj [("name", JStr tool_name); ("arguments", arguments)]) ].

(** [response.status_code != 200 and response.status_code != 202] *)
Definition refused (status_code : Z) : bool :=
  negb (status_code =? 200)%Z && negb (status_code =? 202)%Z.

Definition server_error (status_code : Z) (text : string) : json :=
  failure (JStr (append "MCP服务器返回错误: "
                  (append (str_of_int status_code) (append " - " text)))).

(** [_call_tool] (lines 156-260). *)
Definition _call_tool (self : MCPWeatherClient) (tool_name : string) (arguments : json)
    (env : call_env) : run json :=
  match message_endpoint self with
  | None => {| result := Returned not_connected; final := self; history := [] |}
  | Some path =>
      let endpoint := append (server_url self) path in
      let request_id := uuid4 env in
      let mcp_request := tools_call request_id tool_name arguments in
      match post env with
      | PostRaises e =>
          {| result := Returned (on_exception self e); final := self;
             history := [HttpPost endpoint mcp_request] |}
      | Response status_code text =>
          if refused status_code then
            {| result := Returned (server_error status_code text); final := self;
               history := [HttpPost endpoint mcp_request] |}
          else
            let r := poll_response request_id (start_time env) (ticks env) self in
            {| result := match result r with
                         | Raised e => Returned (on_exception self e)
                         | ended => ended
                         end;
               final := final r;
               history := HttpPost endpoint mcp_request :: history r |}
      end
  end.

(** *** Typed Call Wrappers *)

(** What both wrappers do with the result of the gateway (lines 278-283 and
    301-306): [result.get("success")], then the branch of the [if] taken,
    then [return result]. The [print]s themselves are not modelled, the
    lookups they make are. *)
Definition wrap (on_success : json -> pyresult unit) (r : run json) : run json :=
  match result r with
  | Returned v =>
      let after :=
        success <- py_get v "success" JNull ;;
        if py_truthy success then on_success v
        else _ <- py_get v "error" JNull ;; Ok tt in
      match after with
      | Ok _ => r
      | Raise e => {| result := Raised e; final := final r; history := history r |}
      end
  | _ => r
  end.

Definition query_current_weather (self : MCPWeatherClient) (city : string)
    (env : call_env) : run json :=
  wrap (fun _ => Ok tt)
       (_call_tool self "query_current_weather" (JObj [("city", JStr city)]) env).

Definition query_weather_forecast (self : MCPWeatherClient) (city : string)
    (env : call_env) : run json :=
  wrap (fun v => _ <- py_get v "days" (JInt 0) ;; Ok tt)
       (_call_tool self "query_weather_forecast" (JObj [("city", JStr city)]) env).

(** *** Session Bootstrap *)

Definition bootstrap_timeout : Q := 5.

(** [while self.message_endpoint is None and time.time() - start_time < timeout]
    (lines 81-84). *)
Fixpoint wait_endpoint (start_time : Q) (ticks : list tick) (self : MCPWeatherClient)
  : run unit :=
  match ticks with
  | [] => {| result := Waiting; final := self; history := [] |}
  | t :: later =>
      let '(self1, arrived) := sse_listener (received t) self in
      match message_endpoint self1 with
      | Some _ => {| result := Returned tt; final := self1; history := arrived |}
      | None =>
          if Qltb (now t - start_time) bootstrap_timeout then
            let r := wait_endpoint start_time later self1 in
            {| result := result r; final := final r; history := arrived ++ Sleep :: history r |}
          else {| result := Returned tt; final := self1; history := arrived |}
      end
  end.

Definition init_request : json :=
  JObj [ ("jsonrpc", JStr "2.0"); ("id", JInt 1); ("method", JStr "initialize");
         ("params",
          JObj [ ("protocolVersion", JStr "2024-11-05");
                 ("capabilities", JObj [("roots", JObj [("listChanged", JBool false)])]);
                 ("clientInfo", JObj [ ("name", JStr "mcp-weather-client");
                                       ("version", JStr "1.0.0") ]) ]) ].

Definition initialized_notification : json :=
  JObj [("jsonrpc", JStr "2.0"); ("method", JStr "notifications/initialized")].

(** The loop of [_initialize_mcp] that waits for the response with [id] 1 and
    then posts the notification (lines 127-147). *)
Fixpoint poll_init (endpoint : string) (notify : post_result) (start_time : Q)
    (ticks : list tick) (self : MCPWeatherClient) : run unit :=
  match ticks with
  | [] => {| result := Waiting; final := self; history := [] |}
  | t :: later =>
      let '(self1, arrived) := sse_listener (received t) self in
      if Qltb (now t - start_time) bootstrap_timeout then
        match response_queue self1 with
        | [] =>
            let r := poll_init endpoint notify start_time later self1 in
            {| result := result r; final := final r;
               history := arrived ++ QueueEmpty true :: Sleep :: history r |}
        | init_response :: rest =>
            let self2 := set_queue self1 rest in
            match py_get init_response "id" JNull with
            | Raise e =>
                {| result := Raised e; final := self2;
                   history := arrived ++ [QueueEmpty false; QueueGet init_response] |}
            | Ok id =>
                if py_eq_one id then
                  {| result := match notify with
                               | PostRaises e => Raised e
                               | Response _ _ => Returned tt
                               end;
                     final := self2;
                     history := arrived ++ [ QueueEmpty false; QueueGet init_response;
                                           HttpPost endpoint initialized_notification ] |}
                else
                  let r := poll_init endpoint notify start_time later self2 in
                  {| result := result r; final := final r;
                     history := arrived ++ QueueEmpty false :: QueueGet init_response
                                     :: Sleep :: history r |}
            end
        end
      else {| result := Returned tt; final := self1; history := arrived |}
  end.

(** [str(x)] inside an f-string, for an attribute that may be [None]. *)
Definition str_of_optional (x : option string) : string :=
  match x with
  | Some s => s
  | None => "None"
  end.

(** A [try] whose [except Exception] only prints. *)
Definition swallow (r : run unit) : run unit :=
  {| result := match result r with
               | Raised _ => Returned tt
               | ended => ended
               end;
     final := final r; history := history r |}.

(** [_initialize_mcp] (lines 93-154). *)
Definition _initialize_mcp (self : MCPWeatherClient) (env : boot_env) : run unit :=
  let endpoint := append (server_url self) (str_of_optional (message_endpoint self)) in
  match init_post env with
  | PostRaises _ =>
      {| result := Returned tt; final := self; history := [HttpPost endpoint init_request] |}
  | Response status_code _ =>
      if (status_code =? 200)%Z || (status_code =? 202)%Z then
        let r := swallow (poll_init endpoint (notify_post env) (init_start env)
                                    (init_ticks env) self) in
        {| result := result r; final := final r;
           history := HttpPost endpoint init_request :: history r |}
      else
        {| result := Returned tt; final := self;
           history := [HttpPost endpoint init_request] |}
  end.

(** [_start_sse_connection] (lines 32-91): the thread starts, and runs if
    the GET of the stream succeeds. *)
Definition _start_sse_connection (self : MCPWeatherClient) (env : boot_env) : run unit :=
  let started :=
    set_thread self {| current_event := None;
                       alive := match sse_get env with None => true | Some _ => false end |} in
  let w := wait_endpoint (wait_start env) (wait_ticks env) started in
  match result w with
  | Returned _ =>
      let '(self1, arrived) := sse_listener (settled env) (final w) in
      match message_endpoint self1 with
      | None => {| result := Returned tt; final := self1; history := history w ++ arrived |}
      | Some _ =>
          let r := _initialize_mcp self1 env in
          {| result := result r; final := final r;
             history := history w ++ arrived ++ history r |}
      end
  | _ => w
  end.

(** [MCPWeatherClient.__init__] (lines 17-30): the object built is [final]
    of the run. *)
Definition __init__ (server_url : string) (env : boot_env) : run unit :=
  _start_sse_connection
    {| server_url := rstrip_slash server_url; response_queue := [];
       message_endpoint := None;
       sse_thread := {| current_event := None; alive := false |} |} env.

(** *** The process-wide accessor *)

Record global_run : Type := {
  returned : outcome nat;
  process_after : process;
  process_history : list event
}.

(** [get_mcp_client] (lines 313-329): returns the address of the client
    object. *)
Definition get_mcp_client (server_url : string) (env : boot_env) (p : process)
  : global_run :=
  match _mcp_client p with
  | Some instance =>
      {| returned := Returned instance; process_after := p; process_history := [] |}
  | None =>
      let r := __init__ server_url env in
      match result r with
      | Returned _ =>
          let address := List.length (heap p) in
          {| returned := Returned address;
             process_after := {| heap := heap p ++ [final r]; _mcp_client := Some address |};
             process_history := history r |}
      | Raised e =>
          {| returned := Raised e; process_after := p; process_history := history r |}
      | Waiting =>
          {| returned := Waiting; process_after := p; process_history := history r |}
      end
  end.


(** *** The caller: [query_weather] of [src/app.py] *)

(** [int(s)] on a [str]: [None] where it raises [ValueError]. *)
Variable py_int : string -> option Z.

(** [json.dumps(v, ensure_ascii=False)] *)
Variable json_dumps : json -> string.

(** [s.split(sep)] for a separator of one ASCII character. *)
Fixpoint split_on (sep : ascii) (s : string) : list string :=
  match s with
  | EmptyString => [EmptyString]
  | String c rest =>
      if Ascii.eqb c sep then EmptyString :: split_on sep rest
      else
        match split_on sep rest with
        | piece :: pieces => String c piece :: pieces
        | [] => [String c EmptyString]
        end
  end.

(** The position [i] stands for in a sequence of length [n]: itself from the
    start when it is not negative, [n + i] when it is, nothing outside
    [-n .. n-1]. *)
Definition wrap_index (n i : Z) : option nat :=
  if ((0 <=? i) && (i <? n))%Z then Some (Z.to_nat i)
  else if ((- n <=? i) && (i <? 0))%Z then Some (Z.to_nat (n + i))
  else None.

(** [xs[i]] on a list. *)
Definition list_index {A : Type} (xs : list A) (i : Z) : pyresult A :=
  match wrap_index (Z.of_nat (List.length xs)) i with
  | Some k =>
      match nth_error xs k with
      | Some x => Ok x
      | None => Raise IndexError
      end
  | None => Raise IndexError
  end.

(** [obj[i]] for an [int] [i]. *)
Definition py_index (obj : json) (i : Z) : pyresult json :=
  match obj with
  | JArr items => list_index items i
  | JStr s => c <- list_index (str_chars s) i ;; Ok (JStr c)
  | JObj _ => Raise (KeyError (JInt i))
  | _ => Raise (TypeError "getitem" obj)
  end.

(** [obj[key] = v] for a [str] key. *)
Definition py_setitem (obj : json) (key : string) (v : json) : pyresult json :=
  match obj with
  | JObj members => Ok (JObj (dict_set members key v))
  | _ => Raise (TypeError "setitem" obj)
  end.

(** What a [try] whose handler only prints keeps of its body: the value, or
    the fact that it raised. *)
Definition caught {A : Type} (m : pyresult A) : option A :=
  match m with
  | Ok a => Some a
  | Raise _ => None
  end.

(** [[int(idx.strip()) for idx in pieces]]: [None] when some [int] raises. *)
Fixpoint parse_indices (pieces : list string) : option (list Z) :=
  match pieces with
  | [] => Some []
  | idx :: more =>
      match py_int (strip idx) with
      | Some i =>
          match parse_indices more with
          | Some rest => Some (i :: rest)
          | None => None
          end
      | None => None
      end
  end.

(** [[original_forecasts[i] for i in indices if i < len(original_forecasts)]] *)
Fixpoint select_forecasts (original_forecasts : json) (indices : list Z)
  : pyresult (list json) :=
  match indices with
  | [] => Ok []
  | i :: more =>
      n <- py_len original_forecasts ;;
      if (i <? n)%Z then
        x <- py_index original_forecasts i ;;
        rest <- select_forecasts original_forecasts more ;;
        Ok (x :: rest)
      else select_forecasts original_forecasts more
  end.

(** The body of the [try] of [query_weather] (lines 297-303): the filtered
    result, or [None] when anything in it raises. *)
Definition filter_body (filter_indices : string) (result : json) : option json :=
  match parse_indices (split_on ","%char filter_indices) with
  | None => None
  | Some indices =>
      caught (original_forecasts <- py_get result "forecasts" (JArr []) ;;
              filtered_forecasts <- select_forecasts original_forecasts indices ;;
              result1 <- py_setitem result "forecasts" (JArr filtered_forecasts) ;;
              py_setitem result1 "filtered" (JBool true))
  end.

(** What [query_weather] does with the result of the wrapper (lines 295-305):
    the filter applies to a successful forecast and a filter that is not
    empty; when its body raises the result is left as it was. *)
Definition apply_filter (forecast : bool) (filter_indices : option string) (result : json)
  : pyresult json :=
  if forecast then
    match filter_indices with
    | None => Ok result
    | Some indices_str =>
        if String.eqb indices_str EmptyString then Ok result
        else
          success <- py_get result "success" JNull ;;
          if py_truthy success then
            type <- py_get result "type" JNull ;;
            if py_eq_str type "forecast" then
              Ok (match filter_body indices_str result with
                  | Some filtered => filtered
                  | None => result
                  end)
            else Ok result
          else Ok result
    end
  else Ok result.

(** [heap[address] = c] *)
Fixpoint heap_store (h : list MCPWeatherClient) (address : nat) (c : MCPWeatherClient)
  : list MCPWeatherClient :=
  match h, address with
  | [], _ => []
  | _ :: rest, O => c :: rest
  | x :: rest, S a => x :: heap_store rest a c
  end.

Record agent_run : Type := {
  answered : outcome string;
  process_left : process;
  agent_history : list event
}.

(** [query_weather] (lines 245-307, without its [print]s). The client is the
    object at the address [get_mcp_client] returns; the method call leaves
    it changed in the heap. An address that is not allocated cannot come out
    of [get_mcp_client] on a process whose [_mcp_client] is allocated; the
    model has nothing to run there and answers [Waiting]. *)
Definition query_weather (city : string) (forecast : bool) (filter_indices : option string)
    (boot : boot_env) (call : call_env) (p : process) : agent_run :=
  let g := get_mcp_client "http://localhost:8001" boot p in
  match returned g with
  | Returned client =>
      match nth_error (heap (process_after g)) client with
      | Some self =>
          let r := if forecast then query_weather_forecast self city call
                   else query_current_weather self city call in
          let p1 := {| heap := heap_store (heap (process_after g)) client (final r);
                       _mcp_client := _mcp_client (process_after g) |} in
          {| answered :=
               match result r with
               | Returned result =>
                   match apply_filter forecast filter_indices result with
                   | Ok filtered => Returned (json_dumps filtered)
                   | Raise e => Raised e
                   end
               | Raised e => Raised e
               | Waiting => Waiting
               end;
             process_left := p1;
             agent_history := process_history g ++ history r |}
      | None =>
          {| answered := Waiting; process_left := process_after g;
             agent_history := process_history g |}
      end
  | Raised e =>
      {| answered := Raised e; process_left := process_after g;
         agent_history := process_history g |}
  | Waiting =>
      {| answered := Waiting; process_left := process_after g;
         agent_history := process_history g |}
  end.

(** *** Vocabulary of the statements *)

(** The entries a history dequeued, and those it enqueued, in order. *)
Definition gets (log : list event) : list json :=
  flat_map (fun ev => match ev with QueueGet m => [m] | _ => [] end) log.

Definition puts (log : list event) : list json :=
  flat_map (fun ev => match ev with QueuePut m => [m] | _ => [] end) log.

(** The history polls the queue: it holds a [queue.empty()] or a
    [queue.get()]. *)
Definition polls (log : list event) : bool :=
  existsb (fun ev => match ev with QueueEmpty _ | QueueGet _ => true | _ => false end) log.

(** The entry is a JSON object whose [id] is the string [request_id]. *)
Definition has_id (request_id : string) (m : json) : bool :=
  match m with
  | JObj members =>
      match dict_get members "id" with
      | Some v => py_eq_str v request_id
      | None => false
      end
  | _ => false
  end.

Definition is_object (m : json) : bool :=
  match m with
  | JObj _ => true
  | _ => false
  end.

(** A JSON-RPC response to [request_id] that carries a result (and so no
    error) whose [content[0]] is [{"type": "text", "text": text}]. *)
Definition tool_response (request_id text : string) (m : json) : Prop :=
  exists members result item others,
    m = JObj members /\
    dict_get members "id" = Some (JStr request_id) /\
    dict_get members "error" = None /\
    dict_get members "result" = Some (JObj result) /\
    dict_get result "content" = Some (JArr (JObj item :: others)) /\
    dict_get item "type" = Some (JStr "text") /\
    dict_get item "text" = Some (JStr text).

(** [d.get(key, default)] on the members of a dict. *)
Definition dict_get_default (members : list (string * json)) (key : string)
    (default : json) : json :=
  match dict_get members key with
  | Some v => v
  | None => default
  end.

(** A JSON-RPC response to [request_id], without error, whose result has no
    [content], or an empty [content] list, or a [content[0]] whose [type] is
    not ["text"]. *)
Definition unusable_response (request_id : string) (m : json) : Prop :=
  exists members result,
    m = JObj members /\
    dict_get members "id" = Some (JStr request_id) /\
    dict_get members "error" = None /\
    dict_get_default members "result" (JObj []) = JObj result /\
    ( dict_get result "content" = None
      \/ dict_get result "content" = Some (JArr [])
      \/ exists item others,
           dict_get result "content" = Some (JArr (JObj item :: others)) /\
           py_eq_str (dict_get_default item "type" JNull) "text" = false ).

(** A frame [(name, payload)] as the server writes it: the [event: ] line,
    the [data: ] line and the blank line that ends the frame. *)
Definition frame_lines (frame : string * string) : list stream_item :=
  [ Line (append "event: " (fst frame)); Line (append "data: " (snd frame));
    Line EmptyString ].

Definition str_ok (s : string) : Prop := utf8_ok [] s = true.

(** The clock of a look has used up the budget. *)
Definition expired (start_time budget : Q) (t : tick) : Prop :=
  Qltb (now t - start_time) budget = false.


(** The listener as a function on the client object, and what it logs. *)
Definition listen (items : list stream_item) (self : MCPWeatherClient) : MCPWeatherClient :=
  fst (sse_listener items self).

Definition heard (items : list stream_item) (self : MCPWeatherClient) : list event :=
  snd (sse_listener items self).

(** *** More vocabulary: what the rest of the client does *)

(** The requests a history posted, in order. *)
Definition posts (log : list event) : list (string * json) :=
  flat_map (fun ev => match ev with HttpPost url body => [(url, body)] | _ => [] end) log.

(** What a frame puts on the queue: the decoding of its payload when its
    event is [message] and the payload decodes, nothing otherwise. *)
Definition queued_by (frame : string * string) : list json :=
  if String.eqb (strip (fst frame)) "message" then
    match json_loads (snd frame) with
    | Some data => [data]
    | None => []
    end
  else [].

(** [n] times the character [/]. *)
Fixpoint slashes (n : nat) : string :=
  match n with
  | O => EmptyString
  | S k => String "/" (slashes k)
  end.

(** The last character of a string, if any. *)
Fixpoint last_char (s : string) : option ascii :=
  match s with
  | EmptyString => None
  | String c EmptyString => Some c
  | String _ rest => last_char rest
  end.

(** The environment of a call, cut after some of its looks. *)
Definition with_ticks (env : call_env) (looks : list tick) : call_env :=
  {| uuid4 := uuid4 env; post := post env; start_time := start_time env; ticks := looks |}.

(** *** More vocabulary: the filter of [query_weather] *)

(** The place in a list of length [n] an index [i] of [-n .. n-1] stands
    for. *)
Definition position (n i : Z) : nat := Z.to_nat (if (i <? 0)%Z then n + i else i).

(** The entries of [items] at [indices], in the order of [indices], those at
    or beyond the length left out. *)
Definition picked (items : list json) (indices : list Z) : list json :=
  flat_map (fun i =>
              if (i <? Z.of_nat (List.length items))%Z
              then [nth (position (Z.of_nat (List.length items)) i) items JNull]
              else [])
           indices.

(** Each piece of the filter, stripped, reads as the integer beside it. *)
Definition reads_as (pieces : list string) (indices : list Z) : Prop :=
  Forall2 (fun piece i => py_int (strip piece) = Some i) pieces indices.

(** *** More vocabulary: a response that reaches its call *)

(** The clock of a look is within the budget of the call. *)
Definition within_budget (start_time : Q) (t : tick) : Prop :=
  Qltb (now t - start_time) call_timeout = true.

(** An entry the loop passes over: a JSON object whose [id] is not the
    identifier awaited. *)
Definition passed_over (request_id : string) (m : json) : Prop :=
  is_object m = true /\ has_id request_id m = false.

(** [null], a boolean or a number. *)
Definition is_scalar (v : json) : bool :=
  match v with
  | JNull | JBool _ | JInt _ | JFloat _ => true
  | _ => false
  end.

(** The entry [m] reaches the call in time. The call gets to polling; by the
    end of the looks [early] the table has held, in this order, the entries
    [ahead], then [m], then [behind]: what it held when polling started
    followed by what the listener queued since, in order of arrival. The
    entries ahead are objects with another [id]. And after [early] the loop
    has a look for each of them, the loop taking one entry per look, all
    looks so far within the budget. *)
Definition reaches_in_time (self : MCPWeatherClient) (env : call_env)
    (ahead : list json) (m : json) : Prop :=
  exists (path : string) (status_code : Z) (body : string)
         (early more later : list tick) (behind : list json),
    message_endpoint self = Some path
    /\ post env = Response status_code body
    /\ (status_code = 200%Z \/ status_code = 202%Z)
    /\ ticks env = early ++ more ++ later
    /\ early <> []
    /\ Forall (within_budget (start_time env)) (early ++ more)
    /\ response_queue self ++ puts (heard (flat_map received early) self)
       = ahead ++ m :: behind
    /\ Forall (passed_over (uuid4 env)) ahead
    /\ (List.length ahead <= List.length more)%nat.

(** * Facts *)

Unset Implicit Arguments.

(** ** Histories *)

Lemma gets_app (a b : list event) : gets (a ++ b) = gets a ++ gets b.
Proof. apply flat_map_app. Qed.

Lemma puts_app (a b : list event) : puts (a ++ b) = puts a ++ puts b.
Proof. apply flat_map_app. Qed.

Lemma in_gets (m : json) (log : list event) : In m (gets log) <-> In (QueueGet m) log.
Proof.
  unfold gets. rewrite in_flat_map. split.
  - intros [ev [Hin Hm]]. destruct ev; simpl in Hm; try contradiction.
    destruct Hm as [-> | []]. exact Hin.
  - intros Hin. exists (QueueGet m). split; [exact Hin | simpl; auto].
Qed.

Lemma in_puts (m : json) (log : list event) : In m (puts log) <-> In (QueuePut m) log.
Proof.
  unfold puts. rewrite in_flat_map. split.
  - intros [ev [Hin Hm]]. destruct ev; simpl in Hm; try contradiction.
    destruct Hm as [-> | []]. exact Hin.
  - intros Hin. exists (QueuePut m). split; [exact Hin | simpl; auto].
Qed.

(** ** Strings *)

Lemma startswith_split (p s : string) :
  startswith s p = true -> s = append p (slice_from (String.length p) s).
Proof.
  revert s. induction p as [| a p IH]; intros s H.
  - reflexivity.
  - destruct s as [| b s]; simpl in H; [discriminate H |].
    apply andb_true_iff in H. destruct H as [Hab H].
    apply Ascii.eqb_eq in Hab. subst b. simpl.
    f_equal. apply IH. exact H.
Qed.

(** ** The listener *)

Lemma sse_listener_pair items self :
  sse_listener items self = (listen items self, heard items self).
Proof. unfold listen, heard. destruct (sse_listener items self); reflexivity. Qed.

Lemma listen_cons item items self :
  listen (item :: items) self = listen items (fst (sse_item item self)).
Proof.
  unfold listen. simpl. destruct (sse_item item self) as [s1 l1]. simpl.
  destruct (sse_listener items s1); reflexivity.
Qed.

Lemma heard_cons item items self :
  heard (item :: items) self
  = snd (sse_item item self) ++ heard items (fst (sse_item item self)).
Proof.
  unfold heard. simpl. destruct (sse_item item self) as [s1 l1]. simpl.
  destruct (sse_listener items s1); reflexivity.
Qed.

Lemma listen_app a b self : listen (a ++ b) self = listen b (listen a self).
Proof.
  revert self. induction a as [| item a IH]; intros self.
  - reflexivity.
  - simpl app. rewrite !listen_cons. apply IH.
Qed.

(** What one line does to the queue: nothing, or one entry appended, which
    [json.loads] made from the payload of a [data: ] line. *)
Lemma sse_line_queue line self self' log :
  sse_line line self = Ok (self', log) ->
  server_url self' = server_url self /\
  alive (sse_thread self') = alive (sse_thread self) /\
  ( (log = [] /\ response_queue self' = response_queue self)
    \/ exists data_str data,
         line = append "data: " data_str /\ json_loads data_str = Some data /\
         log = [QueuePut data] /\
         response_queue self' = response_queue self ++ [data] ).
Proof.
  unfold sse_line. destruct line as [| c line]; [simpl; intros [= <- <-]; auto |].
  unfold decode_utf8. destruct (utf8_ok [] (String c line)); [| discriminate].
  cbn [bind].
  destruct (startswith (String c line) "event: ").
  { intros [= <- <-]. simpl. auto. }
  destruct (startswith (String c line) "data: ") eqn:Hdata.
  2:{ intros [= <- <-]. auto. }
  apply startswith_split in Hdata. cbn [String.length] in Hdata.
  unfold dispatch.
  destruct (event_is (current_event (sse_thread self)) "endpoint").
  { intros [= <- <-]. simpl. auto. }
  destruct (event_is (current_event (sse_thread self)) "message").
  2:{ intros [= <- <-]. simpl. auto. }
  destruct (json_loads (slice_from 6 (String c line))) as [data |] eqn:Hload.
  - intros [= <- <-]. simpl. repeat split.
    right. exists (slice_from 6 (String c line)), data. auto.
  - intros [= <- <-]. simpl. auto.
Qed.

Lemma sse_item_queue item self :
  server_url (fst (sse_item item self)) = server_url self /\
  ( (snd (sse_item item self) = [] /\
     response_queue (fst (sse_item item self)) = response_queue self)
    \/ exists data_str data,
         item = Line (append "data: " data_str) /\ json_loads data_str = Some data /\
         snd (sse_item item self) = [QueuePut data] /\
         response_queue (fst (sse_item item self)) = response_queue self ++ [data] ).
Proof.
  unfold sse_item. destruct (alive (sse_thread self)); [| simpl; auto].
  destruct item as [raw | e]; [| simpl; auto].
  destruct (sse_line raw self) as [[self' log] |] eqn:Hline; [| simpl; auto].
  apply sse_line_queue in Hline. destruct Hline as [Hurl [_ [[-> Hq] | Hput]]].
  - simpl. auto.
  - destruct Hput as [data_str [data [-> [Hload [-> Hq]]]]]. simpl. split; [exact Hurl |].
    right. exists data_str, data. auto.
Qed.

(** The listener only appends to the queue, and logs what it appends. *)
Lemma listen_queue items self :
  response_queue (listen items self) = response_queue self ++ puts (heard items self)
  /\ gets (heard items self) = []
  /\ server_url (listen items self) = server_url self.
Proof.
  revert self. induction items as [| item items IH]; intros self.
  - unfold listen, heard. simpl. rewrite app_nil_r. auto.
  - rewrite listen_cons, heard_cons, puts_app, gets_app.
    destruct (IH (fst (sse_item item self))) as [Hq [Hg Hu]].
    rewrite Hq, Hg, Hu.
    destruct (sse_item_queue item self) as [Hurl [[-> ->] | Hput]].
    + simpl. auto.
    + destruct Hput as [data_str [data [_ [_ [-> ->]]]]]. simpl.
      rewrite <- app_assoc. auto.
Qed.

(** Every entry the listener enqueues is the decoding of the payload of a
    [data: ] line of the stream. *)
Lemma heard_decoded items self data :
  In (QueuePut data) (heard items self) ->
  exists data_str,
    In (Line (append "data: " data_str)) items /\ json_loads data_str = Some data.
Proof.
  revert self. induction items as [| item items IH]; intros self.
  - unfold heard. simpl. contradiction.
  - rewrite heard_cons, in_app_iff. intros [Hin | Hin].
    + destruct (sse_item_queue item self) as [_ [[Hnil _] | Hput]].
      * rewrite Hnil in Hin. contradiction.
      * destruct Hput as [data_str [data' [-> [Hload [Hlog _]]]]]. rewrite Hlog in Hin.
        destruct Hin as [[= <-] | []]. exists data_str. simpl. auto.
    + destruct (IH _ Hin) as [data_str [Hl Hload]]. exists data_str. simpl. auto.
Qed.

Lemma event_line name self :
  alive (sse_thread self) = true -> str_ok name ->
  sse_item (Line (append "event: " name)) self = (set_event self (Some (strip name)), []).
Proof.
  intros Halive Hname. unfold sse_item. rewrite Halive.
  unfold sse_line, decode_utf8. cbn [append].
  replace (utf8_ok [] (String "e" (String "v" (String "e" (String "n" (String "t"
            (String ":" (String " " name))))))))
    with (utf8_ok [] name) by reflexivity.
  rewrite Hname. cbn [bind].
  replace (startswith (String "e" (String "v" (String "e" (String "n" (String "t"
            (String ":" (String " " name))))))) "event: ") with true by reflexivity.
  reflexivity.
Qed.

Lemma data_line payload self :
  alive (sse_thread self) = true -> str_ok payload ->
  sse_item (Line (append "data: " payload)) self
  = (set_event (fst (dispatch payload self)) None, snd (dispatch payload self)).
Proof.
  intros Halive Hpayload. unfold sse_item. rewrite Halive.
  unfold sse_line, decode_utf8. cbn [append].
  replace (utf8_ok [] (String "d" (String "a" (String "t" (String "a"
            (String ":" (String " " payload)))))))
    with (utf8_ok [] payload) by reflexivity.
  rewrite Hpayload. cbn [bind].
  replace (startswith (String "d" (String "a" (String "t" (String "a"
            (String ":" (String " " payload)))))) "event: ") with false by reflexivity.
  replace (startswith (String "d" (String "a" (String "t" (String "a"
            (String ":" (String " " payload)))))) "data: ") with true by reflexivity.
  cbn [slice_from]. destruct (dispatch payload self); reflexivity.
Qed.

(** A frame leaves the thread running, and sets the endpoint exactly when its
    event is [endpoint]. *)
Lemma frame_endpoint name payload self :
  alive (sse_thread self) = true -> str_ok name -> str_ok payload ->
  alive (sse_thread (listen (frame_lines (name, payload)) self)) = true /\
  message_endpoint (listen (frame_lines (name, payload)) self)
  = if String.eqb (strip name) "endpoint" then Some payload else message_endpoint self.
Proof.
  intros Halive Hname Hpayload. unfold frame_lines. cbn [fst snd].
  rewrite !listen_cons, event_line by assumption. cbn [fst].
  rewrite data_line by assumption. cbn [fst].
  assert (Hblank : forall s, sse_item (Line EmptyString) s = (s, [])).
  { intros s. unfold sse_item. destruct (alive (sse_thread s)); reflexivity. }
  rewrite Hblank. unfold listen. cbn [sse_listener fst].
  unfold dispatch, set_event. cbn [sse_thread set_thread current_event event_is].
  destruct (String.eqb (strip name) "endpoint"); [simpl; auto |].
  destruct (String.eqb (strip name) "message"); [| simpl; auto].
  destruct (json_loads payload); simpl; auto.
Qed.

Lemma frames_alive frames self :
  alive (sse_thread self) = true ->
  Forall (fun frame => str_ok (fst frame) /\ str_ok (snd frame)) frames ->
  alive (sse_thread (listen (flat_map frame_lines frames) self)) = true.
Proof.
  intros Halive Hok. revert self Halive.
  induction Hok as [| [name payload] frames [Hn Hp] _ IH]; intros self Halive.
  - exact Halive.
  - cbn [fst snd] in Hn, Hp. cbn [flat_map]. rewrite listen_app. apply IH.
    apply (frame_endpoint name payload self Halive Hn Hp).
Qed.

Lemma frames_keep_endpoint frames self :
  alive (sse_thread self) = true ->
  Forall (fun frame => str_ok (fst frame) /\ str_ok (snd frame)) frames ->
  Forall (fun frame => strip (fst frame) <> "endpoint") frames ->
  message_endpoint (listen (flat_map frame_lines frames) self) = message_endpoint self.
Proof.
  intros Halive Hok. revert self Halive.
  induction Hok as [| [name payload] frames [Hn Hp] _ IH]; intros self Halive Hother.
  - reflexivity.
  - inversion Hother as [| ? ? Hname Hrest]; subst. cbn [fst snd] in Hname, Hn, Hp.
    cbn [flat_map]. rewrite listen_app.
    destruct (frame_endpoint name payload self Halive Hn Hp) as [Halive' Hep].
    rewrite IH by assumption. rewrite Hep.
    destruct (String.eqb_spec (strip name) "endpoint"); [contradiction | reflexivity].
Qed.

(** C3, as the code has it. The message endpoint is the payload of the LAST
    [endpoint] frame the listener read: every [endpoint] frame sets it, a
    later one replaces the payload of an earlier one, and frames of other
    events leave it alone. *)
Theorem endpoint_is_last_announced :
  forall (before after : list (string * string)) (name payload : string)
         (self : MCPWeatherClient),
    alive (sse_thread self) = true ->
    Forall (fun frame => str_ok (fst frame) /\ str_ok (snd frame))
           (before ++ (name, payload) :: after) ->
    strip name = "endpoint" ->
    Forall (fun frame => strip (fst frame) <> "endpoint") after ->
    message_endpoint
      (listen (flat_map frame_lines (before ++ (name, payload) :: after)) self)
    = Some payload.
Proof.
  intros before after name payload self Halive Hok Hname Hafter.
  apply Forall_app in Hok. destruct Hok as [Hbefore Hok].
  inversion Hok as [| ? ? [Hn Hp] Hok']; subst. cbn [fst snd] in Hn, Hp.
  rewrite flat_map_app, listen_app. cbn [flat_map]. rewrite listen_app.
  pose proof (frames_alive before self Halive Hbefore) as Halive1.
  destruct (frame_endpoint name payload (listen (flat_map frame_lines before) self)
              Halive1 Hn Hp)
    as [Halive2 Hep].
  rewrite frames_keep_endpoint by assumption.
  rewrite Hep, Hname. reflexivity.
Qed.

(** C8. A [data: ] payload under a [message] event that [json.loads] rejects
    does not raise out of the loop body and enqueues nothing: the listener
    goes on with the same queue. Hence whatever the stream and the starting
    state, the listener only appends to the queue, and each entry it appends
    is the decoding of the payload of a [data: ] line of the stream. *)
Theorem malformed_message_never_queued :
  (forall (data_str : string) (self : MCPWeatherClient),
      str_ok data_str ->
      json_loads data_str = None ->
      alive (sse_thread self) = true ->
      current_event (sse_thread self) = Some "message" ->
      sse_line (append "data: " data_str) self = Ok (set_event self None, [])
      /\ response_queue (listen [Line (append "data: " data_str)] self) = response_queue self
      /\ heard [Line (append "data: " data_str)] self = []
      /\ alive (sse_thread (listen [Line (append "data: " data_str)] self)) = true)
  /\
  (forall (items : list stream_item) (self : MCPWeatherClient),
      response_queue (listen items self) = response_queue self ++ puts (heard items self)
      /\ forall data, In data (puts (heard items self)) ->
           exists data_str,
             In (Line (append "data: " data_str)) items /\ json_loads data_str = Some data).
Proof.
  split.
  - intros data_str self Hstr Hload Halive Hevent.
    pose proof (data_line data_str self Halive Hstr) as Hitem.
    assert (Hdispatch : dispatch data_str self = (self, [])).
    { unfold dispatch. rewrite Hevent. cbn [event_is].
      replace (String.eqb "message" "endpoint") with false by reflexivity.
      rewrite String.eqb_refl, Hload. reflexivity. }
    rewrite Hdispatch in Hitem. cbn [fst snd] in Hitem.
    assert (Hline : sse_line (append "data: " data_str) self = Ok (set_event self None, [])).
    { unfold sse_item in Hitem. rewrite Halive in Hitem.
      destruct (sse_line (append "data: " data_str) self) as [r | e] eqn:E.
      - rewrite Hitem. reflexivity.
      - exfalso. apply (f_equal (fun x => alive (sse_thread (fst x)))) in Hitem.
        simpl in Hitem. rewrite Halive in Hitem. discriminate Hitem. }
    split; [exact Hline |].
    unfold listen, heard. cbn [sse_listener]. rewrite Hitem. simpl. auto.
  - intros items self. split; [apply listen_queue |].
    intros data Hin. apply in_puts in Hin. eapply heard_decoded, Hin.
Qed.

(** ** Dequeued entries *)



Lemma unwrap_unusable_response request_id m :
  unusable_response request_id m -> unwrap_response m = Ok unable_to_parse.
Proof.
  intros (members & result & -> & _ & Herr & Hres & Hshape).
  unfold unwrap_response, py_contains, py_getitem, py_get.
  rewrite Herr. cbn [bind].
  unfold dict_get_default in Hres.
  replace (match dict_get members "result" with
           | Some v => Ok v
           | None => Ok (JObj [])
           end) with (Ok (A := json) (JObj result))
    by (destruct (dict_get members "result"); rewrite Hres; reflexivity).
  cbn [bind].
  destruct Hshape as [Hnone | [Hempty | (item & others & Hcontent & Htype)]].
  - rewrite Hnone. reflexivity.
  - rewrite Hempty. reflexivity.
  - rewrite Hcontent. cbn [bind py_len].
    replace (0 <? Z.of_nat (List.length (JObj item :: others)))%Z with true
      by (symmetry; apply Z.ltb_lt; simpl List.length; lia).
    cbn [py_getitem_0 bind]. unfold dict_get_default in Htype.
    destruct (dict_get item "type"); cbn [bind]; rewrite Htype; reflexivity.
Qed.

Lemma check_unusable_response request_id m :
  unusable_response request_id m ->
  check_response request_id m = Ok (Some unable_to_parse).
Proof.
  intros Hm. unfold check_response.
  rewrite (unwrap_unusable_response request_id m Hm).
  destruct Hm as (members & result & -> & Hid & _).
  unfold py_get. rewrite Hid. cbn [bind py_eq_str]. rewrite String.eqb_refl. reflexivity.
Qed.

(** An entry is passed over exactly when it is an object whose [id] is not
    the identifier awaited. *)
Lemma check_passes_over request_id m :
  check_response request_id m = Ok None <->
  is_object m = true /\ has_id request_id m = false.
Proof.
  unfold check_response, has_id, is_object, py_get.
  destruct m as [| b | n | bits | s | items | members];
    try (split; [discriminate | intros [H _]; discriminate H]).
  destruct (dict_get members "id") as [id |]; cbn [bind].
  - destruct (py_eq_str id request_id).
    + destruct (unwrap_response (JObj members)); cbn [bind];
        (split; [discriminate | intros [_ H]; discriminate H]).
    + split; auto.
  - replace (py_eq_str JNull request_id) with false by reflexivity. split; auto.
Qed.

(** The length test guards the index: unwrapping never raises [IndexError]. *)
Lemma unwrap_never_index_error m : unwrap_response m <> Raise IndexError.
Proof.
  unfold unwrap_response.
  destruct (py_contains "error" m) as [has_error | e] eqn:Herr; cbn [bind].
  2:{ destruct m; simpl in Herr; try discriminate; injection Herr as <-; discriminate. }
  destruct has_error.
  { destruct (py_getitem m "error") as [error | e] eqn:Hget; cbn [bind].
    - destruct error; simpl; try discriminate.
      destruct (dict_get members "message"); discriminate.
    - destruct m; simpl in Hget; try (injection Hget as <-; discriminate).
      destruct (dict_get members "error"); [discriminate |].
      injection Hget as <-. discriminate. }
  destruct (py_get m "result" (JObj [])) as [result | e] eqn:Hres; cbn [bind].
  2:{ destruct m; simpl in Hres; try (injection Hres as <-; discriminate).
      destruct (dict_get members "result"); discriminate. }
  destruct (py_contains "content" result) as [has_content | e] eqn:Hhas; cbn [bind].
  2:{ destruct result; simpl in Hhas; try discriminate; injection Hhas as <-; discriminate. }
  destruct has_content; [| discriminate].
  destruct (py_getitem result "content") as [content | e] eqn:Hcontent; cbn [bind].
  2:{ destruct result; simpl in Hcontent; try (injection Hcontent as <-; discriminate).
      destruct (dict_get members "content"); [discriminate |].
      injection Hcontent as <-. discriminate. }
  destruct (py_len content) as [n | e] eqn:Hlen; cbn [bind].
  2:{ destruct content; simpl in Hlen; try discriminate; injection Hlen as <-; discriminate. }
  destruct (0 <? n)%Z eqn:Hpos; [| discriminate].
  apply Z.ltb_lt in Hpos.
  assert (Hitem : py_getitem_0 content <> Raise IndexError).
  { destruct content as [| | | | s | items | members]; simpl; try discriminate.
    - destruct s as [| c s]; simpl; [| discriminate].
      simpl in Hlen. injection Hlen as <-. lia.
    - destruct items; [| discriminate]. simpl in Hlen. injection Hlen as <-. lia. }
  destruct (py_getitem_0 content) as [content_item | e]; cbn [bind].
  2:{ intros [= ->]. apply Hitem. reflexivity. }
  destruct (py_get content_item "type" JNull) as [type | e] eqn:Htype; cbn [bind].
  2:{ destruct content_item; simpl in Htype; try (injection Htype as <-; discriminate).
      destruct (dict_get members "type"); discriminate. }
  destruct (py_eq_str type "text"); [| discriminate].
  destruct (py_get content_item "text" (JStr "{}")) as [text | e] eqn:Htext; cbn [bind].
  2:{ destruct content_item; simpl in Htext; try (injection Htext as <-; discriminate).
      destruct (dict_get members "text"); discriminate. }
  unfold py_json_loads. destruct text; try discriminate.
  destruct (json_loads s); discriminate.
Qed.

(** ** The poll loop *)

Lemma poll_response_step request_id start t later self :
  poll_response request_id start (t :: later) self
  = if Qltb (now t - start) call_timeout then
      match response_queue (listen (received t) self) with
      | [] =>
          let r := poll_response request_id start later (listen (received t) self) in
          {| result := result r; final := final r;
             history := heard (received t) self ++ QueueEmpty true :: Sleep :: history r |}
      | mcp_response :: rest =>
          let self2 := set_queue (listen (received t) self) rest in
          match check_response request_id mcp_response with
          | Raise e =>
              {| result := Raised e; final := self2;
                 history := heard (received t) self
                            ++ [QueueEmpty false; QueueGet mcp_response] |}
          | Ok (Some v) =>
              {| result := Returned v; final := self2;
                 history := heard (received t) self
                            ++ [QueueEmpty false; QueueGet mcp_response] |}
          | Ok None =>
              let r := poll_response request_id start later self2 in
              {| result := result r; final := final r;
                 history := heard (received t) self ++ QueueEmpty false
                            :: QueueGet mcp_response :: Sleep :: history r |}
          end
      end
    else {| result := Returned response_timed_out; final := listen (received t) self;
            history := heard (received t) self |}.
Proof. cbn [poll_response]. rewrite sse_listener_pair. reflexivity. Qed.

(** What a run of the loop dequeued: entries it passed over, then at most
    one entry that ended the loop, by a value or by an exception. *)
Lemma poll_response_gets request_id start ticks : forall self,
  let r := poll_response request_id start ticks self in
  (Forall (fun m => check_response request_id m = Ok None) (gets (history r))
   /\ (result r = Waiting \/ result r = Returned response_timed_out))
  \/ exists skipped m,
       gets (history r) = skipped ++ [m] /\
       Forall (fun m => check_response request_id m = Ok None) skipped /\
       match check_response request_id m with
       | Ok (Some v) => result r = Returned v
       | Ok None => False
       | Raise e => result r = Raised e
       end.
Proof.
  induction ticks as [| t later IH]; intros self; cbn zeta.
  - left. simpl. auto.
  - rewrite poll_response_step.
    destruct (listen_queue (received t) self) as [_ [Hheard _]].
    destruct (Qltb (now t - start) call_timeout).
    2:{ left. cbn [history result]. rewrite Hheard. auto. }
    destruct (response_queue (listen (received t) self)) as [| m rest].
    { cbn zeta. cbn [history result]. rewrite gets_app, Hheard. apply IH. }
    destruct (check_response request_id m) as [[v |] | e] eqn:Hcheck;
      cbn zeta; cbn [history result]; rewrite gets_app, Hheard.
    + right. exists [], m. rewrite Hcheck. simpl. auto.
    + cbn [gets flat_map app].
      destruct (IH (set_queue (listen (received t) self) rest))
        as [[Hall Hres] | (skipped & m' & Hgets & Hall & Hend)].
      * left. split; [constructor; assumption | exact Hres].
      * right. exists (m :: skipped), m'. unfold gets in Hgets. rewrite Hgets.
        split; [reflexivity |]. split; [constructor; assumption | exact Hend].
    + right. exists [], m. rewrite Hcheck. simpl. auto.
Qed.

(** A dequeued entry that is not passed over decides the result. *)
Lemma poll_response_decided request_id start ticks self m :
  In (QueueGet m) (history (poll_response request_id start ticks self)) ->
  match check_response request_id m with
  | Ok (Some v) => result (poll_response request_id start ticks self) = Returned v
  | Ok None => True
  | Raise e => result (poll_response request_id start ticks self) = Raised e
  end.
Proof.
  intros Hin. apply in_gets in Hin.
  destruct (poll_response_gets request_id start ticks self)
    as [[Hall _] | (skipped & m' & Hgets & Hall & Hend)].
  - rewrite Forall_forall in Hall. rewrite (Hall m Hin). exact I.
  - rewrite Hgets in Hin. apply in_app_or in Hin. destruct Hin as [Hin | [<- | []]].
    + rewrite Forall_forall in Hall. rewrite (Hall m Hin). exact I.
    + destruct (check_response request_id m') as [[v |] | e]; auto.
Qed.

(** Of the entries a run dequeued, all but the one that decided the result
    were passed over. *)
Lemma poll_response_others request_id start ticks self m v :
  In (QueueGet m) (history (poll_response request_id start ticks self)) ->
  check_response request_id m = Ok (Some v) ->
  forall m', In (QueueGet m') (history (poll_response request_id start ticks self)) ->
             m' = m \/ check_response request_id m' = Ok None.
Proof.
  intros Hin Hcheck m' Hin'. apply in_gets in Hin, Hin'.
  destruct (poll_response_gets request_id start ticks self)
    as [[Hall _] | (skipped & m0 & Hgets & Hall & Hend)];
    rewrite Forall_forall in Hall.
  - right. apply Hall, Hin'.
  - rewrite Hgets in Hin, Hin'. apply in_app_or in Hin, Hin'.
    assert (Hm : m = m0).
    { destruct Hin as [Hin | [<- | []]]; [| reflexivity].
      rewrite (Hall m Hin) in Hcheck. discriminate Hcheck. }
    subst m0. destruct Hin' as [Hin' | [<- | []]]; auto.
Qed.

(** Once the clock of some look has used up the budget, the loop has ended. *)
Lemma poll_response_ends request_id start ticks : forall self,
  Exists (expired start call_timeout) ticks ->
  result (poll_response request_id start ticks self) <> Waiting.
Proof.
  induction ticks as [| t later IH]; intros self Hex.
  - inversion Hex.
  - rewrite poll_response_step.
    destruct (Qltb (now t - start) call_timeout) eqn:Hlt; [| discriminate].
    assert (Hlater : Exists (expired start call_timeout) later).
    { inversion Hex as [? ? Hnow | ? ? Hl]; subst; [| exact Hl].
      unfold expired in Hnow. rewrite Hlt in Hnow. discriminate Hnow. }
    destruct (response_queue (listen (received t) self)) as [| m rest].
    { cbn zeta. cbn [result]. apply IH, Hlater. }
    destruct (check_response request_id m) as [[v |] | e]; cbn zeta; cbn [result];
      try discriminate.
    apply IH, Hlater.
Qed.


(** The loop never looks past the first look whose clock has used up the
    budget: whatever it dequeues, it dequeues before. *)
Lemma poll_response_stops_at_expiry request_id start before t later : forall self,
  expired start call_timeout t ->
  poll_response request_id start (before ++ t :: later) self
  = poll_response request_id start (before ++ [t]) self.
Proof.
  induction before as [| b before IH]; intros self Ht.
  - cbn [app]. rewrite !poll_response_step. unfold expired in Ht. rewrite Ht. reflexivity.
  - cbn [app]. rewrite !poll_response_step.
    destruct (Qltb (now b - start) call_timeout); [| reflexivity].
    destruct (response_queue (listen (received b) self)) as [| m rest].
    { cbn zeta. rewrite IH by exact Ht. reflexivity. }
    destruct (check_response request_id m) as [[v |] | e]; try reflexivity.
    cbn zeta. rewrite IH by exact Ht. reflexivity.
Qed.

(** ** A response that reaches its call *)

(** What the listener logs, and the state of its thread, depend on the state
    of the thread alone: the listener never reads the queue. *)
Lemma sse_item_thread item self self' :
  sse_thread self = sse_thread self' ->
  snd (sse_item item self) = snd (sse_item item self')
  /\ sse_thread (fst (sse_item item self)) = sse_thread (fst (sse_item item self')).
Proof.
  intros Hthread. unfold sse_item. rewrite Hthread.
  destruct (alive (sse_thread self')); [| auto].
  destruct item as [raw | e].
  2:{ cbn. rewrite Hthread. auto. }
  unfold sse_line. destruct raw as [| c raw]; [auto |].
  unfold decode_utf8. destruct (utf8_ok [] (String c raw)); cbn [bind].
  2:{ cbn. rewrite Hthread. auto. }
  destruct (startswith (String c raw) "event: ").
  { cbn. rewrite Hthread. auto. }
  destruct (startswith (String c raw) "data: "); [| auto].
  unfold dispatch. rewrite Hthread.
  destruct (event_is (current_event (sse_thread self')) "endpoint").
  { cbn. rewrite Hthread. auto. }
  destruct (event_is (current_event (sse_thread self')) "message").
  - destruct (json_loads (slice_from 6 (String c raw))); cbn; rewrite Hthread; auto.
  - cbn. rewrite Hthread. auto.
Qed.

Lemma heard_thread items : forall self self',
  sse_thread self = sse_thread self' -> heard items self = heard items self'.
Proof.
  induction items as [| item items IH]; intros self self' Hthread; [reflexivity |].
  rewrite !heard_cons.
  destruct (sse_item_thread item self self' Hthread) as [Hlog Hnext].
  rewrite Hlog. f_equal. apply IH, Hnext.
Qed.

Lemma heard_app a b : forall self,
  heard (a ++ b) self = heard a self ++ heard b (listen a self).
Proof.
  induction a as [| item a IH]; intros self; cbn [app]; [reflexivity |].
  rewrite !heard_cons, listen_cons, IH, app_assoc. reflexivity.
Qed.

(** The response is in the queue at a look, behind entries the loop passes
    over, and the loop has a further look within the budget for each. *)
Lemma poll_response_serves request_id start later : forall ahead more t self m behind,
  within_budget start t ->
  Forall (within_budget start) more ->
  response_queue (listen (received t) self) = ahead ++ m :: behind ->
  Forall (fun x => check_response request_id x = Ok None) ahead ->
  check_response request_id m <> Ok None ->
  (List.length ahead <= List.length more)%nat ->
  gets (history (poll_response request_id start (t :: more ++ later) self)) = ahead ++ [m]
  /\ result (poll_response request_id start (t :: more ++ later) self)
     = match check_response request_id m with
       | Ok (Some v) => Returned v
       | Ok None => Waiting
       | Raise e => Raised e
       end.
Proof.
  induction ahead as [| x ahead IH]; intros more t self m behind Ht Hmore Hq Hahead Hm Hlen;
    rewrite poll_response_step; unfold within_budget in Ht; rewrite Ht, Hq; cbn [app];
    destruct (listen_queue (received t) self) as (_ & Hheard & _).
  - destruct (check_response request_id m) as [[v |] | e];
      [| contradiction Hm; reflexivity |];
      cbn zeta; cbn [history result]; rewrite gets_app, Hheard; split; reflexivity.
  - inversion Hahead as [| ? ? Hx Hrest]; subst. rewrite Hx.
    destruct more as [| t' more]; [cbn in Hlen; lia |].
    inversion Hmore as [| ? ? Ht' Hmore']; subst.
    cbn zeta. cbn [history result]. rewrite gets_app, Hheard. cbn [gets flat_map app].
    remember (set_queue (listen (received t) self) (ahead ++ m :: behind)) as self2
      eqn:Hself2.
    assert (Hq2 : response_queue (listen (received t') self2)
                  = ahead ++ m :: behind ++ puts (heard (received t') self2)).
    { destruct (listen_queue (received t') self2) as (Hq' & _).
      rewrite Hq', Hself2. cbn [response_queue set_queue]. rewrite <- app_assoc.
      reflexivity. }
    assert (Hlen' : (List.length ahead <= List.length more)%nat) by (cbn in Hlen; lia).
    destruct (IH more t' self2 m (behind ++ puts (heard (received t') self2))
                 Ht' Hmore' Hq2 Hrest Hm Hlen')
      as [Hgets Hresult].
    unfold gets in Hgets. rewrite Hgets, Hresult. split; reflexivity.
Qed.

(** The same when the response and the entries ahead of it come in the
    course of the first looks. *)
Lemma poll_response_reaches request_id start more later : forall early self ahead m behind,
  early <> [] ->
  Forall (within_budget start) (early ++ more) ->
  response_queue self ++ puts (heard (flat_map received early) self) = ahead ++ m :: behind ->
  Forall (fun x => check_response request_id x = Ok None) ahead ->
  check_response request_id m <> Ok None ->
  (List.length ahead <= List.length more)%nat ->
  gets (history (poll_response request_id start (early ++ more ++ later) self))
  = ahead ++ [m]
  /\ result (poll_response request_id start (early ++ more ++ later) self)
     = match check_response request_id m with
       | Ok (Some v) => Returned v
       | Ok None => Waiting
       | Raise e => Raised e
       end.
Proof.
  induction early as [| t early IH]; intros self ahead m behind Hne Hbudget Hq Hahead Hm Hlen;
    [contradiction Hne; reflexivity |].
  cbn [app] in Hbudget |- *. inversion Hbudget as [| ? ? Ht Hbudget']; subst.
  destruct early as [| t' early].
  - cbn [flat_map] in Hq. rewrite app_nil_r in Hq. cbn [app].
    apply (poll_response_serves request_id start later ahead more t self m behind); auto.
    destruct (listen_queue (received t) self) as (Hlq & _). rewrite Hlq. exact Hq.
  - change (flat_map received (t :: t' :: early))
      with (received t ++ flat_map received (t' :: early)) in Hq.
    rewrite heard_app, puts_app, app_assoc in Hq.
    destruct (listen_queue (received t) self) as (Hlq & Hheard & _).
    rewrite <- Hlq in Hq. clear Hlq.
    rewrite poll_response_step. unfold within_budget in Ht. rewrite Ht.
    remember (listen (received t) self) as self1 eqn:Hself1.
    destruct (response_queue self1) as [| x rest] eqn:Hqueue.
    + cbn zeta. cbn [history result]. rewrite gets_app, Hheard.
      cbn [gets flat_map app].
      assert (Hq1 : response_queue self1
                    ++ puts (heard (flat_map received (t' :: early)) self1)
                    = ahead ++ m :: behind) by (rewrite Hqueue; exact Hq).
      destruct (IH self1 ahead m behind ltac:(discriminate) Hbudget' Hq1 Hahead Hm Hlen)
        as [Hgets Hresult].
      unfold gets in Hgets. cbn [app] in Hgets, Hresult. rewrite Hgets, Hresult.
      split; reflexivity.
    + cbn [app] in Hq. destruct ahead as [| y ahead]; cbn [app] in Hq;
        injection Hq as Hx Hrest; subst x.
      * destruct (check_response request_id m) as [[v |] | e];
          [| contradiction Hm; reflexivity |];
          cbn zeta; cbn [history result]; rewrite gets_app, Hheard; split; reflexivity.
      * apply Forall_cons_iff in Hahead. destruct Hahead as [Hy Hahead']. rewrite Hy.
        cbn zeta. cbn [history result]. rewrite gets_app, Hheard.
        cbn [gets flat_map app].
        assert (Hq2 : response_queue (set_queue self1 rest)
                      ++ puts (heard (flat_map received (t' :: early))
                                     (set_queue self1 rest))
                      = ahead ++ m :: behind).
        { cbn [response_queue set_queue].
          rewrite (heard_thread (flat_map received (t' :: early))
                     (set_queue self1 rest) self1 eq_refl).
          exact Hrest. }
        assert (Hlen' : (List.length ahead <= List.length more)%nat)
          by (cbn in Hlen; lia).
        destruct (IH (set_queue self1 rest) ahead m behind ltac:(discriminate) Hbudget'
                     Hq2 Hahead' Hm Hlen')
          as [Hgets Hresult].
        unfold gets in Hgets. cbn [app] in Hgets, Hresult. rewrite Hgets, Hresult.
        split; reflexivity.
Qed.

(** ** The gateway *)

(** A call that gets past the POST is the poll loop, with the three [except]
    clauses around it. *)
Lemma call_tool_polling self tool_name arguments env path status_code text :
  message_endpoint self = Some path ->
  post env = Response status_code text ->
  refused status_code = false ->
  _call_tool self tool_name arguments env
  = let r := poll_response (uuid4 env) (start_time env) (ticks env) self in
    {| result := match result r with
                 | Raised e => Returned (on_exception self e)
                 | ended => ended
                 end;
       final := final r;
       history := HttpPost (append (server_url self) path)
                           (tools_call (uuid4 env) tool_name arguments) :: history r |}.
Proof. intros Hep Hpost Hok. unfold _call_tool. rewrite Hep, Hpost, Hok. reflexivity. Qed.

(** A call either ends before it looks at the queue, or polls. *)
Lemma call_tool_cases self tool_name arguments env :
  (final (_call_tool self tool_name arguments env) = self /\
   polls (history (_call_tool self tool_name arguments env)) = false /\
   gets (history (_call_tool self tool_name arguments env)) = [] /\
   puts (history (_call_tool self tool_name arguments env)) = [])
  \/ exists path status_code text,
       message_endpoint self = Some path /\
       post env = Response status_code text /\
       refused status_code = false.
Proof.
  unfold _call_tool.
  destruct (message_endpoint self) as [path |]; [| left; simpl; auto].
  destruct (post env) as [status_code text | e]; [| left; simpl; auto].
  destruct (refused status_code) eqn:Hrefused; [left; simpl; auto |].
  right. exists path, status_code, text. auto.
Qed.

Lemma call_tool_dequeued self tool_name arguments env m :
  In (QueueGet m) (history (_call_tool self tool_name arguments env)) ->
  In (QueueGet m)
     (history (poll_response (uuid4 env) (start_time env) (ticks env) self))
  /\ result (_call_tool self tool_name arguments env)
     = match result (poll_response (uuid4 env) (start_time env) (ticks env) self) with
       | Raised e => Returned (on_exception self e)
       | ended => ended
       end.
Proof.
  intros Hin.
  destruct (call_tool_cases self tool_name arguments env)
    as [(_ & _ & Hgets & _) | (path & status_code & text & Hep & Hpost & Hok)].
  - apply in_gets in Hin. rewrite Hgets in Hin. contradiction.
  - rewrite (call_tool_polling self tool_name arguments env path status_code text
               Hep Hpost Hok) in Hin |- *.
    cbn zeta in Hin |- *. cbn [history result] in Hin |- *.
    destruct Hin as [Hin | Hin]; [discriminate Hin | auto].
Qed.

(** The gateway catches whatever is raised inside it. *)
Lemma call_tool_never_raises self tool_name arguments env e :
  result (_call_tool self tool_name arguments env) <> Raised e.
Proof.
  unfold _call_tool.
  destruct (message_endpoint self); [| discriminate].
  destruct (post env); [| discriminate].
  destruct (refused status_code); [discriminate |].
  cbn zeta. cbn [result].
  destruct (result (poll_response (uuid4 env) (start_time env) (ticks env) self));
    discriminate.
Qed.



Lemma gets_post url body log : gets (HttpPost url body :: log) = gets log.
Proof. reflexivity. Qed.

(** A call whose loop is reached in time by an entry it does not pass over
    takes the entries ahead, then that entry, which decides the call. *)
Lemma call_tool_reaches self tool_name arguments env ahead m :
  reaches_in_time self env ahead m ->
  check_response (uuid4 env) m <> Ok None ->
  gets (history (_call_tool self tool_name arguments env)) = ahead ++ [m]
  /\ result (_call_tool self tool_name arguments env)
     = match check_response (uuid4 env) m with
       | Ok (Some v) => Returned v
       | Ok None => Waiting
       | Raise e => Returned (on_exception self e)
       end.
Proof.
  intros (path & status_code & body & early & more & later & behind & Hep & Hpost & Hstatus
          & Hticks & Hne & Hbudget & Hq & Hahead & Hlen) Hm.
  assert (Hok : refused status_code = false).
  { destruct Hstatus as [-> | ->]; reflexivity. }
  assert (Hpassed : Forall (fun x => check_response (uuid4 env) x = Ok None) ahead).
  { eapply Forall_impl; [| exact Hahead]. intros x Hx. apply check_passes_over, Hx. }
  rewrite (call_tool_polling self tool_name arguments env path status_code body
             Hep Hpost Hok).
  cbn zeta. cbn [history result]. rewrite gets_post, Hticks.
  destruct (poll_response_reaches (uuid4 env) (start_time env) more later early self
              ahead m behind Hne Hbudget Hq Hpassed Hm Hlen) as [Hgets Hresult].
  rewrite Hgets, Hresult. split; [reflexivity |].
  destruct (check_response (uuid4 env) m) as [[v |] | e]; reflexivity.
Qed.

(** A response whose result is [null], a boolean or a number makes the test
    ["content" in result] raise. *)
Lemma check_scalar_result request_id members res :
  dict_get members "id" = Some (JStr request_id) ->
  dict_get members "error" = None ->
  dict_get members "result" = Some res ->
  is_scalar res = true ->
  check_response request_id (JObj members) = Raise (TypeError "in" res).
Proof.
  intros Hid Herr Hres Hscalar. unfold check_response, py_get. rewrite Hid.
  cbn [bind py_eq_str]. rewrite String.eqb_refl.
  unfold unwrap_response, py_contains, py_get. rewrite Herr. cbn [bind]. rewrite Hres.
  cbn [bind]. destruct res; try discriminate Hscalar; reflexivity.
Qed.

(** C5. A call made while [message_endpoint] is [None] returns
    [{"success": False, "error": "MCP 连接未建立"}] at once: nothing is
    posted, the queue is not looked at, the client object is as it was. *)
Theorem call_without_endpoint_fails_fast :
  forall (self : MCPWeatherClient) (tool_name : string) (arguments : json)
         (env : call_env),
    message_endpoint self = None ->
    _call_tool self tool_name arguments env
    = {| result := Returned (JObj [ ("success", JBool false);
                                    ("error", JStr "MCP 连接未建立") ]);
         final := self;
         history := [] |}.
Proof.
  intros self tool_name arguments env Hnone. unfold _call_tool. rewrite Hnone.
  reflexivity.
Qed.

(** C6. When the POST is answered with a status other than 200 and 202, the
    call returns [{"success": False, "error": "MCP服务器返回错误: <status> -
    <body>"}]; its history is the POST alone, so the queue is never polled,
    and the client object is as it was. *)
Theorem refused_post_fails_without_polling :
  forall (self : MCPWeatherClient) (tool_name : string) (arguments : json)
         (env : call_env) (path : string) (status_code : Z) (text : string),
    message_endpoint self = Some path ->
    post env = Response status_code text ->
    status_code <> 200%Z -> status_code <> 202%Z ->
    _call_tool self tool_name arguments env
    = {| result :=
           Returned (JObj [ ("success", JBool false);
                            ("error",
                             JStr (append "MCP服务器返回错误: "
                                     (append (str_of_int status_code)
                                        (append " - " text)))) ]);
         final := self;
         history := [HttpPost (append (server_url self) path)
                              (tools_call (uuid4 env) tool_name arguments)] |}
    /\ polls (history (_call_tool self tool_name arguments env)) = false.
Proof.
  intros self tool_name arguments env path status_code text Hep Hpost H200 H202.
  assert (Hrefused : refused status_code = true).
  { unfold refused. apply Z.eqb_neq in H200, H202. rewrite H200, H202. reflexivity. }
  unfold _call_tool. rewrite Hep, Hpost, Hrefused. split; reflexivity.
Qed.


(** C9, as the code has it. Take the response to the identifier of a call,
    without [error], whose result is an object that has no [content], or an
    empty [content] list, or a [content] list whose first item is an object
    with a [type] other than ["text"]. When it reaches the call in time, and
    in every run in which the loop dequeues it, unwrapping raises nothing and
    the call returns [{"success": False, "error": "无法解析MCP响应"}].
    Whatever the entry, unwrapping never raises [IndexError], the index into
    [content] being taken only after the length test, and the call never
    raises. But a result that is [null], a boolean or a number has no
    [content] either, and there the test ["content" in result] raises
    [TypeError]: the call returns the failure of the last [except] clause,
    ["MCP调用失败: ..."]. *)
Theorem unusable_result_is_unable_to_parse :
  (forall (self : MCPWeatherClient) (tool_name : string) (arguments : json)
          (env : call_env) (ahead : list json) (m : json),
      reaches_in_time self env ahead m ->
      unusable_response (uuid4 env) m ->
      unwrap_response m
      = Ok (JObj [("success", JBool false); ("error", JStr "无法解析MCP响应")])
      /\ result (_call_tool self tool_name arguments env)
         = Returned (JObj [("success", JBool false); ("error", JStr "无法解析MCP响应")])
      /\ gets (history (_call_tool self tool_name arguments env)) = ahead ++ [m])
  /\ (forall (self : MCPWeatherClient) (tool_name : string) (arguments : json)
             (env : call_env) (m : json),
         In (QueueGet m) (history (_call_tool self tool_name arguments env)) ->
         unusable_response (uuid4 env) m ->
         result (_call_tool self tool_name arguments env)
         = Returned (JObj [("success", JBool false); ("error", JStr "无法解析MCP响应")]))
  /\ (forall m : json, unwrap_response m <> Raise IndexError)
  /\ (forall (self : MCPWeatherClient) (tool_name : string) (arguments : json)
             (env : call_env) (e : pyexn),
         result (_call_tool self tool_name arguments env) <> Raised e)
  /\ (forall (self : MCPWeatherClient) (tool_name : string) (arguments : json)
             (env : call_env) (ahead : list json) (members : list (string * json))
             (res : json),
         reaches_in_time self env ahead (JObj members) ->
         dict_get members "id" = Some (JStr (uuid4 env)) ->
         dict_get members "error" = None ->
         dict_get members "result" = Some res ->
         is_scalar res = true ->
         result (_call_tool self tool_name arguments env)
         = Returned (JObj [("success", JBool false);
                           ("error", JStr (append "MCP调用失败: "
                                             (str_exn (TypeError "in" res))))])).
Proof.
  split; [| split; [| split; [exact unwrap_never_index_error | split]]].
  - intros self tool_name arguments env ahead m Hreach Hm.
    pose proof (check_unusable_response (uuid4 env) m Hm) as Hcheck.
    destruct (call_tool_reaches self tool_name arguments env ahead m Hreach)
      as [Hgets Hresult].
    { rewrite Hcheck. discriminate. }
    rewrite Hcheck in Hresult.
    split; [exact (unwrap_unusable_response (uuid4 env) m Hm) |].
    split; [exact Hresult | exact Hgets].
  - intros self tool_name arguments env m Hin Hm.
    destruct (call_tool_dequeued self tool_name arguments env m Hin) as [Hpoll ->].
    apply poll_response_decided in Hpoll.
    rewrite (check_unusable_response (uuid4 env) m Hm) in Hpoll.
    rewrite Hpoll. reflexivity.
  - intros self tool_name arguments env e. apply call_tool_never_raises.
  - intros self tool_name arguments env ahead members res Hreach Hid Herr Hres Hscalar.
    pose proof (check_scalar_result (uuid4 env) members res Hid Herr Hres Hscalar)
      as Hcheck.
    destruct (call_tool_reaches self tool_name arguments env ahead (JObj members) Hreach)
      as [_ Hresult].
    { rewrite Hcheck. discriminate. }
    rewrite Hcheck in Hresult. exact Hresult.
Qed.

(** C7, as the code has it. When a call polls, the clock of some look has
    used up the 30 units, and every entry the loop dequeued is a JSON object
    whose [id] is not the identifier awaited, the call returns
    [{"success": False, "error": "等待MCP响应超时"}]. (An entry that is not an
    object makes [.get] raise; the call then returns the error of the last
    [except] clause.) *)
Theorem unmatched_objects_time_out :
  forall (self : MCPWeatherClient) (tool_name : string) (arguments : json)
         (env : call_env) (path : string) (status_code : Z) (text : string),
    message_endpoint self = Some path ->
    post env = Response status_code text ->
    status_code = 200%Z \/ status_code = 202%Z ->
    Exists (expired (start_time env) call_timeout) (ticks env) ->
    (forall m, In (QueueGet m) (history (_call_tool self tool_name arguments env)) ->
               is_object m = true /\ has_id (uuid4 env) m = false) ->
    result (_call_tool self tool_name arguments env)
    = Returned (JObj [("success", JBool false); ("error", JStr "等待MCP响应超时")]).
Proof.
  intros self tool_name arguments env path status_code text Hep Hpost Hstatus Hex Hall.
  assert (Hok : refused status_code = false).
  { destruct Hstatus as [-> | ->]; reflexivity. }
  rewrite (call_tool_polling self tool_name arguments env path status_code text
             Hep Hpost Hok) in Hall |- *.
  cbn zeta in Hall |- *. cbn [history result] in Hall |- *.
  pose proof (poll_response_ends (uuid4 env) (start_time env) (ticks env) self Hex) as Hends.
  destruct (poll_response_gets (uuid4 env) (start_time env) (ticks env) self)
    as [[_ [Hw | Hres]] | (skipped & m & Hgets & _ & Hend)].
  - contradiction.
  - rewrite Hres. reflexivity.
  - exfalso.
    assert (Hin : In (QueueGet m)
                     (history (poll_response (uuid4 env) (start_time env) (ticks env) self))).
    { apply in_gets. rewrite Hgets. apply in_or_app. right. simpl. auto. }
    specialize (Hall m (or_intror Hin)).
    apply check_passes_over in Hall. rewrite Hall in Hend. exact Hend.
Qed.


(** ** The wrappers *)

(** A wrapper hands on a mapping as the gateway returned it. *)
Lemma wrappers_pass_mappings self city env members :
  (result (_call_tool self "query_current_weather" (JObj [("city", JStr city)]) env)
   = Returned (JObj members) ->
   query_current_weather self city env
   = _call_tool self "query_current_weather" (JObj [("city", JStr city)]) env)
  /\
  (result (_call_tool self "query_weather_forecast" (JObj [("city", JStr city)]) env)
   = Returned (JObj members) ->
   query_weather_forecast self city env
   = _call_tool self "query_weather_forecast" (JObj [("city", JStr city)]) env).
Proof.
  split; intros Hr; unfold query_current_weather, query_weather_forecast, wrap;
    rewrite Hr; unfold py_get;
    destruct (dict_get members "success") as [success |]; cbn [bind];
    try destruct (py_truthy success); cbn [bind py_truthy];
    try destruct (dict_get members "error"); try destruct (dict_get members "days");
    reflexivity.
Qed.

(** A wrapper raises exactly when the gateway returns something that is not
    a mapping. *)
Lemma wrappers_raise_on_non_mappings self city env v :
  is_object v = false ->
  (result (_call_tool self "query_current_weather" (JObj [("city", JStr city)]) env)
   = Returned v ->
   result (query_current_weather self city env) = Raised (AttributeError v "get"))
  /\
  (result (_call_tool self "query_weather_forecast" (JObj [("city", JStr city)]) env)
   = Returned v ->
   result (query_weather_forecast self city env) = Raised (AttributeError v "get")).
Proof.
  intros Hv.
  split; intros Hr; unfold query_current_weather, query_weather_forecast, wrap;
    rewrite Hr; destruct v; try discriminate Hv; reflexivity.
Qed.

(** ** Bootstrap and the accessor *)

Lemma wait_endpoint_ends start ticks : forall self,
  Exists (expired start bootstrap_timeout) ticks ->
  result (wait_endpoint start ticks self) = Returned tt.
Proof.
  induction ticks as [| t later IH]; intros self Hex.
  - inversion Hex.
  - cbn [wait_endpoint]. rewrite sse_listener_pair.
    destruct (message_endpoint (listen (received t) self)); [reflexivity |].
    destruct (Qltb (now t - start) bootstrap_timeout) eqn:Hlt; [| reflexivity].
    cbn zeta. cbn [result]. apply IH.
    inversion Hex as [? ? Hnow | ? ? Hl]; subst; [| exact Hl].
    unfold expired in Hnow. rewrite Hlt in Hnow. discriminate Hnow.
Qed.

Lemma poll_init_ends endpoint notify start ticks : forall self,
  Exists (expired start bootstrap_timeout) ticks ->
  result (poll_init endpoint notify start ticks self) <> Waiting.
Proof.
  induction ticks as [| t later IH]; intros self Hex.
  - inversion Hex.
  - cbn [poll_init]. rewrite sse_listener_pair.
    destruct (Qltb (now t - start) bootstrap_timeout) eqn:Hlt; [| discriminate].
    assert (Hlater : Exists (expired start bootstrap_timeout) later).
    { inversion Hex as [? ? Hnow | ? ? Hl]; subst; [| exact Hl].
      unfold expired in Hnow. rewrite Hlt in Hnow. discriminate Hnow. }
    destruct (response_queue (listen (received t) self)) as [| init_response rest].
    { cbn zeta. cbn [result]. apply IH, Hlater. }
    destruct (py_get init_response "id" JNull) as [id | e]; [| discriminate].
    destruct (py_eq_one id).
    + cbn [result]. destruct notify; discriminate.
    + cbn zeta. cbn [result]. apply IH, Hlater.
Qed.

Lemma initialize_mcp_ends self env :
  Exists (expired (init_start env) bootstrap_timeout) (init_ticks env) ->
  result (_initialize_mcp self env) = Returned tt.
Proof.
  intros Hex. unfold _initialize_mcp.
  destruct (init_post env) as [status_code text | e]; [| reflexivity].
  destruct ((status_code =? 200)%Z || (status_code =? 202)%Z); [| reflexivity].
  cbn zeta. cbn [result swallow].
  pose proof (poll_init_ends
                (append (server_url self) (str_of_optional (message_endpoint self)))
                (notify_post env) (init_start env) (init_ticks env) self Hex) as Hends.
  destruct (result (poll_init
                      (append (server_url self) (str_of_optional (message_endpoint self)))
                      (notify_post env) (init_start env) (init_ticks env) self))
    as [[] | e |]; [reflexivity | reflexivity | contradiction].
Qed.

(** With clocks that use up the two budgets, the constructor returns. *)
Lemma init_ends url env :
  Exists (expired (wait_start env) bootstrap_timeout) (wait_ticks env) ->
  Exists (expired (init_start env) bootstrap_timeout) (init_ticks env) ->
  result (__init__ url env) = Returned tt.
Proof.
  intros Hwait Hinit. unfold __init__, _start_sse_connection. cbn zeta.
  rewrite (wait_endpoint_ends (wait_start env) (wait_ticks env) _ Hwait).
  rewrite sse_listener_pair.
  destruct (message_endpoint _); [| reflexivity].
  cbn zeta. cbn [result]. apply initialize_mcp_ends, Hinit.
Qed.

(** C10. The first call of [get_mcp_client] in a process builds the client,
    stores its address in [_mcp_client] and returns it. Every later call,
    whatever its [server_url] and whatever the environment, returns that same
    address, does nothing, and leaves the process (the client object
    included) as it was; and so in every state of the process in which
    [_mcp_client] holds an address, which nothing in the module ever resets. *)
Theorem get_mcp_client_is_idempotent :
  forall (url : string) (env : boot_env) (p : process),
    _mcp_client p = None ->
    Exists (expired (wait_start env) bootstrap_timeout) (wait_ticks env) ->
    Exists (expired (init_start env) bootstrap_timeout) (init_ticks env) ->
    let first := get_mcp_client url env p in
    let instance := List.length (heap p) in
    returned first = Returned instance
    /\ _mcp_client (process_after first) = Some instance
    /\ nth_error (heap (process_after first)) instance = Some (final (__init__ url env))
    /\ (forall (other_url : string) (other_env : boot_env),
          get_mcp_client other_url other_env (process_after first)
          = {| returned := Returned instance;
               process_after := process_after first;
               process_history := [] |})
    /\ (forall (later : process) (other_url : string) (other_env : boot_env),
          _mcp_client later = Some instance ->
          get_mcp_client other_url other_env later
          = {| returned := Returned instance;
               process_after := later;
               process_history := [] |}).
Proof.
  intros url env p Hnone Hwait Hinit first instance.
  assert (Hfirst : first = {| returned := Returned instance;
                              process_after := {| heap := heap p ++ [final (__init__ url env)];
                                                  _mcp_client := Some instance |};
                              process_history := history (__init__ url env) |}).
  { unfold first, get_mcp_client. rewrite Hnone, (init_ends url env Hwait Hinit).
    reflexivity. }
  rewrite Hfirst. cbn [returned process_after _mcp_client heap].
  split; [reflexivity |]. split; [reflexivity |].
  split.
  { unfold instance. rewrite nth_error_app2 by lia. rewrite Nat.sub_diag. reflexivity. }
  split.
  - intros other_url other_env. reflexivity.
  - intros later other_url other_env Hlater. unfold get_mcp_client. rewrite Hlater.
    reflexivity.
Qed.

(** * More of the client

    Facts about the parts of [src/mcp_client.py] around the ones above: the
    rest of the listener, the other exits of the gateway, the bootstrap. *)

(** ** More of the listener *)

Lemma posts_app (a b : list event) : posts (a ++ b) = posts a ++ posts b.
Proof. apply flat_map_app. Qed.

Lemma heard_cases item self :
  snd (sse_item item self) = [] \/ exists data, snd (sse_item item self) = [QueuePut data].
Proof.
  destruct (sse_item_queue item self) as [_ [[Hnil _] | (data_str & data & _ & _ & Hlog & _)]].
  - left. exact Hnil.
  - right. exists data. exact Hlog.
Qed.

Lemma heard_no_posts items self : posts (heard items self) = [].
Proof.
  revert self. induction items as [| item items IH]; intros self.
  - reflexivity.
  - rewrite heard_cons, posts_app, IH.
    destruct (heard_cases item self) as [-> | [data ->]]; reflexivity.
Qed.

Lemma blank_line self : sse_item (Line EmptyString) self = (self, []).
Proof. unfold sse_item. destruct (alive (sse_thread self)); reflexivity. Qed.

(** What a frame does to the queue. *)
Lemma frame_queue name payload self :
  alive (sse_thread self) = true -> str_ok name -> str_ok payload ->
  response_queue (listen (frame_lines (name, payload)) self)
  = response_queue self ++ queued_by (name, payload).
Proof.
  intros Halive Hname Hpayload. unfold frame_lines, queued_by. cbn [fst snd].
  rewrite !listen_cons, event_line by assumption. cbn [fst].
  rewrite data_line by assumption. cbn [fst]. rewrite blank_line.
  unfold listen. cbn [sse_listener fst].
  unfold dispatch, set_event. cbn [sse_thread set_thread current_event event_is].
  destruct (String.eqb_spec (strip name) "endpoint") as [Hep | _].
  - rewrite Hep. cbn. rewrite app_nil_r. reflexivity.
  - destruct (String.eqb (strip name) "message"); [| cbn; rewrite app_nil_r; reflexivity].
    destruct (json_loads payload); cbn; [reflexivity | rewrite app_nil_r; reflexivity].
Qed.

(** X1. The queue is first in, first out on the side of the listener too:
    after any run of well-formed frames the queue holds what it held,
    followed by the decoded payloads of the [message] frames in the order of
    the stream. Frames of other events and payloads that do not decode add
    nothing. *)
Theorem listener_queues_in_arrival_order :
  forall (frames : list (string * string)) (self : MCPWeatherClient),
    alive (sse_thread self) = true ->
    Forall (fun frame => str_ok (fst frame) /\ str_ok (snd frame)) frames ->
    response_queue (listen (flat_map frame_lines frames) self)
    = response_queue self ++ flat_map queued_by frames.
Proof.
  intros frames self Halive Hok. revert self Halive.
  induction Hok as [| [name payload] frames [Hn Hp] _ IH]; intros self Halive.
  - cbn. symmetry. apply app_nil_r.
  - cbn [fst snd] in Hn, Hp. cbn [flat_map]. rewrite listen_app.
    rewrite IH by apply (frame_endpoint name payload self Halive Hn Hp).
    rewrite (frame_queue name payload self Halive Hn Hp), app_assoc. reflexivity.
Qed.

Lemma listener_dead items : forall self,
  alive (sse_thread self) = false -> sse_listener items self = (self, []).
Proof.
  induction items as [| item items IH]; intros self Hdead.
  - reflexivity.
  - cbn [sse_listener]. unfold sse_item. rewrite Hdead, (IH self Hdead). reflexivity.
Qed.

(** X2. The listener does not survive a fault and nothing restarts it: after
    a fault of the stream, or a line that is not UTF-8, the thread has
    stopped, and whatever the stream delivers afterwards changes neither the
    queue nor the endpoint. *)
Theorem listener_stops_at_first_fault :
  forall (item : stream_item) (rest : list stream_item) (self : MCPWeatherClient),
    alive (sse_thread self) = true ->
    (exists e, item = Broken e) \/ (exists raw, item = Line raw /\ utf8_ok [] raw = false) ->
    sse_listener (item :: rest) self = (stop_thread self, [])
    /\ alive (sse_thread (listen (item :: rest) self)) = false
    /\ response_queue (listen (item :: rest) self) = response_queue self
    /\ message_endpoint (listen (item :: rest) self) = message_endpoint self.
Proof.
  intros item rest self Halive Hfault.
  assert (Hitem : sse_item item self = (stop_thread self, [])).
  { unfold sse_item. rewrite Halive.
    destruct Hfault as [[e ->] | (raw & -> & Hraw)]; [reflexivity |].
    unfold sse_line, decode_utf8. destruct raw as [| c raw]; [discriminate Hraw |].
    rewrite Hraw. reflexivity. }
  assert (Hall : sse_listener (item :: rest) self = (stop_thread self, [])).
  { cbn [sse_listener]. rewrite Hitem, listener_dead by reflexivity. reflexivity. }
  unfold listen. rewrite Hall. repeat split; reflexivity.
Qed.

(** X3. An event name covers the one [data: ] line that follows it. After a
    [data: ] line no event is pending, and a [data: ] line read while no
    event is pending changes neither the queue nor the endpoint. *)
Theorem event_covers_one_data_line :
  forall (payload next : string) (self : MCPWeatherClient),
    alive (sse_thread self) = true ->
    str_ok payload -> str_ok next ->
    let after := listen [Line (append "data: " payload)] self in
    current_event (sse_thread after) = None
    /\ sse_listener [Line (append "data: " next)] after = (after, [])
    /\ response_queue (listen [Line (append "data: " next)] after) = response_queue after
    /\ message_endpoint (listen [Line (append "data: " next)] after) = message_endpoint after.
Proof.
  intros payload next self Halive Hpayload Hnext after.
  assert (Hafter : after = set_event (fst (dispatch payload self)) None).
  { unfold after, listen. cbn [sse_listener].
    rewrite (data_line payload self Halive Hpayload). reflexivity. }
  assert (Halive' : alive (sse_thread after) = true).
  { rewrite Hafter. unfold dispatch, set_event.
    destruct (event_is (current_event (sse_thread self)) "endpoint"); [exact Halive |].
    destruct (event_is (current_event (sse_thread self)) "message"); [| exact Halive].
    destruct (json_loads payload); exact Halive. }
  assert (Hnone : current_event (sse_thread after) = None).
  { rewrite Hafter. reflexivity. }
  assert (Hstep : sse_listener [Line (append "data: " next)] after = (after, [])).
  { cbn [sse_listener]. rewrite (data_line next after Halive' Hnext).
    unfold dispatch. rewrite Hnone. cbn [event_is fst snd app].
    f_equal. rewrite Hafter. reflexivity. }
  split; [exact Hnone |]. split; [exact Hstep |].
  unfold listen. rewrite Hstep. split; reflexivity.
Qed.

Lemma sse_item_endpoint item self :
  message_endpoint self <> None ->
  message_endpoint (fst (sse_item item self)) <> None.
Proof.
  intros Hknown. unfold sse_item.
  destruct (alive (sse_thread self)); [| exact Hknown].
  destruct item as [raw | e]; [| exact Hknown].
  unfold sse_line. destruct raw as [| c raw]; [exact Hknown |].
  unfold decode_utf8. destruct (utf8_ok [] (String c raw)); [| exact Hknown].
  cbn [bind].
  destruct (startswith (String c raw) "event: "); [exact Hknown |].
  destruct (startswith (String c raw) "data: "); [| exact Hknown].
  unfold dispatch.
  destruct (event_is (current_event (sse_thread self)) "endpoint"); [discriminate |].
  destruct (event_is (current_event (sse_thread self)) "message"); [| exact Hknown].
  destruct (json_loads (slice_from 6 (String c raw))); exact Hknown.
Qed.

Lemma listen_keeps_endpoint items : forall self,
  message_endpoint self <> None ->
  message_endpoint (listen items self) <> None.
Proof.
  induction items as [| item items IH]; intros self Hknown.
  - exact Hknown.
  - rewrite listen_cons. apply IH, sse_item_endpoint, Hknown.
Qed.

(** X4. Once known, the endpoint stays known: whatever the stream delivers,
    the listener replaces the endpoint by another one at most, and never
    resets it to [None]. *)
Theorem endpoint_never_forgotten :
  forall (items : list stream_item) (self : MCPWeatherClient),
    message_endpoint self <> None ->
    message_endpoint (listen items self) <> None.
Proof.
  intros items self. apply listen_keeps_endpoint.
Qed.

(** ** More of the gateway *)

Lemma poll_response_no_posts request_id start ticks : forall self,
  posts (history (poll_response request_id start ticks self)) = [].
Proof.
  induction ticks as [| t later IH]; intros self.
  - reflexivity.
  - rewrite poll_response_step.
    pose proof (heard_no_posts (received t) self) as Hheard.
    destruct (Qltb (now t - start) call_timeout); [| exact Hheard].
    destruct (response_queue (listen (received t) self)) as [| m rest].
    { cbn zeta. cbn [history]. rewrite posts_app, Hheard. apply IH. }
    destruct (check_response request_id m) as [[v |] | e]; cbn zeta; cbn [history];
      rewrite posts_app, Hheard; try reflexivity.
    apply IH.
Qed.

Lemma call_tool_posts self tool_name arguments env :
  posts (history (_call_tool self tool_name arguments env))
  = match message_endpoint self with
    | None => []
    | Some path =>
        [(append (server_url self) path, tools_call (uuid4 env) tool_name arguments)]
    end.
Proof.
  unfold _call_tool. destruct (message_endpoint self) as [path |]; [| reflexivity].
  destruct (post env) as [status_code text | e]; [| reflexivity].
  destruct (refused status_code); [reflexivity |].
  cbn zeta. cbn [history posts flat_map app]. f_equal. apply poll_response_no_posts.
Qed.

(** X5. A call never retries: it posts nothing while the endpoint is
    unknown, and otherwise exactly one request in all, to the address of the
    server followed by the endpoint, whose body is the [tools/call] envelope
    carrying the tool, its arguments and the identifier the call then waits
    for. *)
Theorem call_posts_one_request :
  forall (self : MCPWeatherClient) (tool_name : string) (arguments : json)
         (env : call_env),
    (message_endpoint self = None ->
     posts (history (_call_tool self tool_name arguments env)) = [])
    /\ (forall path,
          message_endpoint self = Some path ->
          posts (history (_call_tool self tool_name arguments env))
          = [ (append (server_url self) path,
               JObj [ ("jsonrpc", JStr "2.0"); ("id", JStr (uuid4 env));
                      ("method", JStr "tools/call");
                      ("params", JObj [ ("name", JStr tool_name);
                                        ("arguments", arguments) ]) ]) ]).
Proof.
  intros self tool_name arguments env. split.
  - intros Hnone. rewrite call_tool_posts, Hnone. reflexivity.
  - intros path Hpath. rewrite call_tool_posts, Hpath. reflexivity.
Qed.

(** X6. The endpoint a frame announces is where the next call posts: after
    the listener has read the frame [endpoint] / [path], a call posts its one
    request to the address of the server followed by [path], character for
    character. *)
Theorem announced_endpoint_is_post_target :
  forall (name path : string) (self : MCPWeatherClient) (tool_name : string)
         (arguments : json) (env : call_env),
    alive (sse_thread self) = true ->
    str_ok name -> str_ok path ->
    strip name = "endpoint" ->
    posts (history (_call_tool (listen (frame_lines (name, path)) self)
                               tool_name arguments env))
    = [(append (server_url self) path, tools_call (uuid4 env) tool_name arguments)].
Proof.
  intros name path self tool_name arguments env Halive Hname Hpath Hevent.
  destruct (frame_endpoint name path self Halive Hname Hpath) as [_ Hep].
  rewrite Hevent in Hep. cbn in Hep.
  destruct (listen_queue (frame_lines (name, path)) self) as (_ & _ & Hurl).
  rewrite call_tool_posts, Hep, Hurl. reflexivity.
Qed.

Lemma check_error_response request_id members err :
  dict_get members "id" = Some (JStr request_id) ->
  dict_get members "error" = Some err ->
  check_response request_id (JObj members)
  = match err with
    | JObj error =>
        Ok (Some (failure (dict_get_default error "message" (JStr "未知错误"))))
    | _ => Raise (AttributeError err "get")
    end.
Proof.
  intros Hid Herr. unfold check_response, unwrap_response, py_get, py_contains, py_getitem.
  rewrite Hid. cbn [bind py_eq_str]. rewrite String.eqb_refl, Herr. cbn [bind].
  destruct err; try reflexivity.
  unfold dict_get_default. destruct (dict_get members0 "message"); reflexivity.
Qed.

(** X7. A response to the call that has an [error] member ends the call with
    a failure, whether or not it carries a result as well. When the error is
    an object the call returns [{"success": False, "error": m}] where [m] is
    the [message] of the error, or ["未知错误"] when it has none. When the
    error is anything else (a string, say) [.get] raises on it and the call
    returns the failure of the last [except] clause. *)
Theorem error_response_fails_call :
  forall (self : MCPWeatherClient) (tool_name : string) (arguments : json)
         (env : call_env) (members : list (string * json)) (err : json),
    In (QueueGet (JObj members)) (history (_call_tool self tool_name arguments env)) ->
    dict_get members "id" = Some (JStr (uuid4 env)) ->
    dict_get members "error" = Some err ->
    (forall error, err = JObj error ->
       result (_call_tool self tool_name arguments env)
       = Returned (JObj [ ("success", JBool false);
                          ("error", dict_get_default error "message" (JStr "未知错误")) ]))
    /\ (is_object err = false ->
        result (_call_tool self tool_name arguments env)
        = Returned (JObj [ ("success", JBool false);
                           ("error", JStr (append "MCP调用失败: "
                                             (str_exn (AttributeError err "get")))) ])).
Proof.
  intros self tool_name arguments env members err Hin Hid Herr.
  destruct (call_tool_dequeued self tool_name arguments env (JObj members) Hin)
    as [Hpoll Hres].
  apply poll_response_decided in Hpoll.
  rewrite (check_error_response (uuid4 env) members err Hid Herr) in Hpoll.
  split.
  - intros error ->. rewrite Hres, Hpoll. reflexivity.
  - intros Hnot. rewrite Hres.
    destruct err; try discriminate Hnot; rewrite Hpoll; reflexivity.
Qed.

(** X8. A response to the call whose text item does not decode as JSON does
    not raise out of the call and is not reported as unparseable either:
    [json.loads] raises, the last [except] clause catches it, and the call
    returns [{"success": False, "error": "MCP调用失败: ..."}]. *)
Theorem undecodable_text_fails_call :
  forall (self : MCPWeatherClient) (tool_name : string) (arguments : json)
         (env : call_env) (m : json) (text : string),
    In (QueueGet m) (history (_call_tool self tool_name arguments env)) ->
    tool_response (uuid4 env) text m ->
    json_loads text = None ->
    result (_call_tool self tool_name arguments env)
    = Returned (JObj [ ("success", JBool false);
                       ("error", JStr (append "MCP调用失败: "
                                         (str_exn (JSONDecodeError text)))) ]).
Proof.
  intros self tool_name arguments env m text Hin Hm Hload.
  destruct (call_tool_dequeued self tool_name arguments env m Hin) as [Hpoll ->].
  apply poll_response_decided in Hpoll.
  assert (Hcheck : check_response (uuid4 env) m = Raise (JSONDecodeError text)).
  { destruct Hm as (members & result & item & others & -> & Hid & Herr & Hres
                    & Hcontent & Htype & Htext).
    unfold check_response, unwrap_response, py_contains, py_getitem, py_get, py_len,
      py_getitem_0, py_json_loads.
    rewrite Hid. cbn [bind py_eq_str]. rewrite String.eqb_refl, Herr. cbn [bind].
    rewrite Hres. cbn [bind]. rewrite Hcontent. cbn [bind].
    replace (0 <? Z.of_nat (List.length (JObj item :: others)))%Z with true
      by (symmetry; apply Z.ltb_lt; simpl List.length; lia).
    rewrite Htype. cbn [bind py_eq_str]. rewrite String.eqb_refl, Htext. cbn [bind].
    rewrite Hload. reflexivity. }
  rewrite Hcheck in Hpoll. rewrite Hpoll. reflexivity.
Qed.


Lemma unwrap_cases m v :
  unwrap_response m = Ok v ->
  (exists message, v = failure message) \/ (exists text, json_loads text = Some v).
Proof.
  unfold unwrap_response.
  destruct (py_contains "error" m) as [has_error | e]; cbn [bind]; [| discriminate].
  destruct has_error.
  { destruct (py_getitem m "error") as [error | e]; cbn [bind]; [| discriminate].
    destruct (py_get error "message" (JStr "未知错误")) as [message | e]; cbn [bind];
      [| discriminate].
    intros [= <-]. left. eexists. reflexivity. }
  destruct (py_get m "result" (JObj [])) as [result | e]; cbn [bind]; [| discriminate].
  destruct (py_contains "content" result) as [has_content | e]; cbn [bind];
    [| discriminate].
  destruct has_content; [| intros [= <-]; left; eexists; reflexivity].
  destruct (py_getitem result "content") as [content | e]; cbn [bind]; [| discriminate].
  destruct (py_len content) as [n | e]; cbn [bind]; [| discriminate].
  destruct (0 <? n)%Z; [| intros [= <-]; left; eexists; reflexivity].
  destruct (py_getitem_0 content) as [content_item | e]; cbn [bind]; [| discriminate].
  destruct (py_get content_item "type" JNull) as [type | e]; cbn [bind]; [| discriminate].
  destruct (py_eq_str type "text"); [| intros [= <-]; left; eexists; reflexivity].
  destruct (py_get content_item "text" (JStr "{}")) as [text | e]; cbn [bind];
    [| discriminate].
  unfold py_json_loads. destruct text; try discriminate.
  destruct (json_loads s) as [data |] eqn:Hload; [| discriminate].
  intros [= <-]. right. exists s. exact Hload.
Qed.

Lemma check_matched request_id m v :
  check_response request_id m = Ok (Some v) ->
  has_id request_id m = true /\ unwrap_response m = Ok v.
Proof.
  unfold check_response, has_id, py_get.
  destruct m as [| b | n | bits | s | items | members]; try discriminate.
  destruct (dict_get members "id") as [id |]; cbn [bind].
  - destruct (py_eq_str id request_id); [| discriminate].
    destruct (unwrap_response (JObj members)); cbn [bind]; [| discriminate].
    intros [= <-]. auto.
  - replace (py_eq_str JNull request_id) with false by reflexivity. discriminate.
Qed.

(** X10. A call always comes back with a value. It never raises, and once
    the clock of some look has used up the 30 units it has returned, whatever
    the stream delivered and whatever the POST did. *)
Theorem call_always_returns :
  forall (self : MCPWeatherClient) (tool_name : string) (arguments : json)
         (env : call_env),
    (forall e, result (_call_tool self tool_name arguments env) <> Raised e)
    /\ (Exists (expired (start_time env) call_timeout) (ticks env) ->
        exists v, result (_call_tool self tool_name arguments env) = Returned v).
Proof.
  intros self tool_name arguments env. split.
  - intros e. apply call_tool_never_raises.
  - intros Hex. unfold _call_tool.
    destruct (message_endpoint self); [| eexists; reflexivity].
    destruct (post env); [| eexists; reflexivity].
    destruct (refused status_code); [eexists; reflexivity |].
    cbn zeta. cbn [result].
    pose proof (poll_response_ends (uuid4 env) (start_time env) (ticks env) self Hex)
      as Hends.
    destruct (result (poll_response (uuid4 env) (start_time env) (ticks env) self));
      [eexists; reflexivity | eexists; reflexivity | contradiction].
Qed.

(** X11. What a call returns is either a failure mapping
    [{"success": False, "error": ...}] made by the client, or the decoding of
    a text that came in a dequeued response carrying the identifier of the
    call. Nothing else ever comes out of the gateway. *)
Theorem call_returns_failure_or_payload :
  forall (self : MCPWeatherClient) (tool_name : string) (arguments : json)
         (env : call_env) (v : json),
    result (_call_tool self tool_name arguments env) = Returned v ->
    (exists message, v = JObj [("success", JBool false); ("error", message)])
    \/ (exists m text,
          In (QueueGet m) (history (_call_tool self tool_name arguments env))
          /\ has_id (uuid4 env) m = true
          /\ json_loads text = Some v).
Proof.
  intros self tool_name arguments env v. unfold _call_tool.
  destruct (message_endpoint self) as [path |].
  2:{ intros [= <-]. left. eexists. reflexivity. }
  destruct (post env) as [status_code text | e].
  2:{ intros [= <-]. left. destruct e; eexists; reflexivity. }
  destruct (refused status_code) eqn:Hrefused.
  { intros [= <-]. left. eexists. reflexivity. }
  cbn zeta. cbn [result history].
  destruct (poll_response_gets (uuid4 env) (start_time env) (ticks env) self)
    as [[_ [Hw | Hto]] | (skipped & m & Hgets & _ & Hend)].
  - rewrite Hw. discriminate.
  - rewrite Hto. intros [= <-]. left. eexists. reflexivity.
  - destruct (check_response (uuid4 env) m) as [[v' |] | e] eqn:Hcheck;
      [| contradiction |].
    + rewrite Hend. intros [= <-].
      destruct (check_matched (uuid4 env) m v' Hcheck) as [Hid Hunwrap].
      destruct (unwrap_cases m v' Hunwrap) as [[message ->] | [text' Hload]].
      * left. eexists. reflexivity.
      * right. exists m, text'. split; [| auto].
        right. apply in_gets. rewrite Hgets. apply in_or_app. right. simpl. auto.
    + rewrite Hend. intros [= <-]. left. destruct e; eexists; reflexivity.
Qed.

(** X12. A call does not wait past its budget: from the first look whose
    clock has used up the 30 units on, nothing the environment does changes
    the call. Its result, its history and the client it leaves are those of
    the same call cut after that look. *)
Theorem call_ignores_what_follows_expiry :
  forall (self : MCPWeatherClient) (tool_name : string) (arguments : json)
         (env : call_env) (before : list tick) (t : tick) (later : list tick),
    ticks env = before ++ t :: later ->
    expired (start_time env) call_timeout t ->
    _call_tool self tool_name arguments env
    = _call_tool self tool_name arguments (with_ticks env (before ++ [t])).
Proof.
  intros self tool_name arguments env before t later Hticks Ht.
  unfold _call_tool, with_ticks. cbn [uuid4 post start_time ticks].
  rewrite Hticks,
    (poll_response_stops_at_expiry (uuid4 env) (start_time env) before t later self Ht).
  reflexivity.
Qed.

(** ** More of the bootstrap *)

Lemma wait_endpoint_facts start ticks : forall self,
  server_url (final (wait_endpoint start ticks self)) = server_url self
  /\ posts (history (wait_endpoint start ticks self)) = []
  /\ gets (history (wait_endpoint start ticks self)) = []
  /\ response_queue (final (wait_endpoint start ticks self))
     = response_queue self ++ puts (history (wait_endpoint start ticks self))
  /\ (forall e, result (wait_endpoint start ticks self) <> Raised e).
Proof.
  induction ticks as [| t later IH]; intros self.
  - cbn. rewrite app_nil_r. repeat split; discriminate.
  - cbn [wait_endpoint]. rewrite sse_listener_pair.
    destruct (listen_queue (received t) self) as (Hq & Hg & Hu).
    pose proof (heard_no_posts (received t) self) as Hp.
    destruct (message_endpoint (listen (received t) self)).
    { cbn [final history result]. repeat split; try assumption; discriminate. }
    destruct (Qltb (now t - start) bootstrap_timeout).
    2:{ cbn [final history result]. repeat split; try assumption; discriminate. }
    cbn zeta. cbn [final history result].
    destruct (IH (listen (received t) self)) as (Hu' & Hp' & Hg' & Hq' & Hr').
    rewrite posts_app, gets_app, puts_app, Hp, Hg.
    cbn [posts gets puts flat_map app]. rewrite Hu', Hq', Hq, <- app_assoc.
    repeat split; assumption.
Qed.

Lemma poll_init_facts endpoint notify start ticks : forall self,
  server_url (final (poll_init endpoint notify start ticks self)) = server_url self
  /\ (message_endpoint self <> None ->
      message_endpoint (final (poll_init endpoint notify start ticks self)) <> None)
  /\ response_queue self ++ puts (history (poll_init endpoint notify start ticks self))
     = gets (history (poll_init endpoint notify start ticks self))
       ++ response_queue (final (poll_init endpoint notify start ticks self))
  /\ (posts (history (poll_init endpoint notify start ticks self)) = []
      \/ (posts (history (poll_init endpoint notify start ticks self))
          = [(endpoint, initialized_notification)]
          /\ exists m id,
               In (QueueGet m) (history (poll_init endpoint notify start ticks self))
               /\ py_get m "id" JNull = Ok id /\ py_eq_one id = true)).
Proof.
  induction ticks as [| t later IH]; intros self.
  - cbn. rewrite app_nil_r. auto.
  - cbn [poll_init]. rewrite sse_listener_pair.
    destruct (listen_queue (received t) self) as (Hq & Hg & Hu).
    pose proof (heard_no_posts (received t) self) as Hp.
    pose proof (listen_keeps_endpoint (received t) self) as Hep.
    destruct (Qltb (now t - start) bootstrap_timeout).
    2:{ cbn [final history]. rewrite Hp, Hg, Hq. auto. }
    destruct (response_queue (listen (received t) self)) as [| m rest] eqn:Hqueue.
    { cbn zeta. cbn [final history].
      destruct (IH (listen (received t) self)) as (Hu' & Hep' & Hq' & Hposts).
      rewrite posts_app, gets_app, puts_app, Hp, Hg.
      cbn [posts gets puts flat_map app]. rewrite Hu', Hu.
      split; [reflexivity |]. split; [auto |].
      split. { rewrite app_assoc, <- Hq. rewrite Hqueue in Hq'. exact Hq'. }
      destruct Hposts as [Hnone | (Hone & m & id & Hin & Hid & Hone')]; [left; exact Hnone |].
      right. split; [exact Hone |]. exists m, id. split; [| auto].
      apply in_or_app. right. right. right. exact Hin. }
    assert (Hall : forall tail_puts,
               response_queue self ++ puts (heard (received t) self) ++ tail_puts
               = m :: rest ++ tail_puts).
    { intros tail_puts. rewrite app_assoc, <- Hq. reflexivity. }
    destruct (py_get m "id" JNull) as [id | e] eqn:Hid.
    2:{ cbn [final history]. rewrite posts_app, gets_app, puts_app, Hp, Hg.
        cbn [posts gets puts flat_map app set_queue server_url message_endpoint
               response_queue].
        rewrite Hall, app_nil_r. auto. }
    destruct (py_eq_one id) eqn:Hone.
    + cbn [final history]. rewrite posts_app, gets_app, puts_app, Hp, Hg.
      cbn [posts gets puts flat_map app set_queue server_url message_endpoint
             response_queue].
      rewrite Hall, app_nil_r.
      split; [exact Hu |]. split; [exact Hep |]. split; [reflexivity |].
      right. split; [reflexivity |]. exists m, id. split; [| auto].
      apply in_or_app. right. right. left. reflexivity.
    + cbn zeta. cbn [final history].
      destruct (IH (set_queue (listen (received t) self) rest))
        as (Hu' & Hep' & Hq' & Hposts).
      rewrite posts_app, gets_app, puts_app, Hp, Hg.
      cbn [posts gets puts flat_map app]. rewrite Hu'. cbn [set_queue server_url].
      split; [exact Hu |]. split; [intros Hknown; apply Hep', Hep, Hknown |].
      split. { rewrite Hall. f_equal. exact Hq'. }
      destruct Hposts as [Hnone | (Hposted & m' & id' & Hin & Hid' & Hone')];
        [left; exact Hnone |].
      right. split; [exact Hposted |]. exists m', id'. split; [| auto].
      apply in_or_app. right. right. right. right. exact Hin.
Qed.

Lemma initialize_mcp_facts self env :
  server_url (final (_initialize_mcp self env)) = server_url self
  /\ (message_endpoint self <> None ->
      message_endpoint (final (_initialize_mcp self env)) <> None)
  /\ (forall e, result (_initialize_mcp self env) <> Raised e)
  /\ response_queue self ++ puts (history (_initialize_mcp self env))
     = gets (history (_initialize_mcp self env))
       ++ response_queue (final (_initialize_mcp self env))
  /\ let endpoint := append (server_url self) (str_of_optional (message_endpoint self)) in
     posts (history (_initialize_mcp self env)) = [(endpoint, init_request)]
     \/ (posts (history (_initialize_mcp self env))
         = [(endpoint, init_request); (endpoint, initialized_notification)]
         /\ exists m id,
              In (QueueGet m) (history (_initialize_mcp self env))
              /\ py_get m "id" JNull = Ok id /\ py_eq_one id = true).
Proof.
  unfold _initialize_mcp.
  destruct (init_post env) as [status_code text | e].
  2:{ cbn. rewrite app_nil_r. repeat split; auto; discriminate. }
  destruct ((status_code =? 200)%Z || (status_code =? 202)%Z).
  2:{ cbn. rewrite app_nil_r. repeat split; auto; discriminate. }
  cbn zeta. cbn [final history result swallow].
  destruct (poll_init_facts
              (append (server_url self) (str_of_optional (message_endpoint self)))
              (notify_post env) (init_start env) (init_ticks env) self)
    as (Hu & Hep & Hq & Hposts).
  split; [exact Hu |]. split; [exact Hep |].
  split.
  { intros e.
    destruct (result (poll_init
                        (append (server_url self) (str_of_optional (message_endpoint self)))
                        (notify_post env) (init_start env) (init_ticks env) self));
      discriminate. }
  split; [exact Hq |].
  cbn [posts flat_map app].
  destruct Hposts as [Hnone | (Hone & m & id & Hin & Hid & Heq)].
  - left. unfold posts in Hnone. rewrite Hnone. reflexivity.
  - right. unfold posts in Hone. rewrite Hone. split; [reflexivity |].
    exists m, id. split; [right; exact Hin | auto].
Qed.

(** X13. Building the client never raises, whatever the network does: a
    stream that cannot be opened, a POST that fails, an entry of the queue
    that is not an object are all swallowed. So [get_mcp_client] never raises
    either. *)
Theorem bootstrap_never_raises :
  forall (url : string) (env : boot_env) (p : process) (e : pyexn),
    result (__init__ url env) <> Raised e
    /\ returned (get_mcp_client url env p) <> Raised e.
Proof.
  intros url env p e.
  assert (Hinit : forall e', result (__init__ url env) <> Raised e').
  { intros e'. unfold __init__, _start_sse_connection. cbn zeta.
    match goal with
    | |- context [wait_endpoint ?s ?ts ?c] =>
        destruct (wait_endpoint_facts s ts c) as (_ & _ & _ & _ & Hw);
        destruct (result (wait_endpoint s ts c)) as [[] | e0 |] eqn:Hres
    end.
    - rewrite sse_listener_pair.
      match goal with
      | |- context [message_endpoint ?c] => destruct (message_endpoint c)
      end; [| discriminate].
      cbn zeta. cbn [result]. apply initialize_mcp_facts.
    - exfalso. apply (Hw e0). reflexivity.
    - rewrite Hres. discriminate. }
  split; [apply Hinit |].
  unfold get_mcp_client. destruct (_mcp_client p); [discriminate |].
  destruct (result (__init__ url env)) as [[] | e0 |]; try discriminate.
  exfalso. apply (Hinit e0). reflexivity.
Qed.

(** X14. A bootstrap that ends without an endpoint has sent nothing: the
    [initialize] request is posted only once the endpoint is known, and the
    queue has not been touched. A call made on that client, as long as the
    endpoint is still unknown, posts nothing either and answers
    [{"success": False, "error": "MCP 连接未建立"}]. *)
Theorem bootstrap_without_endpoint_sends_nothing :
  forall (url : string) (env : boot_env) (tool_name : string) (arguments : json)
         (call : call_env),
    message_endpoint (final (__init__ url env)) = None ->
    posts (history (__init__ url env)) = []
    /\ gets (history (__init__ url env)) = []
    /\ _call_tool (final (__init__ url env)) tool_name arguments call
       = {| result := Returned (JObj [ ("success", JBool false);
                                       ("error", JStr "MCP 连接未建立") ]);
            final := final (__init__ url env);
            history := [] |}.
Proof.
  intros url env tool_name arguments call Hnone.
  split; [| split].
  3:{ unfold _call_tool. rewrite Hnone. reflexivity. }
  all: revert Hnone; unfold __init__, _start_sse_connection; cbn zeta;
    match goal with
    | |- context [wait_endpoint ?s ?ts ?c] =>
        destruct (wait_endpoint_facts s ts c) as (_ & Hp & Hg & _ & _);
        destruct (result (wait_endpoint s ts c)) as [[] | e0 |]; try (intros _; assumption)
    end;
    rewrite sse_listener_pair;
    match goal with
    | |- context [message_endpoint (listen ?items ?c)] =>
        pose proof (heard_no_posts items c) as Hp';
        destruct (listen_queue items c) as (_ & Hg' & _);
        destruct (message_endpoint (listen items c)) as [path |] eqn:Hep
    end;
    try (intros _; cbn [history]; rewrite ?posts_app, ?gets_app, ?Hp, ?Hg, ?Hp', ?Hg';
         reflexivity);
    cbn zeta; cbn [final]; intros Hnone; exfalso;
    match goal with
    | H : message_endpoint (final (_initialize_mcp ?c ?en)) = None |- _ =>
        destruct (initialize_mcp_facts c en) as (_ & Hkeep & _);
        apply Hkeep; [rewrite Hep; discriminate | exact H]
    end.
Qed.

(** X15. The handshake keeps its order. Whatever happens, the requests the
    constructor posts are none, or [initialize] alone, or [initialize]
    followed by the [notifications/initialized] notification; both go to the
    address of the server, trailing slashes removed, followed by the endpoint;
    and the notification is posted only after the loop has dequeued an entry
    whose [id] equals 1. *)
Theorem handshake_order :
  forall (url : string) (env : boot_env),
    posts (history (__init__ url env)) = []
    \/ exists path,
         let endpoint := append (rstrip_slash url) path in
         posts (history (__init__ url env)) = [(endpoint, init_request)]
         \/ (posts (history (__init__ url env))
             = [(endpoint, init_request); (endpoint, initialized_notification)]
             /\ exists m id,
                  In (QueueGet m) (history (__init__ url env))
                  /\ py_get m "id" JNull = Ok id /\ py_eq_one id = true).
Proof.
  intros url env. unfold __init__, _start_sse_connection. cbn zeta.
  match goal with
  | |- context [wait_endpoint ?s ?ts ?c] =>
      destruct (wait_endpoint_facts s ts c) as (Hu & Hp & _ & _ & _);
      destruct (result (wait_endpoint s ts c)) as [[] | e0 |]; try (left; exact Hp)
  end.
  rewrite sse_listener_pair.
  match goal with
  | |- context [message_endpoint (listen ?items ?c)] =>
      pose proof (heard_no_posts items c) as Hp';
      destruct (listen_queue items c) as (_ & _ & Hu');
      destruct (message_endpoint (listen items c)) as [path |] eqn:Hep
  end.
  2:{ left. cbn [history]. rewrite posts_app, Hp, Hp'. reflexivity. }
  right. exists path. cbn zeta. cbn [history].
  rewrite !posts_app, Hp, Hp'. cbn [app].
  match goal with
  | |- context [_initialize_mcp ?c ?en] =>
      destruct (initialize_mcp_facts c en) as (_ & _ & _ & _ & Hposts)
  end.
  cbn zeta in Hposts. rewrite Hep, Hu', Hu in Hposts. cbn in Hposts.
  destruct Hposts as [Hone | (Htwo & m & id & Hin & Hid & Heq)].
  - left. exact Hone.
  - right. split; [exact Htwo |]. exists m, id. split; [| auto].
    apply in_or_app. right. apply in_or_app. right. exact Hin.
Qed.

(** X16. The bootstrap only takes from the queue and never puts back: what
    the listener enqueued while the client was built is what the handshake
    dequeued followed by what the queue holds when the constructor returns.
    An entry that comes before the response to [initialize] is dequeued and
    lost to later calls. *)
Theorem bootstrap_conserves_queue :
  forall (url : string) (env : boot_env),
    puts (history (__init__ url env))
    = gets (history (__init__ url env)) ++ response_queue (final (__init__ url env)).
Proof.
  intros url env. unfold __init__, _start_sse_connection. cbn zeta.
  match goal with
  | |- context [wait_endpoint ?s ?ts ?c] =>
      destruct (wait_endpoint_facts s ts c) as (_ & _ & Hg & Hq & _);
      cbn [response_queue set_thread app] in Hq;
      destruct (result (wait_endpoint s ts c)) as [[] | e0 |];
        try (rewrite Hg, Hq; reflexivity)
  end.
  rewrite sse_listener_pair.
  match goal with
  | |- context [message_endpoint (listen ?items ?c)] =>
      destruct (listen_queue items c) as (Hq' & Hg' & _);
      destruct (message_endpoint (listen items c)) as [path |]
  end.
  2:{ cbn [history final]. rewrite puts_app, gets_app, Hg, Hg', Hq', Hq. reflexivity. }
  cbn zeta. cbn [history final].
  match goal with
  | |- context [_initialize_mcp ?c ?en] =>
      destruct (initialize_mcp_facts c en) as (_ & _ & _ & Hcons & _)
  end.
  rewrite !puts_app, !gets_app, Hg, Hg'. cbn [app].
  rewrite <- Hcons, Hq', Hq, app_assoc. reflexivity.
Qed.

(** ** The address of the server *)

Lemma append_empty_r (s : string) : append s EmptyString = s.
Proof. induction s as [| c s IH]; [reflexivity | simpl; rewrite IH; reflexivity]. Qed.

Lemma append_assoc3 (a b c : string) : append (append a b) c = append a (append b c).
Proof. induction a as [| x a IH]; [reflexivity | simpl; rewrite IH; reflexivity]. Qed.

Lemma string_rev_onto_spec (s acc : string) :
  string_rev_onto s acc = append (string_rev s) acc.
Proof.
  unfold string_rev. revert acc.
  induction s as [| c s IH]; intros acc; [reflexivity |].
  cbn [string_rev_onto]. rewrite (IH (String c acc)), (IH (String c EmptyString)).
  rewrite append_assoc3. reflexivity.
Qed.

Lemma string_rev_cons (c : ascii) (s : string) :
  string_rev (String c s) = append (string_rev s) (String c EmptyString).
Proof. unfold string_rev at 1. cbn [string_rev_onto]. apply string_rev_onto_spec. Qed.

Lemma string_rev_append (a b : string) :
  string_rev (append a b) = append (string_rev b) (string_rev a).
Proof.
  induction a as [| c a IH].
  - cbn. rewrite append_empty_r. reflexivity.
  - cbn [append]. rewrite !string_rev_cons, IH, append_assoc3. reflexivity.
Qed.

Lemma string_rev_involutive (s : string) : string_rev (string_rev s) = s.
Proof.
  induction s as [| c s IH]; [reflexivity |].
  rewrite string_rev_cons, string_rev_append, IH. reflexivity.
Qed.

Lemma slashes_rev (n : nat) : string_rev (slashes n) = slashes n.
Proof.
  induction n as [| n IH]; [reflexivity |].
  cbn [slashes]. rewrite string_rev_cons, IH. clear IH.
  induction n as [| n IH]; [reflexivity | cbn [slashes append]; rewrite IH; reflexivity].
Qed.

Lemma last_char_snoc (s : string) (c : ascii) :
  last_char (append s (String c EmptyString)) = Some c.
Proof.
  induction s as [| x s IH]; [reflexivity |].
  cbn [append last_char]. rewrite IH.
  destruct (append s (String c EmptyString)) eqn:E; [| reflexivity].
  destruct s; discriminate E.
Qed.

(** Stripping [/] from the left takes away a run of [/] and stops at the
    first other character. *)
Lemma lstrip_slash_spec : forall (fuel : nat) (s : string),
  (String.length s <= fuel)%nat ->
  exists n, s = append (slashes n) (lstrip_fuel fuel ["/"] s)
            /\ forall rest, lstrip_fuel fuel ["/"] s <> String "/" rest.
Proof.
  induction fuel as [| fuel IH]; intros s Hlen.
  - destruct s; [| simpl in Hlen; lia]. exists O. split; [reflexivity | discriminate].
  - destruct s as [| c s].
    + exists O. split; [reflexivity | discriminate].
    + cbn [lstrip_fuel drop_any drop_prefix].
      destruct (Ascii.eqb_spec "/" c) as [<- | Hne].
      * destruct (IH s) as (n & Heq & Hstop); [simpl in Hlen; lia |].
        exists (S n). split; [cbn [slashes append]; rewrite <- Heq; reflexivity | exact Hstop].
      * exists O. split; [reflexivity |]. intros rest [= Hc _]. apply Hne. symmetry. exact Hc.
Qed.

Lemma rstrip_slash_spec (s : string) :
  (exists n, s = append (rstrip_slash s) (slashes n))
  /\ last_char (rstrip_slash s) <> Some "/"%char.
Proof.
  unfold rstrip_slash, rstrip_of, lstrip_of.
  replace (map string_rev ["/"]) with ["/"] by reflexivity.
  destruct (lstrip_slash_spec (String.length (string_rev s)) (string_rev s) (le_n _))
    as (n & Heq & Hstop).
  split.
  - exists n. rewrite <- (string_rev_involutive s) at 1.
    rewrite Heq at 1. rewrite string_rev_append, slashes_rev. reflexivity.
  - destruct (lstrip_fuel (String.length (string_rev s)) ["/"] (string_rev s))
      as [| c rest]; [discriminate |].
    rewrite string_rev_cons, last_char_snoc. intros [= ->]. apply (Hstop rest). reflexivity.
Qed.

(** X17. The client keeps the address of the server without its trailing
    slashes: the address the constructor stores is the one it was given
    minus a run of [/] at its end, it does not end with [/], and neither the
    bootstrap nor the listener ever changes it. *)
Theorem server_url_has_no_trailing_slash :
  forall (url : string) (env : boot_env) (items : list stream_item),
    server_url (final (__init__ url env)) = rstrip_slash url
    /\ server_url (listen items (final (__init__ url env))) = rstrip_slash url
    /\ (exists n, url = append (rstrip_slash url) (slashes n))
    /\ last_char (rstrip_slash url) <> Some "/"%char.
Proof.
  intros url env items.
  assert (Hbuilt : server_url (final (__init__ url env)) = rstrip_slash url).
  { unfold __init__, _start_sse_connection. cbn zeta.
    match goal with
    | |- context [wait_endpoint ?s ?ts ?c] =>
        destruct (wait_endpoint_facts s ts c) as (Hu & _);
        destruct (result (wait_endpoint s ts c)) as [[] | e0 |]; try exact Hu
    end.
    rewrite sse_listener_pair.
    match goal with
    | |- context [message_endpoint (listen ?its ?c)] =>
        destruct (listen_queue its c) as (_ & _ & Hu');
        destruct (message_endpoint (listen its c)) as [path |]
    end.
    - cbn zeta. cbn [final].
      match goal with
      | |- context [_initialize_mcp ?c ?en] =>
          destruct (initialize_mcp_facts c en) as (Hu'' & _)
      end.
      rewrite Hu'', Hu', Hu. reflexivity.
    - cbn [final]. rewrite Hu', Hu. reflexivity. }
  split; [exact Hbuilt |].
  split. { destruct (listen_queue items (final (__init__ url env))) as (_ & _ & ->).
           exact Hbuilt. }
  apply rstrip_slash_spec.
Qed.


(** * The caller ([src/app.py], [query_weather]) *)

(** ** Dicts and indices *)

Lemma dict_get_set members key v key' :
  dict_get (dict_set members key v) key'
  = if String.eqb key key' then Some v else dict_get members key'.
Proof.
  induction members as [| [k w] rest IH]; cbn [dict_set dict_get].
  - reflexivity.
  - destruct (String.eqb k key) eqn:Hk; cbn [dict_get].
    + apply String.eqb_eq in Hk. subst k. destruct (String.eqb key key'); reflexivity.
    + rewrite IH. destruct (String.eqb k key') eqn:Hk'; [| reflexivity].
      apply String.eqb_eq in Hk'. subst k. rewrite String.eqb_sym, Hk. reflexivity.
Qed.

Lemma py_get_object members key default :
  py_get (JObj members) key default = Ok (dict_get_default members key default).
Proof.
  unfold py_get, dict_get_default. destruct (dict_get members key); reflexivity.
Qed.

Lemma list_index_at {A : Type} (xs : list A) (i : Z) (d : A) :
  (- Z.of_nat (List.length xs) <= i < Z.of_nat (List.length xs))%Z ->
  list_index xs i = Ok (nth (position (Z.of_nat (List.length xs)) i) xs d).
Proof.
  intros Hi. unfold list_index, wrap_index, position.
  destruct (i <? 0)%Z eqn:Hneg.
  - apply Z.ltb_lt in Hneg.
    replace (0 <=? i)%Z with false by (symmetry; apply Z.leb_gt; lia).
    replace (- Z.of_nat (List.length xs) <=? i)%Z with true
      by (symmetry; apply Z.leb_le; lia).
    cbn [andb].
    rewrite (nth_error_nth' xs d) by lia. reflexivity.
  - apply Z.ltb_ge in Hneg.
    replace (0 <=? i)%Z with true by (symmetry; apply Z.leb_le; lia).
    replace (i <? Z.of_nat (List.length xs))%Z with true
      by (symmetry; apply Z.ltb_lt; lia).
    cbn [andb].
    rewrite (nth_error_nth' xs d) by lia. reflexivity.
Qed.

Lemma list_index_below {A : Type} (xs : list A) (i : Z) :
  (i < - Z.of_nat (List.length xs))%Z ->
  list_index xs i = Raise IndexError.
Proof.
  intros Hi. unfold list_index, wrap_index.
  replace (0 <=? i)%Z with false by (symmetry; apply Z.leb_gt; lia).
  replace (- Z.of_nat (List.length xs) <=? i)%Z with false
    by (symmetry; apply Z.leb_gt; lia).
  reflexivity.
Qed.

Lemma parse_indices_reads pieces : forall indices,
  reads_as pieces indices -> parse_indices pieces = Some indices.
Proof.
  induction pieces as [| piece pieces IH]; intros indices Hreads;
    inversion Hreads as [| ? i ? rest Hpiece Hrest]; subst.
  - reflexivity.
  - cbn [parse_indices]. rewrite Hpiece, (IH rest Hrest). reflexivity.
Qed.

Lemma parse_indices_fails pieces piece :
  In piece pieces -> py_int (strip piece) = None -> parse_indices pieces = None.
Proof.
  induction pieces as [| first pieces IH]; intros Hin Hnone; [contradiction |].
  cbn [parse_indices]. destruct Hin as [-> | Hin].
  - rewrite Hnone. reflexivity.
  - destruct (py_int (strip first)); [| reflexivity].
    rewrite (IH Hin Hnone). reflexivity.
Qed.

Lemma select_picked items indices :
  Forall (fun i => (- Z.of_nat (List.length items) <= i)%Z) indices ->
  select_forecasts (JArr items) indices = Ok (picked items indices).
Proof.
  induction indices as [| i indices IH]; intros Hall; [reflexivity |].
  inversion Hall as [| ? ? Hi Hrest]; subst.
  cbn [select_forecasts py_len bind picked flat_map].
  destruct (i <? Z.of_nat (List.length items))%Z eqn:Hlt.
  - apply Z.ltb_lt in Hlt. cbn [py_index].
    rewrite (list_index_at items i JNull) by lia.
    cbn [bind]. rewrite (IH Hrest). reflexivity.
  - rewrite (IH Hrest). reflexivity.
Qed.

Lemma select_raises items indices i :
  In i indices -> (i < - Z.of_nat (List.length items))%Z ->
  exists e, select_forecasts (JArr items) indices = Raise e.
Proof.
  intros Hin Hi. induction indices as [| j indices IH]; [contradiction |].
  cbn [select_forecasts py_len bind].
  destruct Hin as [-> | Hin].
  - replace (i <? Z.of_nat (List.length items))%Z with true
      by (symmetry; apply Z.ltb_lt; lia).
    cbn [py_index]. rewrite (list_index_below items i Hi). eexists. reflexivity.
  - destruct (IH Hin) as (e & He). rewrite He.
    destruct (j <? Z.of_nat (List.length items))%Z; [| eexists; reflexivity].
    destruct (py_index (JArr items) j); eexists; reflexivity.
Qed.

Lemma picked_from_start items indices :
  Forall (fun i => (0 <= i)%Z) indices ->
  picked items indices
  = flat_map (fun i => match nth_error items (Z.to_nat i) with
                       | Some x => [x]
                       | None => []
                       end) indices.
Proof.
  induction indices as [| i indices IH]; intros Hall; [reflexivity |].
  inversion Hall as [| ? ? Hi Hrest]; subst.
  unfold picked in *. cbn [flat_map]. rewrite (IH Hrest). f_equal.
  unfold position.
  replace (i <? 0)%Z with false by (symmetry; apply Z.ltb_ge; lia).
  destruct (i <? Z.of_nat (List.length items))%Z eqn:Hlt.
  - apply Z.ltb_lt in Hlt. rewrite (nth_error_nth' items JNull) by lia. reflexivity.
  - apply Z.ltb_ge in Hlt.
    replace (nth_error items (Z.to_nat i)) with (@None json); [reflexivity |].
    symmetry. apply nth_error_None. lia.
Qed.

(** ** The filter *)

Lemma filter_body_on_list indices_str members items indices :
  reads_as (split_on ","%char indices_str) indices ->
  dict_get_default members "forecasts" (JArr []) = JArr items ->
  filter_body indices_str (JObj members)
  = match select_forecasts (JArr items) indices with
    | Ok filtered =>
        Some (JObj (dict_set (dict_set members "forecasts" (JArr filtered))
                             "filtered" (JBool true)))
    | Raise _ => None
    end.
Proof.
  intros Hreads Hitems. unfold filter_body.
  rewrite (parse_indices_reads _ _ Hreads), py_get_object, Hitems. cbn [bind].
  destruct (select_forecasts (JArr items) indices); reflexivity.
Qed.

Lemma apply_filter_applies indices_str members :
  indices_str <> EmptyString ->
  py_truthy (dict_get_default members "success" JNull) = true ->
  py_eq_str (dict_get_default members "type" JNull) "forecast" = true ->
  apply_filter true (Some indices_str) (JObj members)
  = Ok (match filter_body indices_str (JObj members) with
        | Some filtered => filtered
        | None => JObj members
        end).
Proof.
  intros Hfilter Hsuccess Htype. unfold apply_filter.
  destruct (String.eqb indices_str EmptyString) eqn:Hempty.
  { apply String.eqb_eq in Hempty. contradiction. }
  rewrite !py_get_object. cbn [bind]. rewrite Hsuccess. cbn [bind].
  rewrite Htype. reflexivity.
Qed.

Lemma apply_filter_keeps forecast filter_indices members :
  (forall indices_str, filter_indices = Some indices_str ->
                       filter_body indices_str (JObj members) = None) ->
  apply_filter forecast filter_indices (JObj members) = Ok (JObj members).
Proof.
  intros Hbody. unfold apply_filter.
  destruct forecast; [| reflexivity].
  destruct filter_indices as [indices_str |]; [| reflexivity].
  destruct (String.eqb indices_str EmptyString); [reflexivity |].
  rewrite !py_get_object. cbn [bind].
  destruct (py_truthy _); [| reflexivity]. cbn [bind].
  destruct (py_eq_str _ _); [| reflexivity].
  rewrite (Hbody indices_str eq_refl). reflexivity.
Qed.

Lemma filtered_lookups members filtered :
  let out := dict_set (dict_set members "forecasts" (JArr filtered))
                      "filtered" (JBool true) in
  dict_get out "forecasts" = Some (JArr filtered)
  /\ dict_get out "filtered" = Some (JBool true)
  /\ (forall key, key <> "forecasts" -> key <> "filtered" ->
                  dict_get out key = dict_get members key).
Proof.
  intros out. unfold out. repeat split.
  - rewrite !dict_get_set. reflexivity.
  - rewrite dict_get_set. reflexivity.
  - intros key Hf Hd. rewrite !dict_get_set.
    destruct (String.eqb "filtered" key) eqn:H1.
    { apply String.eqb_eq in H1. congruence. }
    destruct (String.eqb "forecasts" key) eqn:H2.
    { apply String.eqb_eq in H2. congruence. }
    reflexivity.
Qed.

(** X18. The forecast filter. For a successful result of type ["forecast"]
    and a filter whose comma-separated pieces all read as integers that are
    not negative, [query_weather] replaces [forecasts] by the entries at the
    given indices, in the order the filter names them, an index repeated as
    often as it is named and an index at or beyond the length passed over;
    it sets [filtered] to [True] and leaves every other member as it was. A
    result without [forecasts] is filtered as the empty list. *)
Theorem filter_selects_in_given_order :
  forall (indices_str : string) (members : list (string * json))
         (items : list json) (indices : list Z),
    indices_str <> EmptyString ->
    py_truthy (dict_get_default members "success" JNull) = true ->
    dict_get members "type" = Some (JStr "forecast") ->
    dict_get_default members "forecasts" (JArr []) = JArr items ->
    reads_as (split_on ","%char indices_str) indices ->
    Forall (fun i => (0 <= i)%Z) indices ->
    exists out,
      apply_filter true (Some indices_str) (JObj members) = Ok (JObj out)
      /\ dict_get out "forecasts"
         = Some (JArr (flat_map (fun i => match nth_error items (Z.to_nat i) with
                                          | Some x => [x]
                                          | None => []
                                          end) indices))
      /\ dict_get out "filtered" = Some (JBool true)
      /\ (forall key, key <> "forecasts" -> key <> "filtered" ->
                      dict_get out key = dict_get members key).
Proof.
  intros indices_str members items indices Hfilter Hsuccess Htype Hitems Hreads Hall.
  assert (Htype' : py_eq_str (dict_get_default members "type" JNull) "forecast" = true).
  { unfold dict_get_default. rewrite Htype. reflexivity. }
  rewrite (apply_filter_applies indices_str members Hfilter Hsuccess Htype').
  rewrite (filter_body_on_list indices_str members items indices Hreads Hitems).
  rewrite select_picked.
  2: { eapply Forall_impl; [| exact Hall]. cbn beta. intros i Hi. lia. }
  rewrite (picked_from_start items indices Hall).
  eexists. split; [reflexivity |]. apply filtered_lookups.
Qed.

(** X19. Negative indices. An index [i] of [-n .. -1], [n] the number of
    forecasts, selects the entry [n + i], counted from the end, because the
    guard [i < len(original_forecasts)] lets every negative index through to
    the subscript; and an index below [-n] makes the subscript raise, so the
    whole filter is given up and the result returned as it came, without
    [filtered]. *)
Theorem negative_indices_count_from_end :
  forall (indices_str : string) (members : list (string * json))
         (items : list json) (indices : list Z),
    indices_str <> EmptyString ->
    py_truthy (dict_get_default members "success" JNull) = true ->
    dict_get members "type" = Some (JStr "forecast") ->
    dict_get_default members "forecasts" (JArr []) = JArr items ->
    reads_as (split_on ","%char indices_str) indices ->
    (Forall (fun i => (- Z.of_nat (List.length items) <= i)%Z) indices ->
     apply_filter true (Some indices_str) (JObj members)
     = Ok (JObj (dict_set (dict_set members "forecasts" (JArr (picked items indices)))
                          "filtered" (JBool true))))
    /\ (Exists (fun i => (i < - Z.of_nat (List.length items))%Z) indices ->
        apply_filter true (Some indices_str) (JObj members) = Ok (JObj members)).
Proof.
  intros indices_str members items indices Hfilter Hsuccess Htype Hitems Hreads.
  assert (Htype' : py_eq_str (dict_get_default members "type" JNull) "forecast" = true).
  { unfold dict_get_default. rewrite Htype. reflexivity. }
  rewrite (apply_filter_applies indices_str members Hfilter Hsuccess Htype').
  rewrite (filter_body_on_list indices_str members items indices Hreads Hitems).
  split.
  - intros Hall. rewrite (select_picked items indices Hall). reflexivity.
  - intros Hex. apply Exists_exists in Hex. destruct Hex as (i & Hin & Hi).
    destruct (select_raises items indices i Hin Hi) as (e & He).
    rewrite He. reflexivity.
Qed.

(** X20. A filter with a piece that does not read as an integer (a trailing
    comma leaves an empty piece) is given up as a whole: the result is
    returned as it came, whatever the other pieces are. *)
Theorem unparsable_filter_returns_full_data :
  forall (forecast : bool) (indices_str piece : string)
         (members : list (string * json)),
    In piece (split_on ","%char indices_str) ->
    py_int (strip piece) = None ->
    apply_filter forecast (Some indices_str) (JObj members) = Ok (JObj members).
Proof.
  intros forecast indices_str piece members Hin Hnone.
  apply apply_filter_keeps. intros s Hs. injection Hs as <-.
  unfold filter_body. rewrite (parse_indices_fails _ piece Hin Hnone). reflexivity.
Qed.

(** X21. The filter is applied to nothing but a forecast that succeeded: a
    current-weather query, a missing or empty filter, a result whose
    [success] is falsy or whose [type] is not ["forecast"] all leave the
    result as it came; and on a mapping the filter never raises and always
    yields a mapping. *)
Theorem filter_needs_successful_forecast :
  forall (forecast : bool) (filter_indices : option string)
         (members : list (string * json)),
    (forecast = false
     \/ filter_indices = None
     \/ filter_indices = Some EmptyString
     \/ py_truthy (dict_get_default members "success" JNull) = false
     \/ py_eq_str (dict_get_default members "type" JNull) "forecast" = false ->
     apply_filter forecast filter_indices (JObj members) = Ok (JObj members))
    /\ exists out, apply_filter forecast filter_indices (JObj members) = Ok (JObj out).
Proof.
  intros forecast filter_indices members. split.
  - intros Hcase. unfold apply_filter.
    destruct forecast; [| reflexivity].
    destruct filter_indices as [indices_str |]; [| reflexivity].
    destruct (String.eqb indices_str EmptyString) eqn:Hempty; [reflexivity |].
    rewrite !py_get_object. cbn [bind].
    destruct Hcase as [H | [H | [H | [H | H]]]]; try discriminate.
    + injection H as ->. discriminate.
    + rewrite H. reflexivity.
    + destruct (py_truthy _); [| reflexivity]. cbn [bind]. rewrite H. reflexivity.
  - unfold apply_filter.
    destruct forecast; [| eexists; reflexivity].
    destruct filter_indices as [indices_str |]; [| eexists; reflexivity].
    destruct (String.eqb indices_str EmptyString); [eexists; reflexivity |].
    rewrite !py_get_object. cbn [bind].
    destruct (py_truthy _); [| eexists; reflexivity]. cbn [bind].
    destruct (py_eq_str _ _); [| eexists; reflexivity].
    unfold filter_body.
    destruct (parse_indices _); [| eexists; reflexivity].
    rewrite py_get_object. cbn [bind].
    destruct (select_forecasts _ _); eexists; reflexivity.
Qed.


(** ** The heap *)

Lemma heap_store_last h c c' :
  heap_store (h ++ [c]) (List.length h) c' = h ++ [c'].
Proof.
  induction h as [| x h IH]; cbn [heap_store app List.length]; [reflexivity |].
  rewrite IH. reflexivity.
Qed.

Lemma heap_store_same h : forall address c,
  (address < List.length h)%nat ->
  nth_error (heap_store h address c) address = Some c.
Proof.
  induction h as [| x h IH]; intros address c Hlt; cbn [List.length] in Hlt; [lia |].
  destruct address as [| a]; cbn [heap_store nth_error]; [reflexivity |].
  apply IH. lia.
Qed.

Lemma heap_store_other h : forall address other c,
  other <> address -> nth_error (heap_store h address c) other = nth_error h other.
Proof.
  induction h as [| x h IH]; intros address other c Hneq; [reflexivity |].
  destruct address as [| a]; destruct other as [| b]; cbn [heap_store nth_error];
    try reflexivity; try congruence.
  apply IH. congruence.
Qed.

Lemma answer_of_mapping forecast filter_indices members :
  exists out,
    apply_filter forecast filter_indices (JObj members) = Ok (JObj out)
    /\ match apply_filter forecast filter_indices (JObj members) with
       | Ok filtered => Returned (json_dumps filtered)
       | Raise e => Raised e
       end = Returned (json_dumps (JObj out)).
Proof.
  assert (Hout : exists out,
             apply_filter forecast filter_indices (JObj members) = Ok (JObj out)).
  { unfold apply_filter.
    destruct forecast; [| eexists; reflexivity].
    destruct filter_indices as [indices_str |]; [| eexists; reflexivity].
    destruct (String.eqb indices_str EmptyString); [eexists; reflexivity |].
    rewrite !py_get_object. cbn [bind].
    destruct (py_truthy _); [| eexists; reflexivity]. cbn [bind].
    destruct (py_eq_str _ _); [| eexists; reflexivity].
    unfold filter_body.
    destruct (parse_indices _); [| eexists; reflexivity].
    rewrite py_get_object. cbn [bind].
    destruct (select_forecasts _ _); eexists; reflexivity. }
  destruct Hout as (out & Hout). exists out. split; [exact Hout |].
  rewrite Hout. reflexivity.
Qed.

(** X22. The first weather query of a process. [query_weather] builds the
    client against [http://localhost:8001] (whatever address the server was
    configured with elsewhere), makes one call of the wrapper the [forecast]
    flag selects on the client just built, and leaves that client, as the
    call left it, as the process-wide instance. When the wrapper returns a
    mapping the answer is the JSON text of the filtered mapping; when the
    wrapper raises, [query_weather] raises the same exception, having no
    handler around the call. *)
Theorem first_query_builds_the_client :
  forall (city : string) (forecast : bool) (filter_indices : option string)
         (boot : boot_env) (call : call_env) (p : process),
    _mcp_client p = None ->
    Exists (expired (wait_start boot) bootstrap_timeout) (wait_ticks boot) ->
    Exists (expired (init_start boot) bootstrap_timeout) (init_ticks boot) ->
    let built := final (__init__ "http://localhost:8001" boot) in
    let r := if forecast then query_weather_forecast built city call
             else query_current_weather built city call in
    let q := query_weather city forecast filter_indices boot call p in
    agent_history q = history (__init__ "http://localhost:8001" boot) ++ history r
    /\ process_left q
       = {| heap := heap p ++ [final r]; _mcp_client := Some (List.length (heap p)) |}
    /\ (forall members,
          result r = Returned (JObj members) ->
          exists out,
            apply_filter forecast filter_indices (JObj members) = Ok (JObj out)
            /\ answered q = Returned (json_dumps (JObj out)))
    /\ (forall e, result r = Raised e -> answered q = Raised e).
Proof.
  intros city forecast filter_indices boot call p Hnone Hwait Hinit built r q.
  assert (Hq : q = {| answered :=
                        match result r with
                        | Returned result =>
                            match apply_filter forecast filter_indices result with
                            | Ok filtered => Returned (json_dumps filtered)
                            | Raise e => Raised e
                            end
                        | Raised e => Raised e
                        | Waiting => Waiting
                        end;
                      process_left :=
                        {| heap := heap p ++ [final r];
                           _mcp_client := Some (List.length (heap p)) |};
                      agent_history :=
                        history (__init__ "http://localhost:8001" boot) ++ history r |}).
  { unfold q, query_weather, get_mcp_client. rewrite Hnone.
    rewrite (init_ends "http://localhost:8001" boot Hwait Hinit).
    cbn [returned process_after process_history heap _mcp_client].
    rewrite nth_error_app2 by lia. rewrite Nat.sub_diag. cbn [nth_error].
    fold built. fold r. rewrite heap_store_last. reflexivity. }
  rewrite Hq. cbn [answered process_left agent_history].
  split; [reflexivity |]. split; [reflexivity |]. split.
  - intros members Hr. rewrite Hr. apply answer_of_mapping.
  - intros e Hr. rewrite Hr. reflexivity.
Qed.

(** X23. A later weather query. Once the process has a client,
    [query_weather] starts no session: the history of the query is that of
    the one wrapper call, made on the stored client, whose state after the
    call replaces it at the same address, every other object of the heap
    being left alone; the bootstrap environment plays no part. *)
Theorem later_query_reuses_the_client :
  forall (city : string) (forecast : bool) (filter_indices : option string)
         (boot : boot_env) (call : call_env) (p : process)
         (address : nat) (self : MCPWeatherClient),
    _mcp_client p = Some address ->
    nth_error (heap p) address = Some self ->
    let r := if forecast then query_weather_forecast self city call
             else query_current_weather self city call in
    let q := query_weather city forecast filter_indices boot call p in
    agent_history q = history r
    /\ _mcp_client (process_left q) = Some address
    /\ nth_error (heap (process_left q)) address = Some (final r)
    /\ (forall other, other <> address ->
                      nth_error (heap (process_left q)) other = nth_error (heap p) other)
    /\ (forall members,
          result r = Returned (JObj members) ->
          exists out,
            apply_filter forecast filter_indices (JObj members) = Ok (JObj out)
            /\ answered q = Returned (json_dumps (JObj out)))
    /\ (forall e, result r = Raised e -> answered q = Raised e).
Proof.
  intros city forecast filter_indices boot call p address self Hsome Hself r q.
  assert (Hq : q = {| answered :=
                        match result r with
                        | Returned result =>
                            match apply_filter forecast filter_indices result with
                            | Ok filtered => Returned (json_dumps filtered)
                            | Raise e => Raised e
                            end
                        | Raised e => Raised e
                        | Waiting => Waiting
                        end;
                      process_left :=
                        {| heap := heap_store (heap p) address (final r);
                           _mcp_client := Some address |};
                      agent_history := history r |}).
  { unfold q, query_weather, get_mcp_client. rewrite Hsome.
    cbn [returned process_after process_history]. rewrite Hself, Hsome.
    fold r. reflexivity. }
  rewrite Hq. cbn [answered process_left agent_history heap _mcp_client].
  split; [reflexivity |]. split; [reflexivity |]. split.
  { apply heap_store_same. apply nth_error_Some. rewrite Hself. discriminate. }
  split.
  { intros other Hneq. apply heap_store_other, Hneq. }
  split.
  - intros members Hr. rewrite Hr. apply answer_of_mapping.
  - intros e Hr. rewrite Hr. reflexivity.
Qed.

End Client.

(** * The weather service ([src/mcp_weather_service/fastmcp_server.py]) *)

Ltac bind_step :=
  match goal with
  | |- match bind ?m _ with _ => _ end => destruct m; cbn [bind]; [| exact I]
  | |- match (if ?b then _ else _) with _ => _ end => destruct b
  end.

Section Service.

Import Server.

(** [str(e)] *)
Variable str_exn : pyexn -> string.

(** [int(s)] on a [str]: [None] where it raises [ValueError]. *)
Variable py_int : string -> option Z.

(** ** The district lookup *)

Lemma status_is_not members text :
  dict_get members "status" <> Some (JStr text) ->
  py_eq_str (dict_get_default members "status" JNull) text = false.
Proof.
  intros Hstatus. unfold dict_get_default.
  destruct (dict_get members "status") as [v |]; [| reflexivity].
  destruct v; try reflexivity. cbn [py_eq_str].
  destruct (String.eqb s text) eqn:Heq; [| reflexivity].
  apply String.eqb_eq in Heq. subst s. contradiction.
Qed.

Lemma get_city_code_nothing net city :
  finds_nothing (net district_url (district_params city)) ->
  get_city_code net city = JNull.
Proof.
  intros Hnothing. unfold get_city_code, http_get.
  destruct (net district_url (district_params city)) as [body | e]; [| reflexivity].
  destruct body; try reflexivity.
  cbn [finds_nothing] in Hnothing. cbn [bind]. rewrite !py_get_object. cbn [bind].
  destruct Hnothing as [Hstatus | [Hnone | Hempty]].
  - rewrite (status_is_not members "1" Hstatus). reflexivity.
  - destruct (py_eq_str _ _); [| reflexivity].
    unfold dict_get_default. rewrite Hnone. reflexivity.
  - destruct (py_eq_str _ _); [| reflexivity].
    unfold dict_get_default. rewrite Hempty. reflexivity.
Qed.

Lemma get_city_code_finds net city adcode :
  finds (net district_url (district_params city)) adcode ->
  get_city_code net city = adcode.
Proof.
  intros (members & first & others & Hr & Hstatus & Hdistricts & Hadcode & _).
  unfold get_city_code, http_get. rewrite Hr. cbn [bind]. rewrite !py_get_object. cbn [bind].
  unfold dict_get_default. rewrite Hstatus, Hdistricts.
  cbn [py_eq_str String.eqb Ascii.eqb Bool.eqb py_truthy bind py_getitem].
  rewrite Hdistricts. cbn [bind py_getitem_0 py_getitem]. rewrite Hadcode. reflexivity.
Qed.

(** ** The two bodies *)

Lemma current_body_shape net city_code :
  match current_body net city_code with
  | Raise _ => True
  | Ok v =>
      (exists msg, v = failure (JStr msg))
      \/ exists city weather temperature winddirection windpower humidity reporttime,
           v = JObj [("success", JBool true); ("type", JStr "current");
                     ("city", city); ("weather", weather);
                     ("temperature", temperature); ("winddirection", winddirection);
                     ("windpower", windpower); ("humidity", humidity);
                     ("reporttime", reporttime)]
  end.
Proof.
  unfold current_body. bind_step. bind_step. bind_step.
  { left. eexists. reflexivity. }
  bind_step. bind_step.
  { left. eexists. reflexivity. }
  do 8 bind_step.
  right. do 7 eexists. reflexivity.
Qed.

Lemma forecast_body_shape net city_code :
  match forecast_body net city_code with
  | Raise _ => True
  | Ok v =>
      (exists msg, v = failure (JStr msg))
      \/ exists city entries,
           v = JObj [("success", JBool true); ("type", JStr "forecast");
                     ("city", city); ("forecasts", JArr entries);
                     ("days", JInt (Z.of_nat (List.length entries)))]
  end.
Proof.
  unfold forecast_body. bind_step. bind_step. bind_step.
  { left. eexists. reflexivity. }
  bind_step. bind_step.
  { left. eexists. reflexivity. }
  do 5 bind_step.
  right. do 2 eexists. reflexivity.
Qed.

Lemma forecast_entries_objects casts :
  forecast_entries (map JObj casts) = Ok (map entry_of casts).
Proof.
  induction casts as [| cast casts IH]; [reflexivity |].
  cbn [map forecast_entries]. unfold forecast_entry.
  rewrite !py_get_object. cbn [bind]. rewrite IH. reflexivity.
Qed.

Lemma forecast_entries_stop good bad rest :
  is_object bad = false ->
  forecast_entries (map JObj good ++ bad :: rest) = Raise (AttributeError bad "get").
Proof.
  intros Hbad. induction good as [| cast good IH]; cbn [map app forecast_entries].
  - destruct bad; try discriminate; reflexivity.
  - unfold forecast_entry at 1. rewrite !py_get_object. cbn [bind].
    rewrite IH. reflexivity.
Qed.

Lemma forecast_body_of_list net city_code members first others casts :
  net weather_url (weather_params city_code "all") = Json (JObj members) ->
  dict_get members "status" = Some (JStr "1") ->
  dict_get members "forecasts" = Some (JArr (JObj first :: others)) ->
  dict_get_default first "casts" (JArr []) = JArr casts ->
  forecast_body net city_code
  = (forecast_list <- forecast_entries casts ;;
     Ok (JObj [("success", JBool true); ("type", JStr "forecast");
               ("city", field first "city"); ("forecasts", JArr forecast_list);
               ("days", JInt (Z.of_nat (List.length forecast_list)))])).
Proof.
  intros Hnet Hstatus Hforecasts Hcasts.
  unfold forecast_body, http_get. rewrite Hnet. cbn [bind]. rewrite !py_get_object. cbn [bind].
  unfold dict_get_default. rewrite Hstatus, Hforecasts.
  cbn [py_eq_str String.eqb Ascii.eqb Bool.eqb negb py_truthy bind py_getitem_0].
  rewrite !py_get_object. cbn [bind]. rewrite Hcasts. cbn [py_iter bind].
  destruct (forecast_entries casts); reflexivity.
Qed.

(** ** The tools *)

(** X24. Both tools always answer, and with a verdict: either a failure
    mapping [{"success": False, "error": <str>}], or a mapping whose
    [success] is [True], with the [type] of the tool and its fixed members
    in their order; in a forecast, [days] is the number of entries of
    [forecasts]. *)
Theorem tools_answer_with_a_verdict :
  forall (city : string) (net : network),
    ((exists msg,
        answer (Server.query_current_weather str_exn city net) = failure (JStr msg))
     \/ exists name weather temperature winddirection windpower humidity reporttime,
          answer (Server.query_current_weather str_exn city net)
          = JObj [("success", JBool true); ("type", JStr "current");
                  ("city", name); ("weather", weather);
                  ("temperature", temperature); ("winddirection", winddirection);
                  ("windpower", windpower); ("humidity", humidity);
                  ("reporttime", reporttime)])
    /\ ((exists msg,
           answer (Server.query_weather_forecast str_exn city net) = failure (JStr msg))
        \/ exists name entries,
             answer (Server.query_weather_forecast str_exn city net)
             = JObj [("success", JBool true); ("type", JStr "forecast");
                     ("city", name); ("forecasts", JArr entries);
                     ("days", JInt (Z.of_nat (List.length entries)))]).
Proof.
  intros city net. split.
  - unfold Server.query_current_weather. cbn zeta.
    destruct (negb (py_truthy (get_city_code net city))); cbn [answer].
    { left. eexists. reflexivity. }
    pose proof (current_body_shape net (get_city_code net city)) as Hshape.
    destruct (current_body net (get_city_code net city)); [exact Hshape |].
    left. eexists. reflexivity.
  - unfold Server.query_weather_forecast. cbn zeta.
    destruct (negb (py_truthy (get_city_code net city))); cbn [answer].
    { left. eexists. reflexivity. }
    pose proof (forecast_body_shape net (get_city_code net city)) as Hshape.
    destruct (forecast_body net (get_city_code net city)); [exact Hshape |].
    left. eexists. reflexivity.
Qed.

(** X25. A city the district lookup does not find (the lookup raises, its
    body is no mapping, its [status] is not ["1"], or it lists no district)
    is answered by both tools with the failure ["未找到城市: <city>"], and no
    weather request is made: the district request is the only one. *)
Theorem unknown_city_asks_no_weather :
  forall (city : string) (net : network),
    finds_nothing (net district_url (district_params city)) ->
    Server.query_current_weather str_exn city net
    = {| answer := failure (JStr (append "未找到城市: " city));
         requests := [(district_url, district_params city)] |}
    /\ Server.query_weather_forecast str_exn city net
       = {| answer := failure (JStr (append "未找到城市: " city));
            requests := [(district_url, district_params city)] |}.
Proof.
  intros city net Hnothing.
  unfold Server.query_current_weather, Server.query_weather_forecast.
  rewrite (get_city_code_nothing net city Hnothing). split; reflexivity.
Qed.

(** X26. The forecast tool on a good answer of the weather API: it asks for
    the code the district lookup found with [extensions] ["all"], and from
    the first forecast of the answer it lists one entry for every cast, in
    the order of the casts, each with the eight members [date] ... [nightwind]
    read from the cast ([None] where the cast has none); [days] is their
    number. A first forecast without [casts] gives a successful answer of
    zero days. *)
Theorem forecast_lists_every_cast_in_order :
  forall (city : string) (net : network) (adcode : json)
         (members first : list (string * json)) (others : list json)
         (casts : list (list (string * json))),
    finds (net district_url (district_params city)) adcode ->
    net weather_url (weather_params adcode "all") = Json (JObj members) ->
    dict_get members "status" = Some (JStr "1") ->
    dict_get members "forecasts" = Some (JArr (JObj first :: others)) ->
    dict_get_default first "casts" (JArr []) = JArr (map JObj casts) ->
    Server.query_weather_forecast str_exn city net
    = {| answer :=
           JObj [("success", JBool true); ("type", JStr "forecast");
                 ("city", field first "city");
                 ("forecasts", JArr (map entry_of casts));
                 ("days", JInt (Z.of_nat (List.length casts)))];
         requests := [(district_url, district_params city);
                      (weather_url, weather_params adcode "all")] |}.
Proof.
  intros city net adcode members first others casts Hfinds Hnet Hstatus Hforecasts Hcasts.
  pose proof Hfinds as (_ & _ & _ & _ & _ & _ & _ & Htruthy).
  unfold Server.query_weather_forecast.
  rewrite (get_city_code_finds net city adcode Hfinds). cbn zeta.
  rewrite Htruthy. cbn [negb].
  rewrite (forecast_body_of_list net adcode members first others (map JObj casts)
             Hnet Hstatus Hforecasts Hcasts).
  rewrite forecast_entries_objects. cbn [bind]. rewrite length_map. reflexivity.
Qed.

(** X27. The current-weather tool on a good answer of the weather API: it
    asks for the code the district lookup found with [extensions] ["base"]
    and reads its seven fields from the first entry of [lives], the others
    playing no part. *)
Theorem current_weather_reads_first_live :
  forall (city : string) (net : network) (adcode : json)
         (members live : list (string * json)) (others : list json),
    finds (net district_url (district_params city)) adcode ->
    net weather_url (weather_params adcode "base") = Json (JObj members) ->
    dict_get members "status" = Some (JStr "1") ->
    dict_get members "lives" = Some (JArr (JObj live :: others)) ->
    Server.query_current_weather str_exn city net
    = {| answer :=
           JObj [("success", JBool true); ("type", JStr "current");
                 ("city", field live "city"); ("weather", field live "weather");
                 ("temperature", field live "temperature");
                 ("winddirection", field live "winddirection");
                 ("windpower", field live "windpower");
                 ("humidity", field live "humidity");
                 ("reporttime", field live "reporttime")];
         requests := [(district_url, district_params city);
                      (weather_url, weather_params adcode "base")] |}.
Proof.
  intros city net adcode members live others Hfinds Hnet Hstatus Hlives.
  pose proof Hfinds as (_ & _ & _ & _ & _ & _ & _ & Htruthy).
  unfold Server.query_current_weather.
  rewrite (get_city_code_finds net city adcode Hfinds). cbn zeta.
  rewrite Htruthy. cbn [negb].
  unfold current_body, http_get. rewrite Hnet. cbn [bind]. rewrite !py_get_object. cbn [bind].
  unfold dict_get_default. rewrite Hstatus, Hlives.
  cbn [py_eq_str String.eqb Ascii.eqb Bool.eqb negb py_truthy bind py_getitem_0].
  rewrite !py_get_object. cbn [bind]. reflexivity.
Qed.

(** X28. A cast that is not a mapping fails the whole forecast: the tool
    answers with the failure whose message is ["查询天气预报时发生错误: "]
    followed by the text of the [AttributeError] of the first such cast, and
    the entries made of the casts before it are dropped. *)
Theorem malformed_cast_fails_forecast :
  forall (city : string) (net : network) (adcode : json)
         (members first : list (string * json)) (others : list json)
         (good : list (list (string * json))) (bad : json) (rest : list json),
    finds (net district_url (district_params city)) adcode ->
    net weather_url (weather_params adcode "all") = Json (JObj members) ->
    dict_get members "status" = Some (JStr "1") ->
    dict_get members "forecasts" = Some (JArr (JObj first :: others)) ->
    dict_get_default first "casts" (JArr []) = JArr (map JObj good ++ bad :: rest) ->
    is_object bad = false ->
    answer (Server.query_weather_forecast str_exn city net)
    = failure (JStr (append "查询天气预报时发生错误: "
                            (str_exn (AttributeError bad "get")))).
Proof.
  intros city net adcode members first others good bad rest
         Hfinds Hnet Hstatus Hforecasts Hcasts Hbad.
  pose proof Hfinds as (_ & _ & _ & _ & _ & _ & _ & Htruthy).
  unfold Server.query_weather_forecast.
  rewrite (get_city_code_finds net city adcode Hfinds). cbn zeta.
  rewrite Htruthy. cbn [negb answer].
  rewrite (forecast_body_of_list net adcode members first others _
             Hnet Hstatus Hforecasts Hcasts).
  rewrite (forecast_entries_stop good bad rest Hbad). reflexivity.
Qed.

(** X29. What goes wrong upstream, once the city is found, is reported, not
    raised: an exception of the weather request or of the decoding of its
    body becomes the failure ["查询天气时发生错误: <text of the exception>"],
    a [status] other than ["1"] the failure ["高德地图 API 返回错误"], and a
    missing or empty [lives] the failure ["未获取到天气数据"]. *)
Theorem upstream_faults_are_reported :
  forall (city : string) (net : network) (adcode : json),
    finds (net district_url (district_params city)) adcode ->
    (forall e,
        net weather_url (weather_params adcode "base") = GetRaises e ->
        answer (Server.query_current_weather str_exn city net)
        = failure (JStr (append "查询天气时发生错误: " (str_exn e))))
    /\ (forall members,
          net weather_url (weather_params adcode "base") = Json (JObj members) ->
          dict_get members "status" <> Some (JStr "1") ->
          answer (Server.query_current_weather str_exn city net)
          = failure (JStr "高德地图 API 返回错误"))
    /\ (forall members,
          net weather_url (weather_params adcode "base") = Json (JObj members) ->
          dict_get members "status" = Some (JStr "1") ->
          dict_get members "lives" = None \/ dict_get members "lives" = Some (JArr []) ->
          answer (Server.query_current_weather str_exn city net)
          = failure (JStr "未获取到天气数据")).
Proof.
  intros city net adcode Hfinds.
  pose proof Hfinds as (_ & _ & _ & _ & _ & _ & _ & Htruthy).
  unfold Server.query_current_weather.
  rewrite (get_city_code_finds net city adcode Hfinds). cbn zeta.
  rewrite Htruthy. cbn [negb answer].
  unfold current_body, http_get. repeat split.
  - intros e Hnet. rewrite Hnet. reflexivity.
  - intros members Hnet Hstatus. rewrite Hnet. cbn [bind]. rewrite !py_get_object. cbn [bind].
    rewrite (status_is_not members "1" Hstatus). reflexivity.
  - intros members Hnet Hstatus Hlives. rewrite Hnet. cbn [bind]. rewrite !py_get_object.
    cbn [bind]. unfold dict_get_default. rewrite Hstatus.
    destruct Hlives as [-> | ->]; reflexivity.
Qed.

(** X30. The filter of [query_weather] on what the forecast tool answers.
    Whenever the tool does not answer with a failure, its answer is a
    successful forecast, so a filter that is not empty and reads as indices
    that are not negative applies: [forecasts] becomes the chosen entries
    and [filtered] is added at the end, while [days] keeps the number of
    entries the tool listed, not the number left after filtering. *)
Theorem filtered_forecast_keeps_days :
  forall (city : string) (net : network) (indices_str : string) (indices : list Z),
    (forall msg,
        answer (Server.query_weather_forecast str_exn city net) <> failure (JStr msg)) ->
    indices_str <> EmptyString ->
    reads_as py_int (split_on ","%char indices_str) indices ->
    Forall (fun i => (0 <= i)%Z) indices ->
    exists name entries,
      answer (Server.query_weather_forecast str_exn city net)
      = JObj [("success", JBool true); ("type", JStr "forecast");
              ("city", name); ("forecasts", JArr entries);
              ("days", JInt (Z.of_nat (List.length entries)))]
      /\ apply_filter py_int true (Some indices_str)
                      (answer (Server.query_weather_forecast str_exn city net))
         = Ok (JObj [("success", JBool true); ("type", JStr "forecast");
                     ("city", name);
                     ("forecasts",
                      JArr (flat_map (fun i => match nth_error entries (Z.to_nat i) with
                                               | Some x => [x]
                                               | None => []
                                               end) indices));
                     ("days", JInt (Z.of_nat (List.length entries)));
                     ("filtered", JBool true)]).
Proof.
  intros city net indices_str indices Hsuccess Hfilter Hreads Hall.
  assert (Hshape : exists name entries,
             answer (Server.query_weather_forecast str_exn city net)
             = JObj [("success", JBool true); ("type", JStr "forecast");
                     ("city", name); ("forecasts", JArr entries);
                     ("days", JInt (Z.of_nat (List.length entries)))]).
  { revert Hsuccess. unfold Server.query_weather_forecast. cbn zeta.
    destruct (negb (py_truthy (get_city_code net city))); cbn [answer]; intros Hsuccess.
    { exfalso. eapply Hsuccess. reflexivity. }
    pose proof (forecast_body_shape net (get_city_code net city)) as Hbody.
    destruct (forecast_body net (get_city_code net city)) as [v | e].
    - destruct Hbody as [(msg & ->) | Hok]; [| exact Hok].
      exfalso. eapply Hsuccess. reflexivity.
    - exfalso. eapply Hsuccess. reflexivity. }
  destruct Hshape as (name & entries & Hanswer).
  exists name, entries. split; [exact Hanswer |]. rewrite Hanswer.
  rewrite (apply_filter_applies py_int indices_str _ Hfilter); try reflexivity.
  rewrite (filter_body_on_list py_int indices_str _ entries indices Hreads);
    [| reflexivity].
  rewrite select_picked.
  2: { eapply Forall_impl; [| exact Hall]. cbn beta. intros i Hi. lia. }
  rewrite (picked_from_start entries indices Hall). reflexivity.
Qed.

End Service.

(** * Concrete runs

    The facts above, applied to the sample sessions with the decoder
    [MiniJson.loads], and the runs on which the code departs from what is
    claimed of it. *)

Import MiniJson Sample.

(** The server writes each sample response as the frame of the same name. *)
Example beijing_frame_decodes :
  sse_listener loads beijing_frame connected
  = (set_queue connected [text_response id1 beijing],
     [QueuePut (text_response id1 beijing)]).
Proof. vm_compute. reflexivity. Qed.

(** A tactic for the concrete runs: the entry reaches the call in time. *)
Ltac show_reaches path status_code body early more later behind :=
  exists path, status_code, body, early, more, later, behind;
  split; [reflexivity |]; split; [reflexivity |];
  split; [first [left; reflexivity | right; reflexivity] |];
  split; [reflexivity |]; split; [discriminate |];
  split; [repeat (apply Forall_cons; [vm_compute; reflexivity |]); apply Forall_nil |];
  split; [vm_compute; reflexivity |];
  split; [repeat (apply Forall_cons; [split; reflexivity |]); apply Forall_nil |];
  cbn; lia.



(** C2 fails on the code. The response to the call carries the text [42]:
    [json.loads] decodes it to an [int], [_call_tool] returns that [int], and
    [result.get("success")] in either wrapper raises [AttributeError] to the
    caller. *)
Theorem wrappers_raise_on_scalar_payload :
  result (_call_tool loads class_name connected "query_current_weather"
                     (city "Beijing") env_scalar) = Returned (JInt 42)
  /\ result (query_current_weather loads class_name connected "Beijing" env_scalar)
     = Raised (AttributeError (JInt 42) "get")
  /\ result (query_weather_forecast loads class_name connected "Beijing" env_scalar)
     = Raised (AttributeError (JInt 42) "get").
Proof. vm_compute. auto. Qed.

(** C3 fails on the code: a second [endpoint] frame replaces the endpoint
    the first one announced. *)
Lemma endpoint_replaced_by_later_frame :
  let first := [ Line "event: endpoint"; Line "data: /messages/?session_id=abc123" ] in
  let second := [ Line "event: endpoint"; Line "data: /messages/?session_id=def456" ] in
  message_endpoint (listen loads first fresh) = Some "/messages/?session_id=abc123"
  /\ message_endpoint (listen loads (first ++ second) fresh)
     = Some "/messages/?session_id=def456"
  /\ message_endpoint (listen loads (first ++ second) fresh)
     <> message_endpoint (listen loads first fresh).
Proof. vm_compute. repeat split; discriminate. Qed.

Lemma endpoint_is_last_announced_witness :
  alive (sse_thread fresh) = true
  /\ strip "endpoint" = "endpoint"
  /\ message_endpoint
       (listen loads
          (flat_map frame_lines
             ([("endpoint", "/messages/?session_id=abc123")]
              ++ ("endpoint", "/messages/?session_id=def456")
              :: [("message", "{}")]))
          fresh)
     = Some "/messages/?session_id=def456".
Proof.
  split; [reflexivity |]. split; [vm_compute; reflexivity |].
  apply (endpoint_is_last_announced loads
           [("endpoint", "/messages/?session_id=abc123")] [("message", "{}")]
           "endpoint" "/messages/?session_id=def456" fresh).
  - reflexivity.
  - repeat constructor.
  - vm_compute. reflexivity.
  - repeat constructor. vm_compute. discriminate.
Defined.



Lemma call_without_endpoint_fails_fast_witness :
  message_endpoint fresh = None
  /\ _call_tool loads class_name fresh "query_current_weather" (city "Beijing") env_beijing
     = {| result := Returned (JObj [ ("success", JBool false);
                                     ("error", JStr "MCP 连接未建立") ]);
          final := fresh;
          history := [] |}.
Proof.
  split; [reflexivity |].
  apply (call_without_endpoint_fails_fast loads class_name fresh
           "query_current_weather" (city "Beijing") env_beijing).
  reflexivity.
Defined.

Lemma refused_post_fails_without_polling_witness :
  post env_refused = Response 500 "Internal Server Error"
  /\ result (_call_tool loads class_name connected "query_current_weather"
                        (city "Beijing") env_refused)
     = Returned (JObj [ ("success", JBool false);
                        ("error", JStr "MCP服务器返回错误: 500 - Internal Server Error") ])
  /\ polls (history (_call_tool loads class_name connected "query_current_weather"
                                (city "Beijing") env_refused)) = false.
Proof.
  split; [reflexivity |].
  destruct (refused_post_fails_without_polling loads class_name connected
              "query_current_weather" (city "Beijing") env_refused
              "/messages/?session_id=abc123" 500 "Internal Server Error"
              eq_refl eq_refl)
    as [Hcall Hpolls]; [discriminate | discriminate |].
  split; [rewrite Hcall; reflexivity | exact Hpolls].
Defined.

(** C7 fails on the code. No entry with the identifier of the call is
    dequeued and the clock passes the budget, yet the call does not return
    the time-out error: the entry [42] is not an object, [.get] raises on it
    and the last [except] clause answers. *)
Lemma number_entry_ends_call_before_timeout :
  let call := _call_tool loads class_name connected "query_current_weather"
                         (city "Beijing") env_number in
  message_endpoint connected = Some "/messages/?session_id=abc123"
  /\ post env_number = Response 202 "Accepted"
  /\ Exists (expired (start_time env_number) call_timeout) (ticks env_number)
  /\ gets (history call) = [JInt 42]
  /\ Forall (fun m => has_id (uuid4 env_number) m = false) (gets (history call))
  /\ result call
     = Returned (JObj [ ("success", JBool false);
                        ("error", JStr "MCP调用失败: AttributeError") ])
  /\ result call
     <> Returned (JObj [("success", JBool false); ("error", JStr "等待MCP响应超时")]).
Proof.
  intros call. split; [reflexivity |]. split; [reflexivity |].
  split; [find_expired |]. split; [vm_compute; reflexivity |].
  split; [vm_compute; repeat constructor |].
  split; [vm_compute; reflexivity | vm_compute; discriminate].
Qed.

Lemma unmatched_objects_time_out_witness :
  let call := _call_tool loads class_name connected "query_current_weather"
                         (city "Beijing") env_silent in
  Exists (expired (start_time env_silent) call_timeout) (ticks env_silent)
  /\ gets (history call)
     = [JObj [("jsonrpc", JStr "2.0"); ("method", JStr "notifications/message")]]
  /\ result call
     = Returned (JObj [("success", JBool false); ("error", JStr "等待MCP响应超时")]).
Proof.
  intros call.
  assert (Hex : Exists (expired (start_time env_silent) call_timeout) (ticks env_silent))
    by find_expired.
  split; [exact Hex |]. split; [vm_compute; reflexivity |].
  apply (unmatched_objects_time_out loads class_name connected "query_current_weather"
           (city "Beijing") env_silent "/messages/?session_id=abc123" 200 "OK").
  - reflexivity.
  - reflexivity.
  - left. reflexivity.
  - exact Hex.
  - intros m Hin. vm_compute in Hin.
    repeat (destruct Hin as [Hin | Hin]; [try discriminate Hin |]); try contradiction.
    injection Hin as <-. vm_compute. auto.
Defined.

Lemma malformed_message_never_queued_witness :
  loads "{oops" = None
  /\ sse_line loads (append "data: " "{oops") (set_event fresh (Some "message"))
     = Ok (set_event (set_event fresh (Some "message")) None, [])
  /\ response_queue (listen loads [Line "data: {oops"] (set_event fresh (Some "message")))
     = [].
Proof.
  assert (Hload : loads "{oops" = None) by (vm_compute; reflexivity).
  destruct (malformed_message_never_queued loads) as [Hdrop _].
  destruct (Hdrop "{oops" (set_event fresh (Some "message")) eq_refl Hload eq_refl eq_refl)
    as (Hline & Hqueue & _).
  split; [exact Hload |]. split; [exact Hline | exact Hqueue].
Defined.

(** A response that carries an image, behind a notification. *)
Lemma unusable_result_is_unable_to_parse_witness :
  let call := _call_tool loads class_name connected "query_current_weather"
                         (city "Beijing") Cases.env_image_behind in
  reaches_in_time loads connected Cases.env_image_behind [Cases.notification]
                  image_response
  /\ unusable_response (uuid4 Cases.env_image_behind) image_response
  /\ result call
     = Returned (JObj [("success", JBool false); ("error", JStr "无法解析MCP响应")])
  /\ gets (history call) = [Cases.notification] ++ [image_response].
Proof.
  intros call.
  assert (Hreach : reaches_in_time loads connected Cases.env_image_behind
                                   [Cases.notification] image_response).
  { show_reaches "/messages/?session_id=abc123" 202%Z "Accepted"
      (firstn 1 (ticks Cases.env_image_behind)) (skipn 1 (ticks Cases.env_image_behind))
      (@nil tick) (@nil json). }
  assert (Hm : unusable_response (uuid4 Cases.env_image_behind) image_response).
  { exists [ ("jsonrpc", JStr "2.0"); ("id", JStr id1);
             ("result", JObj [("content", JArr [JObj [("type", JStr "image")]])]) ],
           [("content", JArr [JObj [("type", JStr "image")]])].
    repeat split. right. right. exists [("type", JStr "image")], []. split; reflexivity. }
  split; [exact Hreach |]. split; [exact Hm |].
  destruct (unusable_result_is_unable_to_parse loads class_name) as [Hunable _].
  destruct (Hunable connected "query_current_weather" (city "Beijing")
              Cases.env_image_behind [Cases.notification] image_response Hreach Hm)
    as (_ & Hresult & Hgets).
  split; [exact Hresult | exact Hgets].
Defined.

(** C9 fails on the code. The response to the call has the result [null],
    which has no [content]: the test ["content" in result] raises
    [TypeError], and the call returns the failure of the last [except]
    clause, not the one for a response it cannot parse. *)
Lemma null_result_is_not_unable_to_parse :
  let call := _call_tool loads class_name connected "query_current_weather"
                         (city "Beijing") Cases.env_null in
  has_id (uuid4 Cases.env_null) Cases.null_response = true
  /\ Cases.null_response
     = JObj [("jsonrpc", JStr "2.0"); ("id", JStr id1); ("result", JNull)]
  /\ gets (history call) = [Cases.null_response]
  /\ unwrap_response loads Cases.null_response = Raise (TypeError "in" JNull)
  /\ result call
     = Returned (JObj [("success", JBool false); ("error", JStr "MCP调用失败: TypeError")])
  /\ result call
     <> Returned (JObj [("success", JBool false); ("error", JStr "无法解析MCP响应")]).
Proof. vm_compute. repeat split; try reflexivity. discriminate. Qed.

(** The first call builds the client of the sample handshake; a second call
    with another address and another environment returns it as it is. *)
Lemma get_mcp_client_is_idempotent_witness :
  let first := get_mcp_client loads "http://localhost:8001/" boot empty_process in
  _mcp_client empty_process = None
  /\ returned first = Returned 0%nat
  /\ nth_error (heap (process_after first)) 0 = Some connected
  /\ get_mcp_client loads "http://example.org:9000" boot (process_after first)
     = {| returned := Returned 0%nat;
          process_after := process_after first;
          process_history := [] |}.
Proof.
  intros first.
  destruct (get_mcp_client_is_idempotent loads "http://localhost:8001/" boot empty_process)
    as (Hret & _ & Hheap & Hagain & _); [reflexivity | find_expired | find_expired |].
  split; [reflexivity |]. split; [exact Hret |].
  split; [vm_compute; reflexivity |].
  exact (Hagain "http://example.org:9000" boot).
Defined.

(** * More concrete runs

    The further facts, on the sample data of [Cases]. *)

Import Cases.

(** An endpoint, two messages that decode, one that does not and a frame of
    an event the client does not know. *)
Lemma listener_queues_in_arrival_order_witness :
  let frames := [ ("endpoint", "/messages/?session_id=abc123"); ("message", "{}");
                  ("ping", "2025"); ("message", "oops"); ("message", "42") ] in
  alive (sse_thread fresh) = true
  /\ Forall (fun frame => str_ok (fst frame) /\ str_ok (snd frame)) frames
  /\ flat_map (queued_by loads) frames = [JObj []; JInt 42]
  /\ response_queue (listen loads (flat_map frame_lines frames) fresh)
     = response_queue fresh ++ flat_map (queued_by loads) frames.
Proof.
  intros frames.
  assert (Hall : Forall (fun frame => str_ok (fst frame) /\ str_ok (snd frame)) frames)
    by (repeat constructor).
  split; [reflexivity |]. split; [exact Hall |]. split; [vm_compute; reflexivity |].
  exact (listener_queues_in_arrival_order loads frames fresh eq_refl Hall).
Defined.

Lemma listener_stops_at_first_fault_witness :
  let item := Broken (RequestException "connection reset") in
  alive (sse_thread connected) = true
  /\ sse_listener loads (item :: beijing_frame) connected = (stop_thread connected, [])
  /\ alive (sse_thread (listen loads (item :: beijing_frame) connected)) = false
  /\ response_queue (listen loads (item :: beijing_frame) connected)
     = response_queue connected
  /\ message_endpoint (listen loads (item :: beijing_frame) connected)
     = message_endpoint connected.
Proof.
  intros item. split; [reflexivity |].
  apply (listener_stops_at_first_fault loads item beijing_frame connected).
  - reflexivity.
  - left. exists (RequestException "connection reset"). reflexivity.
Defined.

Lemma event_covers_one_data_line_witness :
  let self := set_event fresh (Some "endpoint") in
  let after := listen loads [Line "data: /messages/?session_id=abc123"] self in
  alive (sse_thread self) = true
  /\ str_ok "/messages/?session_id=abc123"
  /\ str_ok "/messages/?session_id=def456"
  /\ message_endpoint after = Some "/messages/?session_id=abc123"
  /\ current_event (sse_thread after) = None
  /\ sse_listener loads [Line "data: /messages/?session_id=def456"] after = (after, [])
  /\ response_queue (listen loads [Line "data: /messages/?session_id=def456"] after)
     = response_queue after
  /\ message_endpoint (listen loads [Line "data: /messages/?session_id=def456"] after)
     = message_endpoint after.
Proof.
  intros self after.
  split; [reflexivity |]. split; [reflexivity |]. split; [reflexivity |].
  split; [vm_compute; reflexivity |].
  exact (event_covers_one_data_line loads "/messages/?session_id=abc123"
           "/messages/?session_id=def456" self eq_refl eq_refl eq_refl).
Defined.

Lemma endpoint_never_forgotten_witness :
  message_endpoint connected <> None
  /\ message_endpoint (listen loads (Broken IndexError :: beijing_frame) connected) <> None.
Proof.
  assert (Hknown : message_endpoint connected <> None) by discriminate.
  split; [exact Hknown |].
  exact (endpoint_never_forgotten loads (Broken IndexError :: beijing_frame) connected
           Hknown).
Defined.

Lemma call_posts_one_request_witness :
  message_endpoint fresh = None
  /\ message_endpoint connected = Some "/messages/?session_id=abc123"
  /\ posts (history (_call_tool loads class_name fresh "query_current_weather"
                                (city "Beijing") env_beijing)) = []
  /\ posts (history (_call_tool loads class_name connected "query_current_weather"
                                (city "Beijing") env_beijing))
     = [ ("http://localhost:8001/messages/?session_id=abc123",
          JObj [ ("jsonrpc", JStr "2.0"); ("id", JStr id1);
                 ("method", JStr "tools/call");
                 ("params", JObj [ ("name", JStr "query_current_weather");
                                   ("arguments", city "Beijing") ]) ]) ].
Proof.
  split; [reflexivity |]. split; [reflexivity |]. split.
  - exact (proj1 (call_posts_one_request loads class_name fresh "query_current_weather"
                    (city "Beijing") env_beijing) eq_refl).
  - exact (proj2 (call_posts_one_request loads class_name connected
                    "query_current_weather" (city "Beijing") env_beijing)
                 "/messages/?session_id=abc123" eq_refl).
Defined.

Lemma announced_endpoint_is_post_target_witness :
  alive (sse_thread fresh) = true
  /\ str_ok "endpoint" /\ str_ok "/messages/?session_id=abc123"
  /\ strip "endpoint" = "endpoint"
  /\ posts (history (_call_tool loads class_name
                       (listen loads (frame_lines ("endpoint", "/messages/?session_id=abc123"))
                               fresh)
                       "query_current_weather" (city "Beijing") env_beijing))
     = [ ("http://localhost:8001/messages/?session_id=abc123",
          tools_call id1 "query_current_weather" (city "Beijing")) ].
Proof.
  split; [reflexivity |]. split; [reflexivity |]. split; [reflexivity |].
  split; [vm_compute; reflexivity |].
  exact (announced_endpoint_is_post_target loads class_name "endpoint"
           "/messages/?session_id=abc123" fresh "query_current_weather"
           (city "Beijing") env_beijing eq_refl eq_refl eq_refl eq_refl).
Defined.

(** An error object gives its message; an error that is a string gives the
    failure of the last [except] clause. *)
Lemma error_response_fails_call_witness :
  let call := _call_tool loads class_name connected "no_such_tool" (city "Beijing")
                         env_error in
  let call' := _call_tool loads class_name connected "no_such_tool" (city "Beijing")
                          env_error_text in
  In (QueueGet (error_entry (JObj unknown_tool))) (history call)
  /\ In (QueueGet (error_entry (JStr "boom"))) (history call')
  /\ result call
     = Returned (JObj [("success", JBool false); ("error", JStr "Unknown tool")])
  /\ result call'
     = Returned (JObj [("success", JBool false);
                       ("error", JStr "MCP调用失败: AttributeError")]).
Proof.
  intros call call'.
  assert (Hin : In (QueueGet (error_entry (JObj unknown_tool))) (history call))
    by find_event.
  assert (Hin' : In (QueueGet (error_entry (JStr "boom"))) (history call'))
    by find_event.
  split; [exact Hin |]. split; [exact Hin' |]. split.
  - exact (proj1 (error_response_fails_call loads class_name connected "no_such_tool"
                    (city "Beijing") env_error _ (JObj unknown_tool) Hin eq_refl eq_refl)
                 unknown_tool eq_refl).
  - exact (proj2 (error_response_fails_call loads class_name connected "no_such_tool"
                    (city "Beijing") env_error_text _ (JStr "boom") Hin' eq_refl eq_refl)
                 eq_refl).
Defined.

Lemma undecodable_text_fails_call_witness :
  let call := _call_tool loads class_name connected "query_current_weather"
                         (city "Beijing") env_garbled in
  In (QueueGet (text_response id1 "oops")) (history call)
  /\ tool_response (uuid4 env_garbled) "oops" (text_response id1 "oops")
  /\ loads "oops" = None
  /\ result call
     = Returned (JObj [("success", JBool false);
                       ("error", JStr "MCP调用失败: JSONDecodeError")]).
Proof.
  intros call.
  assert (Hin : In (QueueGet (text_response id1 "oops")) (history call)) by find_event.
  assert (Hm : tool_response (uuid4 env_garbled) "oops" (text_response id1 "oops"))
    by (unfold tool_response, text_response; repeat eexists; reflexivity).
  split; [exact Hin |]. split; [exact Hm |]. split; [reflexivity |].
  exact (undecodable_text_fails_call loads class_name connected "query_current_weather"
           (city "Beijing") env_garbled (text_response id1 "oops") "oops"
           Hin Hm eq_refl).
Defined.


Lemma call_always_returns_witness :
  let call := _call_tool loads class_name connected "query_current_weather"
                         (city "Beijing") env_silent in
  Exists (expired (start_time env_silent) call_timeout) (ticks env_silent)
  /\ exists v, result call = Returned v.
Proof.
  intros call.
  assert (Hex : Exists (expired (start_time env_silent) call_timeout) (ticks env_silent))
    by find_expired.
  split; [exact Hex |].
  exact (proj2 (call_always_returns loads class_name connected "query_current_weather"
                  (city "Beijing") env_silent) Hex).
Defined.

Lemma call_returns_failure_or_payload_witness :
  let call := _call_tool loads class_name connected "query_current_weather"
                         (city "Beijing") env_beijing in
  let v := JObj [("success", JBool true); ("city", JStr "Beijing")] in
  result call = Returned v
  /\ ((exists message, v = JObj [("success", JBool false); ("error", message)])
      \/ exists m text,
           In (QueueGet m) (history call)
           /\ has_id (uuid4 env_beijing) m = true
           /\ loads text = Some v).
Proof.
  intros call v.
  assert (Hr : result call = Returned v) by (vm_compute; reflexivity).
  split; [exact Hr |].
  exact (call_returns_failure_or_payload loads class_name connected
           "query_current_weather" (city "Beijing") env_beijing v Hr).
Defined.

(** The response that comes at 131 is not waited for. *)
Lemma call_ignores_what_follows_expiry_witness :
  let before := [ {| now := 100; received := [] |} ] in
  let t := {| now := 130.5; received := [] |} in
  let later := [ {| now := 131; received := beijing_frame |} ] in
  ticks env_late = before ++ t :: later
  /\ expired (start_time env_late) call_timeout t
  /\ _call_tool loads class_name connected "query_current_weather" (city "Beijing") env_late
     = _call_tool loads class_name connected "query_current_weather" (city "Beijing")
                  (with_ticks env_late (before ++ [t])).
Proof.
  intros before t later.
  assert (Hexpired : expired (start_time env_late) call_timeout t)
    by (vm_compute; reflexivity).
  split; [reflexivity |]. split; [exact Hexpired |].
  exact (call_ignores_what_follows_expiry loads class_name connected
           "query_current_weather" (city "Beijing") env_late before t later
           eq_refl Hexpired).
Defined.

Lemma bootstrap_never_raises_witness :
  result (__init__ loads "http://localhost:8001/" boot_silent)
  <> Raised (RequestsConnectionError "connection refused")
  /\ returned (get_mcp_client loads "http://localhost:8001/" boot_silent empty_process)
     <> Raised (RequestsConnectionError "connection refused").
Proof.
  exact (bootstrap_never_raises loads "http://localhost:8001/" boot_silent empty_process
           (RequestsConnectionError "connection refused")).
Defined.

Lemma bootstrap_without_endpoint_sends_nothing_witness :
  let built := final (__init__ loads "http://localhost:8001/" boot_silent) in
  message_endpoint built = None
  /\ posts (history (__init__ loads "http://localhost:8001/" boot_silent)) = []
  /\ gets (history (__init__ loads "http://localhost:8001/" boot_silent)) = []
  /\ _call_tool loads class_name built "query_current_weather" (city "Beijing") env_beijing
     = {| result := Returned (JObj [ ("success", JBool false);
                                     ("error", JStr "MCP 连接未建立") ]);
          final := built;
          history := [] |}.
Proof.
  intros built.
  assert (Hnone : message_endpoint built = None) by (vm_compute; reflexivity).
  split; [exact Hnone |].
  exact (bootstrap_without_endpoint_sends_nothing loads class_name
           "http://localhost:8001/" boot_silent "query_current_weather"
           (city "Beijing") env_beijing Hnone).
Defined.

Lemma server_url_has_no_trailing_slash_witness :
  server_url (final (__init__ loads "http://localhost:8001//" boot))
  = "http://localhost:8001"
  /\ server_url (listen loads beijing_frame
                        (final (__init__ loads "http://localhost:8001//" boot)))
     = "http://localhost:8001"
  /\ (exists n, "http://localhost:8001//" = append "http://localhost:8001" (slashes n))
  /\ last_char "http://localhost:8001" <> Some "/"%char.
Proof.
  exact (server_url_has_no_trailing_slash loads "http://localhost:8001//" boot
           beijing_frame).
Defined.

(** The filter [2, 0,7,2] on three days: days 2, 0 and 2 again, 7 passed
    over. *)
Lemma filter_selects_in_given_order_witness :
  "2, 0,7,2" <> EmptyString
  /\ reads_as int_of_str (split_on ","%char "2, 0,7,2") [2; 0; 7; 2]%Z
  /\ Forall (fun i => (0 <= i)%Z) [2; 0; 7; 2]%Z
  /\ exists out,
       apply_filter int_of_str true (Some "2, 0,7,2") (JObj three_days) = Ok (JObj out)
       /\ dict_get out "forecasts"
          = Some (JArr [JStr "day 2"; JStr "day 0"; JStr "day 2"])
       /\ dict_get out "filtered" = Some (JBool true)
       /\ (forall key, key <> "forecasts" -> key <> "filtered" ->
                       dict_get out key = dict_get three_days key).
Proof.
  assert (Hfilter : "2, 0,7,2" <> EmptyString) by discriminate.
  assert (Hreads : reads_as int_of_str (split_on ","%char "2, 0,7,2") [2; 0; 7; 2]%Z)
    by (unfold reads_as; vm_compute; repeat constructor).
  assert (Hall : Forall (fun i => (0 <= i)%Z) [2; 0; 7; 2]%Z)
    by (repeat (apply Forall_cons; [lia |]); apply Forall_nil).
  split; [exact Hfilter |]. split; [exact Hreads |]. split; [exact Hall |].
  exact (filter_selects_in_given_order int_of_str "2, 0,7,2" three_days
           [JStr "day 0"; JStr "day 1"; JStr "day 2"] [2; 0; 7; 2]%Z
           Hfilter eq_refl eq_refl eq_refl Hreads Hall).
Defined.

(** [-1,0] selects the last day and the first; [0,-4] gives the filter up. *)
Lemma negative_indices_count_from_end_witness :
  reads_as int_of_str (split_on ","%char "-1,0") [-1; 0]%Z
  /\ reads_as int_of_str (split_on ","%char "0,-4") [0; -4]%Z
  /\ apply_filter int_of_str true (Some "-1,0") (JObj three_days)
     = Ok (JObj [("success", JBool true); ("type", JStr "forecast");
                 ("city", JStr "北京市");
                 ("forecasts", JArr [JStr "day 2"; JStr "day 0"]); ("days", JInt 3);
                 ("filtered", JBool true)])
  /\ apply_filter int_of_str true (Some "0,-4") (JObj three_days) = Ok (JObj three_days).
Proof.
  assert (Hreads : reads_as int_of_str (split_on ","%char "-1,0") [-1; 0]%Z)
    by (unfold reads_as; vm_compute; repeat constructor).
  assert (Hreads' : reads_as int_of_str (split_on ","%char "0,-4") [0; -4]%Z)
    by (unfold reads_as; vm_compute; repeat constructor).
  split; [exact Hreads |]. split; [exact Hreads' |]. split.
  - apply (proj1 (negative_indices_count_from_end int_of_str "-1,0" three_days
                    [JStr "day 0"; JStr "day 1"; JStr "day 2"] [-1; 0]%Z
                    ltac:(discriminate) eq_refl eq_refl eq_refl Hreads)).
    repeat (apply Forall_cons; [cbn; lia |]). apply Forall_nil.
  - apply (proj2 (negative_indices_count_from_end int_of_str "0,-4" three_days
                    [JStr "day 0"; JStr "day 1"; JStr "day 2"] [0; -4]%Z
                    ltac:(discriminate) eq_refl eq_refl eq_refl Hreads')).
    apply Exists_cons_tl, Exists_cons_hd. cbn. lia.
Defined.

(** A trailing comma leaves an empty piece, which [int] refuses. *)
Lemma unparsable_filter_returns_full_data_witness :
  In EmptyString (split_on ","%char "0,1,")
  /\ int_of_str (strip EmptyString) = None
  /\ apply_filter int_of_str true (Some "0,1,") (JObj three_days) = Ok (JObj three_days).
Proof.
  assert (Hin : In EmptyString (split_on ","%char "0,1,")) by find_event.
  split; [exact Hin |]. split; [reflexivity |].
  exact (unparsable_filter_returns_full_data int_of_str true "0,1," EmptyString
           three_days Hin eq_refl).
Defined.

(** A failure of the gateway is not filtered. *)
Lemma filter_needs_successful_forecast_witness :
  let members := [("success", JBool false); ("error", JStr "等待MCP响应超时")] in
  py_truthy (dict_get_default members "success" JNull) = false
  /\ apply_filter int_of_str true (Some "0") (JObj members) = Ok (JObj members).
Proof.
  intros members. split; [reflexivity |].
  apply (proj1 (filter_needs_successful_forecast int_of_str true (Some "0") members)).
  right. right. right. left. reflexivity.
Defined.

(** The first query of a process, on the sample handshake and the sample
    call. *)
Lemma first_query_builds_the_client_witness :
  let q := query_weather loads class_name int_of_str dumps "Beijing" false None
                         boot env_beijing empty_process in
  _mcp_client empty_process = None
  /\ Exists (expired (wait_start boot) bootstrap_timeout) (wait_ticks boot)
  /\ Exists (expired (init_start boot) bootstrap_timeout) (init_ticks boot)
  /\ agent_history q
     = history (__init__ loads "http://localhost:8001" boot)
       ++ history (query_current_weather loads class_name
                     (final (__init__ loads "http://localhost:8001" boot))
                     "Beijing" env_beijing)
  /\ _mcp_client (process_left q) = Some 0%nat
  /\ answered q = Returned (quoted "{'success': true, 'city': 'Beijing'}").
Proof.
  intros q.
  assert (Hwait : Exists (expired (wait_start boot) bootstrap_timeout) (wait_ticks boot))
    by find_expired.
  assert (Hinit : Exists (expired (init_start boot) bootstrap_timeout) (init_ticks boot))
    by find_expired.
  destruct (first_query_builds_the_client loads class_name int_of_str dumps "Beijing"
              false None boot env_beijing empty_process eq_refl Hwait Hinit)
    as (Hhistory & Hleft & Hanswer & _).
  split; [reflexivity |]. split; [exact Hwait |]. split; [exact Hinit |].
  split; [exact Hhistory |]. split.
  - exact (f_equal _mcp_client Hleft).
  - destruct (Hanswer [("success", JBool true); ("city", JStr "Beijing")])
      as (out & Hout & Hq); [vm_compute; reflexivity |].
    injection Hout as <-. exact Hq.
Defined.

(** A later query, on a process that has the sample client: the reply has no
    [type], so the filter does not apply. *)
Lemma later_query_reuses_the_client_witness :
  let r := query_weather_forecast loads class_name connected "Beijing" env_beijing in
  let q := query_weather loads class_name int_of_str dumps "Beijing" true (Some "0")
                         boot_silent env_beijing running_process in
  _mcp_client running_process = Some 0%nat
  /\ nth_error (heap running_process) 0 = Some connected
  /\ agent_history q = history r
  /\ _mcp_client (process_left q) = Some 0%nat
  /\ nth_error (heap (process_left q)) 0 = Some (final r)
  /\ answered q = Returned (quoted "{'success': true, 'city': 'Beijing'}").
Proof.
  intros r q.
  destruct (later_query_reuses_the_client loads class_name int_of_str dumps "Beijing"
              true (Some "0") boot_silent env_beijing running_process 0%nat connected
              eq_refl eq_refl)
    as (Hhistory & Hclient & Hheap & _ & Hanswer & _).
  split; [reflexivity |]. split; [reflexivity |]. split; [exact Hhistory |].
  split; [exact Hclient |]. split; [exact Hheap |].
  destruct (Hanswer [("success", JBool true); ("city", JStr "Beijing")])
    as (out & Hout & Hq); [vm_compute; reflexivity |].
  injection Hout as <-. exact Hq.
Defined.

(** A city the district lookup does not know. *)
Lemma unknown_city_asks_no_weather_witness :
  let net := amap (Server.Json (JObj lives_answer)) in
  Server.finds_nothing (net Server.district_url (Server.district_params "Atlantis"))
  /\ Server.query_current_weather class_name "Atlantis" net
     = {| Server.answer := failure (JStr "未找到城市: Atlantis");
          Server.requests := [(Server.district_url, Server.district_params "Atlantis")] |}
  /\ Server.query_weather_forecast class_name "Atlantis" net
     = {| Server.answer := failure (JStr "未找到城市: Atlantis");
          Server.requests := [(Server.district_url, Server.district_params "Atlantis")] |}.
Proof.
  intros net.
  assert (Hnothing : Server.finds_nothing
                       (net Server.district_url (Server.district_params "Atlantis")))
    by (right; right; reflexivity).
  split; [exact Hnothing |].
  exact (unknown_city_asks_no_weather class_name "Atlantis" net Hnothing).
Defined.

Lemma beijing_is_found weather :
  Server.finds (amap weather Server.district_url (Server.district_params "北京"))
               (JStr "110000").
Proof.
  exists district_answer, beijing_district, []. repeat split.
Qed.

(** Two casts, the second without [week] and the winds. *)
Lemma forecast_lists_every_cast_in_order_witness :
  let net := amap (Server.Json (JObj forecast_answer)) in
  Server.finds (net Server.district_url (Server.district_params "北京")) (JStr "110000")
  /\ Server.query_weather_forecast class_name "北京" net
     = {| Server.answer :=
            JObj [("success", JBool true); ("type", JStr "forecast");
                  ("city", JStr "北京市");
                  ("forecasts",
                   JArr [ JObj [("date", JStr "2025-01-01"); ("week", JStr "3");
                                ("dayweather", JStr "晴"); ("nightweather", JStr "多云");
                                ("daytemp", JStr "5"); ("nighttemp", JStr "-4");
                                ("daywind", JStr "北"); ("nightwind", JStr "西北")];
                          JObj [("date", JStr "2025-01-02"); ("week", JNull);
                                ("dayweather", JStr "阴"); ("nightweather", JStr "小雪");
                                ("daytemp", JStr "2"); ("nighttemp", JStr "-6");
                                ("daywind", JNull); ("nightwind", JNull)] ]);
                  ("days", JInt 2)];
          Server.requests :=
            [(Server.district_url, Server.district_params "北京");
             (Server.weather_url, Server.weather_params (JStr "110000") "all")] |}.
Proof.
  intros net. split; [apply beijing_is_found |].
  exact (forecast_lists_every_cast_in_order class_name "北京" net (JStr "110000")
           forecast_answer forecast_report [] [cast1; cast2]
           (beijing_is_found _) eq_refl eq_refl eq_refl eq_refl).
Defined.

Lemma current_weather_reads_first_live_witness :
  let net := amap (Server.Json (JObj lives_answer)) in
  Server.finds (net Server.district_url (Server.district_params "北京")) (JStr "110000")
  /\ Server.query_current_weather class_name "北京" net
     = {| Server.answer :=
            JObj [("success", JBool true); ("type", JStr "current");
                  ("city", JStr "北京市"); ("weather", JStr "晴");
                  ("temperature", JStr "5"); ("winddirection", JStr "北");
                  ("windpower", JStr "≤3"); ("humidity", JStr "20");
                  ("reporttime", JStr "2025-01-01 10:00:00")];
          Server.requests :=
            [(Server.district_url, Server.district_params "北京");
             (Server.weather_url, Server.weather_params (JStr "110000") "base")] |}.
Proof.
  intros net. split; [apply beijing_is_found |].
  exact (current_weather_reads_first_live class_name "北京" net (JStr "110000")
           lives_answer live [] (beijing_is_found _) eq_refl eq_refl eq_refl).
Defined.

Lemma malformed_cast_fails_forecast_witness :
  let net := amap (Server.Json (JObj broken_answer)) in
  Server.finds (net Server.district_url (Server.district_params "北京")) (JStr "110000")
  /\ is_object (JStr "oops") = false
  /\ Server.answer (Server.query_weather_forecast class_name "北京" net)
     = failure (JStr "查询天气预报时发生错误: AttributeError").
Proof.
  intros net. split; [apply beijing_is_found |]. split; [reflexivity |].
  exact (malformed_cast_fails_forecast class_name "北京" net (JStr "110000")
           broken_answer broken_report [] [cast1] (JStr "oops") [JObj cast2]
           (beijing_is_found _) eq_refl eq_refl eq_refl eq_refl eq_refl).
Defined.

(** The weather request times out; the weather API refuses. *)
Lemma upstream_faults_are_reported_witness :
  let down := amap (Server.GetRaises (RequestsTimeout "timed out")) in
  let refusing := amap (Server.Json (JObj [("status", JStr "0"); ("info", JStr "INVALID_USER_KEY")])) in
  Server.finds (down Server.district_url (Server.district_params "北京")) (JStr "110000")
  /\ Server.answer (Server.query_current_weather class_name "北京" down)
     = failure (JStr "查询天气时发生错误: timed out")
  /\ Server.answer (Server.query_current_weather class_name "北京" refusing)
     = failure (JStr "高德地图 API 返回错误").
Proof.
  intros down refusing. split; [apply beijing_is_found |]. split.
  - exact (proj1 (upstream_faults_are_reported class_name "北京" down (JStr "110000")
                    (beijing_is_found _))
                 (RequestsTimeout "timed out") eq_refl).
  - apply (proj1 (proj2 (upstream_faults_are_reported class_name "北京" refusing
                           (JStr "110000") (beijing_is_found _)))
                 [("status", JStr "0"); ("info", JStr "INVALID_USER_KEY")] eq_refl).
    discriminate.
Defined.

(** The second of two days is kept, and [days] still says 2. *)
Lemma filtered_forecast_keeps_days_witness :
  let net := amap (Server.Json (JObj forecast_answer)) in
  let served := Server.answer (Server.query_weather_forecast class_name "北京" net) in
  (forall msg, served <> failure (JStr msg))
  /\ reads_as int_of_str (split_on ","%char "1") [1]%Z
  /\ dict_get_default forecast_report "casts" JNull = JArr [JObj cast1; JObj cast2]
  /\ exists name entries,
       served
       = JObj [("success", JBool true); ("type", JStr "forecast");
               ("city", name); ("forecasts", JArr entries);
               ("days", JInt (Z.of_nat (List.length entries)))]
       /\ apply_filter int_of_str true (Some "1") served
          = Ok (JObj [("success", JBool true); ("type", JStr "forecast");
                      ("city", name);
                      ("forecasts",
                       JArr (flat_map (fun i => match nth_error entries (Z.to_nat i) with
                                                | Some x => [x]
                                                | None => []
                                                end) [1]%Z));
                      ("days", JInt (Z.of_nat (List.length entries)));
                      ("filtered", JBool true)]).
Proof.
  intros net served.
  assert (Hserved : forall msg, served <> failure (JStr msg))
    by (intros msg H; vm_compute in H; discriminate).
  assert (Hreads : reads_as int_of_str (split_on ","%char "1") [1]%Z)
    by (unfold reads_as; vm_compute; repeat constructor).
  split; [exact Hserved |]. split; [exact Hreads |]. split; [reflexivity |].
  apply (filtered_forecast_keeps_days class_name int_of_str "北京" net "1" [1]%Z
           Hserved ltac:(discriminate) Hreads).
  apply Forall_cons; [lia | apply Forall_nil].
Defined.
